(** * LockFile: exclusive cross-platform file handles

    A shallow embedding of [source/lockfile.py] and the verification of
    its specification.  The Python class [LockFile] becomes a record
    together with its methods, written in a state-and-exception monad
    over the pair (operating-system world, [self]).  The two platform
    branches of the source ([platform.startswith("win32")] and the rest)
    are both embedded; the platform is a parameter of every method. *)

From Stdlib Require Import ZArith List String Ascii Bool Lia DecimalString.
From stdpp Require Import base option list gmap.

Local Open Scope Z_scope.

(** ** Python values *)

(** A Python [str] is its sequence of code points, a [bytes] object its
    sequence of byte values (each in [0, 256)). *)
Abbreviation str := (list Z).
Abbreviation bytes := (list Z).

Definition lit (s : string) : str :=
  map (fun a => Z.of_N (N_of_ascii a)) (list_ascii_of_string s).

Inductive pyval : Type :=
| PyNone
| PyInt (z : Z)
| PyStr (s : str)
| PyBytes (b : bytes)
| PyHandle (v : Z)   (* a ctypes HANDLE instance holding [v] *)
| PyFile (fd : Z)    (* an io stream object (an IOBase) *)
| PyObject (tag : Z) (* any other object: float, list, ... *).

#[global] Instance pyval_eq_dec : EqDecision pyval.
Proof. solve_decision. Defined.

Definition py_eq (a b : pyval) : bool := bool_decide (a = b).
Definition py_ne (a b : pyval) : bool := negb (py_eq a b).

Definition is_str (v : pyval) : bool :=
  match v with PyStr _ => true | _ => false end.
Definition is_bytes (v : pyval) : bool :=
  match v with PyBytes _ => true | _ => false end.
Definition is_int (v : pyval) : bool :=
  match v with PyInt _ => true | _ => false end.
Definition isinstance_HANDLE (v : pyval) : bool :=
  match v with PyHandle _ => true | _ => false end.
Definition isinstance_IOBase (v : pyval) : bool :=
  match v with PyFile _ => true | _ => false end.

Definition len {A} (l : list A) : Z := Z.of_nat (length l).

(** [s.startswith(p)], [s.endswith(p)], [c in s], [s.split(c)],
    [s.replace(c, "")], [s[n:]] *)
Fixpoint startswith (s p : str) : bool :=
  match p, s with
  | [], _ => true
  | _ :: _, [] => false
  | c :: p', d :: s' => (c =? d) && startswith s' p'
  end.
Definition endswith (s p : str) : bool := startswith (rev s) (rev p).
Definition contains (c : Z) (s : str) : bool := existsb (Z.eqb c) s.
Fixpoint split (c : Z) (s : str) : list str :=
  match s with
  | [] => [[]]
  | d :: s' =>
      if d =? c then [] :: split c s'
      else match split c s' with
           | [] => [[d]]
           | part :: parts => (d :: part) :: parts
           end
  end.
Definition remove_char (c : Z) (s : str) : str :=
  filter (fun d => d ≠ c) s.
Definition slice_from (n : Z) (s : str) : str := drop (Z.to_nat n) s.
Fixpoint find_from (c : Z) (s : str) (i : Z) : Z :=
  match s with
  | [] => -1
  | d :: s' => if d =? c then i else find_from c s' (i + 1)
  end.
(** [s.find(c, start)] *)
Definition find (c : Z) (s : str) (start : Z) : Z :=
  find_from c (slice_from start s) start.
(** [s.upper()], on the ASCII letters *)
Definition upper (s : str) : str :=
  map (fun c => if (97 <=? c) && (c <=? 122) then c - 32 else c) s.

(** ** Exceptions *)

Inductive exn : Type :=
| UnsupportedOperation (msg : string)
| TypeError (msg : string)
| ValueError (msg : string)
| FileNotFoundError (msg : string)
| OSError (msg : pyval)
| AttributeError (msg : string)
| UnicodeEncodeError
| UnicodeDecodeError
| LookupError
| OverflowError
| RecursionError.

(** The error kinds of the specification, as the exceptions the source
    raises for them. *)
Definition AlreadyOpen : exn :=
  UnsupportedOperation "Close the file first before opening another one.".
Definition NotOpen : exn :=
  UnsupportedOperation "The action cannot be performed until a file is opened.".
Definition InvalidType : exn :=
  TypeError "Only str and bytes data types are accepted.".
Definition InvalidFilename : exn :=
  ValueError "The file name has characters that are not allowed.".
Definition InvalidMode : exn :=
  ValueError "The mode is invalid. Valid modes: w, r, a, rw, wb, rb, ab and rwb".
Definition FileNotFound : exn :=
  FileNotFoundError "The file does not exist.".
Definition InvalidEncoding : exn :=
  TypeError "The encoding argument must be a string.".
Definition TypeMismatchBytes : exn :=
  TypeError "Only byte literals can be written.".
Definition TypeMismatchStr : exn :=
  TypeError "Only string literals can be written.".
Definition ReadOnlyMode : exn :=
  UnsupportedOperation "The file was not opened in write mode.".
Definition WriteOnlyMode : exn :=
  UnsupportedOperation "The file was not opened in read mode.".
Definition InvalidArgumentNChars : exn :=
  TypeError "n_chars must be a integer.".
Definition InvalidArgumentOffset : exn :=
  TypeError "The argument offset must be a positive or negative integer.".
Definition InvalidAnchor : exn :=
  ValueError "Invalid value, only begin, current and end are accepted.".
(** [OSError] carrying the native diagnostic is the specification's
    [LockOrOpenFailed] (from [Open]) and [IOFailure] (from a transfer). *)
Definition is_OSError (e : exn) : bool :=
  match e with OSError _ => true | _ => false end.

(** ** The state-and-exception monad

    A Python call may mutate state and then raise: the state reached at
    the raise is kept.  [Unfinished] is the result of a bounded unrolling
    of a loop or of a recursion that was given too few steps. *)

Inductive outcome (A : Type) : Type :=
| Return (a : A)
| Raise (e : exn)
| Unfinished.
Arguments Return {A} a.
Arguments Raise {A} e.
Arguments Unfinished {A}.

Definition M (S A : Type) : Type := S -> outcome A * S.

Definition ret {S A} (a : A) : M S A := fun s => (Return a, s).
Definition raise {S A} (e : exn) : M S A := fun s => (Raise e, s).
Definition unfinished {S A} : M S A := fun s => (Unfinished, s).
Definition bind {S A B} (m : M S A) (k : A -> M S B) : M S B :=
  fun s =>
    match m s with
    | (Return a, s') => k a s'
    | (Raise e, s') => (Raise e, s')
    | (Unfinished, s') => (Unfinished, s')
    end.
Definition get {S} : M S S := fun s => (Return s, s).
Definition put {S} (s : S) : M S unit := fun _ => (Return tt, s).
Definition modify {S} (f : S -> S) : M S unit := fun s => (Return tt, f s).

Notation "'do' x <- m ; k" := (bind m (fun x => k))
  (at level 10, x name, m at level 100, k at level 200).
Notation "'do' ' p <- m ; k" := (bind m (fun x => let 'p := x in k))
  (at level 10, p strict pattern, m at level 100, k at level 200).
Notation "m ;; k" := (bind m (fun _ => k))
  (at level 100, k at level 200, right associativity).
(** [if c: raise e] *)
Definition raise_if {S} (c : bool) (e : exn) : M S unit :=
  if c then raise e else ret tt.

(** ** Text codecs

    The two codecs the source names, [UTF-8] and [ISO-8859-1], as Python
    implements them with [errors="strict"].  Decoding yields, for each
    character, its code point and the number of bytes it occupied. *)

Inductive Codec : Type := UTF8 | Latin1.

Definition ch (a : ascii) : Z := Z.of_N (N_of_ascii a).

Definition is_surrogate (c : Z) : bool := (55296 <=? c) && (c <=? 57343).
Definition is_cont (b : Z) : bool := (128 <=? b) && (b <=? 191).

Definition utf8_encode_char (c : Z) : option bytes :=
  if c <? 0 then None
  else if c <? 128 then Some [c]
  else if c <? 2048 then Some [192 + c / 64; 128 + c mod 64]
  else if c <? 65536 then
    if is_surrogate c then None
    else Some [224 + c / 4096; 128 + (c / 64) mod 64; 128 + c mod 64]
  else if c <? 1114112 then
    Some [240 + c / 262144; 128 + (c / 4096) mod 64;
          128 + (c / 64) mod 64; 128 + c mod 64]
  else None.

Definition latin1_encode_char (c : Z) : option bytes :=
  if (0 <=? c) && (c <? 256) then Some [c] else None.

Fixpoint encode_with (f : Z -> option bytes) (s : str) : option bytes :=
  match s with
  | [] => Some []
  | c :: s' =>
      match f c, encode_with f s' with
      | Some b, Some bs => Some (b ++ bs)
      | _, _ => None
      end
  end.

Fixpoint utf8_spans (bs : bytes) : option (list (Z * Z)) :=
  match bs with
  | [] => Some []
  | b0 :: t0 =>
      if (0 <=? b0) && (b0 <? 128) then cons (b0, 1) <$> utf8_spans t0
      else if (194 <=? b0) && (b0 <? 224) then
        match t0 with
        | b1 :: t1 =>
            if is_cont b1
            then cons ((b0 - 192) * 64 + (b1 - 128), 2) <$> utf8_spans t1
            else None
        | _ => None
        end
      else if (224 <=? b0) && (b0 <? 240) then
        match t0 with
        | b1 :: b2 :: t2 =>
            let c := (b0 - 224) * 4096 + (b1 - 128) * 64 + (b2 - 128) in
            if is_cont b1 && is_cont b2 && (2048 <=? c) && negb (is_surrogate c)
            then cons (c, 3) <$> utf8_spans t2
            else None
        | _ => None
        end
      else if (240 <=? b0) && (b0 <? 245) then
        match t0 with
        | b1 :: b2 :: b3 :: t3 =>
            let c := (b0 - 240) * 262144 + (b1 - 128) * 4096
                     + (b2 - 128) * 64 + (b3 - 128) in
            if is_cont b1 && is_cont b2 && is_cont b3
               && (65536 <=? c) && (c <? 1114112)
            then cons (c, 4) <$> utf8_spans t3
            else None
        | _ => None
        end
      else None
  end.

Definition encode (c : Codec) (s : str) : option bytes :=
  match c with
  | UTF8 => encode_with utf8_encode_char s
  | Latin1 => encode_with latin1_encode_char s
  end.

Definition decode_spans (c : Codec) (bs : bytes) : option (list (Z * Z)) :=
  match c with
  | UTF8 => utf8_spans bs
  | Latin1 => Some (map (fun b => (b, 1)) bs)
  end.

(** [str(bs, encoding=...)] *)
Definition decode (c : Codec) (bs : bytes) : option str :=
  map fst <$> decode_spans c bs.

(** The codec registry, on the usual spellings of the two names. *)
Definition lookup_codec (name : str) : option Codec :=
  if bool_decide (name ∈ map lit ["UTF-8"; "utf-8"; "UTF8"; "utf8"]%string)
  then Some UTF8
  else if bool_decide
            (name ∈ map lit ["ISO-8859-1"; "iso-8859-1"; "latin-1"; "latin1"]%string)
  then Some Latin1
  else None.

(** Universal newlines, as a text stream opened with the default
    [newline=None] applies them on reading: ["\r\n"] and ["\r"] are
    returned as ["\n"]. *)
Fixpoint universal_newlines (l : list (Z * Z)) : list (Z * Z) :=
  match l with
  | [] => []
  | (c, k) :: rest =>
      if c =? 13 then
        match rest with
        | (c', k') :: rest' =>
            if c' =? 10 then (10, k + k') :: universal_newlines rest'
            else (10, k) :: universal_newlines rest
        | [] => [(10, k)]
        end
      else (c, k) :: universal_newlines rest
  end.

(** ** The operating-system world

    What the native primitives act on: the regular files by path, the
    paths that another process holds (open without sharing on win32,
    [flock]ed elsewhere), the paths on which the native open fails with
    an I/O error, and the native resources this process has open.  A
    resource is a win32 file handle or a Python stream; both carry a
    path, a cursor and the access they were opened with. *)

Record Stream : Type := {
  s_path : str;
  s_pos : Z;
  s_readable : bool;
  s_writable : bool;
  s_append : bool;
  s_text : option Codec;  (* [None]: a binary stream or a raw handle *)
  s_locked : bool
}.

Record World : Type := {
  w_files : gmap str bytes;
  w_foreign : gset str;
  w_faulty : gset str;
  w_open : gmap Z Stream;
  w_next : Z;
  w_lasterr : pyval  (* what [_GetMessageError()] returns now *)
}.

Definition set_files (f : gmap str bytes -> gmap str bytes) (w : World) : World :=
  {| w_files := f (w_files w); w_foreign := w_foreign w;
     w_faulty := w_faulty w; w_open := w_open w; w_next := w_next w;
     w_lasterr := w_lasterr w |}.
Definition set_open (f : gmap Z Stream -> gmap Z Stream) (w : World) : World :=
  {| w_files := w_files w; w_foreign := w_foreign w;
     w_faulty := w_faulty w; w_open := f (w_open w); w_next := w_next w;
     w_lasterr := w_lasterr w |}.
Definition set_next (n : Z) (w : World) : World :=
  {| w_files := w_files w; w_foreign := w_foreign w;
     w_faulty := w_faulty w; w_open := w_open w; w_next := n;
     w_lasterr := w_lasterr w |}.
Definition set_lasterr (e : pyval) (w : World) : World :=
  {| w_files := w_files w; w_foreign := w_foreign w;
     w_faulty := w_faulty w; w_open := w_open w; w_next := w_next w;
     w_lasterr := e |}.

Definition with_pos (p : Z) (s : Stream) : Stream :=
  {| s_path := s_path s; s_pos := p; s_readable := s_readable s;
     s_writable := s_writable s; s_append := s_append s;
     s_text := s_text s; s_locked := s_locked s |}.
Definition with_locked (b : bool) (s : Stream) : Stream :=
  {| s_path := s_path s; s_pos := s_pos s; s_readable := s_readable s;
     s_writable := s_writable s; s_append := s_append s;
     s_text := s_text s; s_locked := b |}.

(** The file at [path] is held: by another process, or under the lock of
    a resource of this process. *)
Definition held (w : World) (path : str) : Prop :=
  path ∈ w_foreign w
  ∨ map_Exists (fun _ s => s_path s = path ∧ s_locked s = true) (w_open w).

#[global] Instance held_dec w path : Decision (held w path).
Proof. unfold held. apply _. Defined.

Definition content (w : World) (path : str) : bytes :=
  default [] (w_files w !! path).

(** Writing [data] at offset [pos] of a file; a gap past the end reads
    as zeros. *)
Definition write_at (old : bytes) (pos : Z) (data : bytes) : bytes :=
  let p := Z.to_nat pos in
  take p (old ++ replicate (p - length old)%nat 0)
  ++ data ++ drop (p + length data)%nat old.

(** [os.path.exists], [os.path.getsize] *)
Definition path_exists (path : str) : M World bool :=
  fun w => (Return (bool_decide (is_Some (w_files w !! path))), w).

Definition getsize (path : pyval) : M World Z :=
  match path with
  | PyStr p =>
      fun w =>
        match w_files w !! p with
        | Some c => (Return (len c), w)
        | None => (Raise (OSError (PyStr (lit "No such file or directory"))), w)
        end
  | _ => raise (OSError (PyStr (lit "No such file or directory")))
  end.

Definition alloc (key : Z) (s : Stream) : M World unit :=
  modify (fun w => set_next (w_next w + 1) (set_open <[key := s]> w)).

(** ** Python streams: [open], [flock] and the stream methods
    (the platforms other than win32) *)

Definition closed_file : exn := ValueError "I/O operation on closed file.".
Definition no_attribute : exn :=
  AttributeError "NoneType object has no such attribute".
Definition no_such_file : exn :=
  OSError (PyStr (lit "No such file or directory")).
Definition would_block : exn :=
  OSError (PyStr (lit "Resource temporarily unavailable")).
Definition io_error : exn := OSError (PyStr (lit "Input/output error")).

(** [open(path, mode)] and [open(path, mode, encoding=...)]; without an
    encoding a text stream uses the default one, taken to be UTF-8. *)
Definition py_open (path mode : str) (encoding : option str) : M World pyval :=
  let binary := contains (ch "b") mode in
  let base := remove_char (ch "b") mode in
  let base_is m := bool_decide (base = m) in
  raise_if (negb (base_is (lit "r") || base_is (lit "w") || base_is (lit "a") || base_is (lit "r+")))
    (ValueError "invalid mode");;
  do w <- get;
  let present := bool_decide (is_Some (w_files w !! path)) in
  raise_if (bool_decide (path ∈ w_faulty w)) io_error;;
  raise_if ((base_is (lit "r") || base_is (lit "r+")) && negb present) no_such_file;;
  (if base_is (lit "w") || (base_is (lit "a") && negb present)
   then modify (set_files <[path := []]>)
   else ret tt);;
  do codec <-
    (if binary then ret None
     else match lookup_codec (default (lit "UTF-8") encoding) with
          | Some c => ret (Some c)
          | None => raise LookupError
          end);
  do w' <- get;
  let fd := w_next w' in
  alloc fd {| s_path := path;
              s_pos := if base_is (lit "a") then len (content w' path) else 0;
              s_readable := base_is (lit "r") || base_is (lit "r+");
              s_writable := base_is (lit "w") || base_is (lit "a") || base_is (lit "r+");
              s_append := base_is (lit "a");
              s_text := codec;
              s_locked := false |};;
  ret (PyFile fd).

Definition stream_of (file : pyval) : M World (Z * Stream) :=
  match file with
  | PyFile fd =>
      fun w =>
        match w_open w !! fd with
        | Some s => (Return (fd, s), w)
        | None => (Raise closed_file, w)
        end
  | _ => raise no_attribute
  end.

(** [flock(file, LOCK_EX | LOCK_NB)] *)
Definition flock (file : pyval) : M World unit :=
  do fs <- stream_of file;
  do w <- get;
  raise_if (bool_decide (held w (s_path (snd fs)))) would_block;;
  modify (set_open <[fst fs := with_locked true (snd fs)]>).

Definition file_tell (file : pyval) : M World Z :=
  do fs <- stream_of file;
  ret (s_pos (snd fs)).

Definition file_seek (file : pyval) (n : Z) : M World Z :=
  do fs <- stream_of file;
  raise_if (n <? 0) (ValueError "negative seek position");;
  raise_if (n >? 9223372036854775807) OverflowError;;
  modify (set_open <[fst fs := with_pos n (snd fs)]>);;
  ret n.

Definition sum_snd (l : list (Z * Z)) : Z := foldr (fun x acc => snd x + acc) 0 l.

Definition file_write (file : pyval) (data : pyval) : M World Z :=
  do fs <- stream_of file;
  let s := snd fs in
  do b <-
    match s_text s, data with
    | None, PyBytes b => ret b
    | Some c, PyStr t =>
        match encode c t with
        | Some b => ret b
        | None => raise UnicodeEncodeError
        end
    | _, _ => raise (TypeError "write() argument has the wrong type")
    end;
  raise_if (negb (s_writable s)) (UnsupportedOperation "not writable");;
  do w <- get;
  let old := content w (s_path s) in
  let at_ := if s_append s then len old else s_pos s in
  modify (set_files <[s_path s := write_at old at_ b]>);;
  modify (set_open <[fst fs := with_pos (at_ + len b) s]>);;
  ret (len b).

Definition file_read (file : pyval) (n : Z) : M World pyval :=
  do fs <- stream_of file;
  let s := snd fs in
  raise_if (negb (s_readable s)) (UnsupportedOperation "not readable");;
  do w <- get;
  let rest := drop (Z.to_nat (s_pos s)) (content w (s_path s)) in
  match s_text s with
  | None =>
      let data := if n <? 0 then rest else take (Z.to_nat n) rest in
      modify (set_open <[fst fs := with_pos (s_pos s + len data) s]>);;
      ret (PyBytes data)
  | Some c =>
      if n =? 0 then ret (PyStr [])
      else
        match decode_spans c rest with
        | None => raise UnicodeDecodeError
        | Some spans =>
            let chars := universal_newlines spans in
            let got := if n <? 0 then chars else take (Z.to_nat n) chars in
            modify (set_open <[fst fs := with_pos (s_pos s + sum_snd got) s]>);;
            ret (PyStr (map fst got))
        end
  end.

Definition file_close (file : pyval) : M World unit :=
  match file with
  | PyFile fd => modify (set_open (delete fd))
  | _ => raise no_attribute
  end.

(** ** The win32 primitives

    [CreateFileW] is always called with share mode 0, so it fails on a
    path that is held.  A failing primitive records its diagnostic, which
    [_GetMessageError] reads back. *)

Definition INVALID_HANDLE_VALUE : Z := 4294967295.

(** Kernel handles are multiples of four. *)
Definition handle_of (n : Z) : Z := 4 * (n + 1).

Definition wrap64 (z : Z) : Z :=
  (z + 9223372036854775808) mod 18446744073709551616 - 9223372036854775808.

Definition fail_with {A} (msg : string) (r : A) : M World A :=
  modify (set_lasterr (PyStr (lit msg)));; ret r.

Definition handle_of_val (h : pyval) : M World (option (Z * Stream)) :=
  fun w =>
    match h with
    | PyHandle v =>
        match w_open w !! v with
        | Some s => (Return (Some (v, s)), w)
        | None => (Return None, w)
        end
    | _ => (Return None, w)
    end.

Definition _CreateFile (name : pyval) (access : Z) (disposition : Z) : M World Z :=
  match name with
  | PyStr path =>
      do w <- get;
      let present := bool_decide (is_Some (w_files w !! path)) in
      if bool_decide (path ∈ w_faulty w)
      then fail_with "The request could not be performed because of an I/O device error."
             INVALID_HANDLE_VALUE
      else if bool_decide (held w path)
      then fail_with "The process cannot access the file because it is being used by another process."
             INVALID_HANDLE_VALUE
      else if (disposition =? 3) && negb present
      then fail_with "The system cannot find the file specified."
             INVALID_HANDLE_VALUE
      else if negb ((disposition =? 2) || (disposition =? 3))
      then fail_with "The parameter is incorrect." INVALID_HANDLE_VALUE
      else
        (if disposition =? 2 then modify (set_files <[path := []]>) else ret tt);;
        let h := handle_of (w_next w) in
        alloc h {| s_path := path; s_pos := 0;
                   s_readable := Z.testbit access 31;
                   s_writable := Z.testbit access 30;
                   s_append := false; s_text := None; s_locked := true |};;
        ret h
  | _ => fail_with "The parameter is incorrect." INVALID_HANDLE_VALUE
  end.

(** [SetFilePointerEx(h, distance, &out, method)]: the BOOL result and
    [out.value].  The distance is a LARGE_INTEGER and wraps. *)
Definition _SetFilePointer (h : pyval) (distance : Z) (method : Z) : M World (bool * Z) :=
  do hs <- handle_of_val h;
  match hs with
  | None => fail_with "The handle is invalid." (false, 0)
  | Some (v, s) =>
      do w <- get;
      let target :=
        (if method =? 0 then 0
         else if method =? 1 then s_pos s
         else len (content w (s_path s))) + wrap64 distance in
      if negb ((0 <=? method) && (method <=? 2))
      then fail_with "The parameter is incorrect." (false, 0)
      else if (target <? 0) || (target >? 9223372036854775807)
      then fail_with "An attempt was made to move the file pointer before the beginning of the file."
             (false, 0)
      else modify (set_open <[v := with_pos target s]>);; ret (true, target)
  end.

(** [WriteFile(h, buffer, n, ...)] *)
Definition _WriteFile (h : pyval) (buffer : bytes) (n : Z) : M World bool :=
  do hs <- handle_of_val h;
  match hs with
  | None => fail_with "The handle is invalid." false
  | Some (v, s) =>
      if negb (s_writable s) then fail_with "Access is denied." false
      else
        do w <- get;
        let data := take (Z.to_nat n) buffer in
        modify (set_files
                  <[s_path s := write_at (content w (s_path s)) (s_pos s) data]>);;
        modify (set_open <[v := with_pos (s_pos s + len data) s]>);;
        ret true
  end.

(** [ReadFile(h, address, n, ...)]: the BOOL result and the bytes stored
    at the address. *)
Definition _ReadFile (h : pyval) (n : Z) : M World (bool * bytes) :=
  do hs <- handle_of_val h;
  match hs with
  | None => fail_with "The handle is invalid." (false, [])
  | Some (v, s) =>
      if negb (s_readable s) then fail_with "Access is denied." (false, [])
      else
        do w <- get;
        let data :=
          take (Z.to_nat n) (drop (Z.to_nat (s_pos s)) (content w (s_path s))) in
        modify (set_open <[v := with_pos (s_pos s + len data) s]>);;
        ret (true, data)
  end.

Definition _CloseHandle (h : pyval) : M World bool :=
  do hs <- handle_of_val h;
  match hs with
  | None => fail_with "The handle is invalid." false
  | Some (v, _) => modify (set_open (delete v));; ret true
  end.

(** [GetFileSizeEx(h, &out)] *)
Definition _GetFileSize (h : pyval) : M World (bool * Z) :=
  do hs <- handle_of_val h;
  match hs with
  | None => fail_with "The handle is invalid." (false, 0)
  | Some (_, s) =>
      do w <- get;
      ret (true, len (content w (s_path s)))
  end.

Definition _GetMessageError : M World pyval :=
  do w <- get; ret (w_lasterr w).

(** [_MAKELANGID(primary, sublang)], with the precedence of the
    operators as Python reads them: [<<] before [&] before [|]. *)
Definition _MAKELANGID (primary sublang : Z) : Z :=
  Z.lor (Z.land primary 255) (Z.shiftl (Z.land sublang 255) 16).

(** ** Module-level definitions of [lockfile.py] *)

Inductive Platform : Type := Win32 | Posix.

(** [platform.startswith("win32")] *)
Definition win32 (pf : Platform) : bool :=
  match pf with Win32 => true | Posix => false end.

Definition WRITEMODE (pf : Platform) : pyval :=
  match pf with
  | Win32 => PyInt 1073741824
  | Posix => PyStr (lit "w")
  end.
Definition READMODE (pf : Platform) : pyval :=
  match pf with
  | Win32 => PyInt (-2147483648)
  | Posix => PyStr (lit "r")
  end.
Definition APPENDMODE (pf : Platform) : pyval :=
  match pf with
  | Win32 => WRITEMODE Win32
  | Posix => PyStr (lit "a")
  end.
Definition WRITEANDREADMODE (pf : Platform) : pyval :=
  match pf with
  | Win32 => PyInt (Z.lor 1073741824 (-2147483648))
  | Posix => PyStr (lit "r+")
  end.

(** Maximum data per iteration *)
Definition MAXDATAPERITE : Z := 100000.

(** [os.path.sep] and [os.path.splitdrive] of win32 *)
Definition sep : Z := 92.

Definition splitdrive (p : str) : str * str :=
  if 2 <=? len p then
    let normp := map (fun c => if c =? 47 then 92 else c) p in
    if bool_decide (take 2 normp = [92; 92])
       && negb (bool_decide (take 1 (drop 2 normp) = [92]))
    then
      let index := find 92 normp 2 in
      if index =? -1 then ([], p)
      else
        let index2 := find 92 normp (index + 1) in
        if index2 =? index + 1 then ([], p)
        else
          let index2 := if index2 =? -1 then len p else index2 in
          (take (Z.to_nat index2) p, drop (Z.to_nat index2) p)
    else if bool_decide (take 1 (drop 1 normp) = [58]) then (take 2 p, drop 2 p)
    else ([], p)
  else ([], p).

Definition reserved_names : list str :=
  map lit ["CON"; "PRN"; "AUX"; "CLOCK$"; "NUL"; "COM0"; "COM1"; "COM2";
           "COM3"; "COM4"; "COM5"; "COM6"; "COM7"; "COM8"; "COM9"; "LPT0";
           "LPT1"; "LPT2"; "LPT3"; "LPT4"; "LPT5"; "LPT6"; "LPT7"; "LPT8";
           "LPT9"]%string.

(** The characters < > : double-quote / | ? * *)
Definition forbidden_chars : list Z := [60; 62; 58; 34; 47; 124; 63; 42].

(** Check if the file name is valid. *)
Definition _ValidateFileName (pf : Platform) (filename : str) : bool :=
  if existsb (fun c => contains c filename) (map Z.of_nat (seq 0 32)) then false
  else if negb (win32 pf) then true
  else if existsb
            (fun name =>
               existsb (fun part => startswith (upper part) name)
                 (split sep filename))
            reserved_names
  then false
  else
    let filename :=
      if negb (bool_decide (fst (splitdrive filename) = []))
      then slice_from (len (fst (splitdrive filename)) + 1) filename
      else filename in
    let filename := split sep filename in
    if existsb (fun c => existsb (contains c) filename) forbidden_chars
    then false
    else true.

(** ** Formatting, as [__str__] uses it *)

(** [str(n)] of an integer *)
Definition str_of_int (n : Z) : str :=
  lit (NilZero.string_of_int (Z.to_int n)).

Definition hex_digit (d : Z) : Z := if d <? 10 then 48 + d else 87 + d.

(** [repr(b)] of a bytes object *)
Definition bytes_repr (b : bytes) : str :=
  let quote := if contains 39 b && negb (contains 34 b) then 34 else 39 in
  [98; quote]
  ++ flat_map
       (fun c =>
          if (c =? quote) || (c =? 92) then [92; c]
          else if c =? 9 then [92; 116]
          else if c =? 10 then [92; 110]
          else if c =? 13 then [92; 114]
          else if (c <? 32) || (c >=? 127)
          then [92; 120; hex_digit (c / 16); hex_digit (c mod 16)]
          else [c]) b
  ++ [quote].

(** The text a replacement field of an f-string gives: a [str] as it is,
    a [bytes] object by its [repr].  [_filename] holds nothing else; the
    text of another object is left abstract. *)
Definition format_value (v : pyval) : str :=
  match v with
  | PyStr s => s
  | PyBytes b => bytes_repr b
  | PyInt n => str_of_int n
  | PyNone => lit "None"
  | _ => lit "<object>"
  end.

(** ** The class [LockFile] *)

Module LockFile.

Record t : Type := {
  _filename : pyval;
  _mode : pyval;
  __file : pyval;
  __binary : bool
}.

Definition __modes : list pyval :=
  map (fun m => PyStr (lit m)) ["w"; "r"; "a"; "rw"; "wb"; "rb"; "ab"; "rwb"]%string.

(** The state a method runs in: the world and [self]. *)
Definition St : Type := World * t.

Definition self : M St t := fun s => (Return (snd s), s).
Definition set_self (f : t -> t) : M St unit :=
  modify (fun s => (fst s, f (snd s))).
Definition native {A} (m : M World A) : M St A :=
  fun s => (fst (m (fst s)), (snd (m (fst s)), snd s)).

Definition set_filename (v : pyval) : M St unit :=
  set_self (fun o => {| _filename := v; _mode := _mode o;
                        __file := __file o; __binary := __binary o |}).
Definition set_mode (v : pyval) : M St unit :=
  set_self (fun o => {| _filename := _filename o; _mode := v;
                        __file := __file o; __binary := __binary o |}).
Definition set_file (v : pyval) : M St unit :=
  set_self (fun o => {| _filename := _filename o; _mode := _mode o;
                        __file := v; __binary := __binary o |}).
Definition set_binary (b : bool) : M St unit :=
  set_self (fun o => {| _filename := _filename o; _mode := _mode o;
                        __file := __file o; __binary := b |}).

Definition as_str (v : pyval) : str :=
  match v with PyStr s => s | _ => [] end.
Definition as_int (v : pyval) : Z :=
  match v with PyInt z => z | _ => 0 end.
Definition handle_value (v : pyval) : Z :=
  match v with PyHandle h => h | _ => 0 end.

Section Methods.

Variable pf : Platform.

(** Check if the file is open. *)
Definition _HaveFileOpen : M St unit :=
  do s <- self;
  if win32 pf
  then raise_if (negb (isinstance_HANDLE (__file s))) NotOpen
  else raise_if (negb (isinstance_IOBase (__file s))) NotOpen.

(** Method that is called after validating everything in [Seek].
    Windows only. *)
Definition __Seek (offset : Z) (startpoint : Z) : M St Z :=
  do s <- self;
  do r <- native (_SetFilePointer (__file s) offset startpoint);
  if negb (fst r)
  then do msg <- native _GetMessageError; raise (OSError msg)
  else ret (snd r).

Definition GetFileSize : M St Z :=
  _HaveFileOpen;;
  do s <- self;
  if win32 pf then
    do r <- native (_GetFileSize (__file s));
    if negb (fst r)
    then do msg <- native _GetMessageError; raise (OSError msg)
    else ret (snd r)
  else native (getsize (_filename s)).

Definition begin_ : pyval := PyStr (lit "begin").
Definition current : pyval := PyStr (lit "current").
Definition end_ : pyval := PyStr (lit "end").

(** [Seek], unrolled to a recursion depth: a nested call is always made
    with the anchor [current], which makes no further call. *)
Fixpoint Seek_ (depth : nat) (offset startpoint : pyval) : M St Z :=
  match depth with
  | O => unfinished
  | S depth' =>
      _HaveFileOpen;;
      raise_if (negb (is_int offset)) InvalidArgumentOffset;;
      let off := as_int offset in
      if win32 pf then
        let LARGE_INTEGER_size := 2 ^ (8 * 8) in
        do last_offset <- __Seek 0 1;
        do r <-
          (if (off <? 0) && py_eq startpoint begin_ then ret (inr 0)
           else if (off <? 0) && py_eq startpoint end_ then
             __Seek 0 2;;
             do v <- Seek_ depth' offset current;
             ret (inl v)
           else if (off <? 0) && (last_offset + off <? 0)
           then ret (inr (- last_offset))
           else if off >? LARGE_INTEGER_size / 2 - 1 + last_offset
           then ret (inr (LARGE_INTEGER_size / 2 - 1 - last_offset))
           else ret (inr off));
        match r with
        | inl v => ret v
        | inr off =>
            do startpoint <-
              (if py_eq startpoint begin_ then ret 0
               else if py_eq startpoint current then ret 1
               else if py_eq startpoint end_ then ret 2
               else raise InvalidAnchor);
            __Seek off startpoint
        end
      else
        do s <- self;
        if py_eq startpoint begin_ then
          native (file_seek (__file s) 0);;
          Seek_ depth' offset current
        else if py_eq startpoint current then
          do last_offset <- native (file_tell (__file s));
          if (off <? 0) && (last_offset + off <? 0)
          then native (file_seek (__file s) 0)
          else if off <? 0
          then native (file_seek (__file s) (last_offset + off))
          else if off =? 0
          then native (file_tell (__file s))
          else native (file_seek (__file s) (last_offset + off))
        else if py_eq startpoint end_ then
          do size <- GetFileSize;
          native (file_seek (__file s) size);;
          Seek_ depth' offset current
        else raise InvalidAnchor
  end.

Definition Seek (offset startpoint : pyval) : M St Z := Seek_ 2 offset startpoint.

Definition Seek2 (pos : pyval) : M St Z := Seek pos begin_.

Definition Open (filename mode encoding : pyval) : M St unit :=
  do s <- self;
  (if win32 pf
   then raise_if (isinstance_HANDLE (__file s) && py_ne (_filename s) (PyStr []))
          AlreadyOpen
   else raise_if (isinstance_IOBase (__file s) && py_ne (_filename s) (PyStr []))
          AlreadyOpen);;
  raise_if (negb (is_str filename)) InvalidType;;
  raise_if (negb (_ValidateFileName pf (as_str filename))) InvalidFilename;;
  set_filename filename;;
  raise_if (negb (bool_decide (mode ∈ __modes))) InvalidMode;;
  let m := as_str mode in
  let disposition_for_existing :=
    if win32 pf
    then do e <- native (path_exists (as_str filename));
         ret (if negb e then 2 else 3)
    else ret 0 in
  do createdisposition <-
    (if startswith m (lit "rw") then  (* Create new or open existing. *)
       set_mode (WRITEANDREADMODE pf);;
       disposition_for_existing
     else if startswith m (lit "w") then  (* Create new. *)
       set_mode (WRITEMODE pf);;
       ret (if win32 pf then 2 else 0)
     else if startswith m (lit "r") then  (* Read existing. *)
       do e <- native (path_exists (as_str filename));
       raise_if (negb e) FileNotFound;;
       set_mode (READMODE pf);;
       ret (if win32 pf then 3 else 0)
     else if startswith m (lit "a") then  (* Create new or open existing. *)
       set_mode (APPENDMODE pf);;
       disposition_for_existing
     else ret 0);
  (* Habilite binary mode. *)
  (if negb (win32 pf) && endswith m (lit "b") then
     do s <- self;
     set_mode (PyStr (as_str (_mode s) ++ lit "b"));;
     set_binary true
   else if endswith m (lit "b") then set_binary true
   else ret tt);;
  if win32 pf then
    do s <- self;
    do h <- native (_CreateFile (_filename s) (as_int (_mode s)) createdisposition);
    set_file (PyHandle h);;
    (if h =? 4294967295
     then do msg <- native _GetMessageError; raise (OSError msg)
     else ret tt);;
    if py_eq mode (PyStr (lit "a"))
    then Seek (PyInt 0) end_;; ret tt
    else ret tt
  else  (* Other systems *)
    do encoding <-
      (if py_eq encoding PyNone then ret (PyStr (lit "UTF-8"))
       else if negb (is_str encoding) then raise InvalidEncoding
       else ret encoding);
    do s <- self;
    (if startswith (as_str (_mode s)) (lit "r+") then
       do e <- native (path_exists (as_str filename));
       if negb e then
         do f <- native (py_open (as_str filename) (lit "w") None);
         native (file_close f)
       else ret tt
     else ret tt);;
    do f <-
      (if __binary s
       then native (py_open (as_str filename) (as_str (_mode s)) None)
       else native (py_open (as_str filename) (as_str (_mode s))
                      (Some (as_str encoding))));
    set_file f;;
    native (flock f);;
    do s <- self;
    set_mode (PyStr (remove_char (ch "b") (as_str (_mode s)))).

(** The [while] loop of [Write] (win32), unrolled [fuel] times. *)
Fixpoint Write_loop (fuel : nat) (data : bytes) (count : Z) : M St unit :=
  if negb (len data =? count) then
    match fuel with
    | O => unfinished
    | S fuel' =>
        do s <- self;
        do r <-
          (if len data - count >? MAXDATAPERITE then
             do _return <-
               native (_WriteFile (__file s) (slice_from count data) MAXDATAPERITE);
             ret (_return, count + MAXDATAPERITE)
           else
             do _return <-
               native (_WriteFile (__file s) (slice_from count data)
                         (len (slice_from count data)));
             ret (_return, len data));
        if negb (fst r)
        then do msg <- native _GetMessageError; raise (OSError msg)
        else Write_loop fuel' data (snd r)
    end
  else ret tt.

Definition Write (data : pyval) : M St unit :=
  _HaveFileOpen;;
  do s <- self;
  (if __binary s && negb (is_bytes data) then raise TypeMismatchBytes
   else if negb (__binary s) && negb (is_str data) then raise TypeMismatchStr
   else ret tt);;
  raise_if (py_eq (_mode s) (READMODE pf)) ReadOnlyMode;;
  if win32 pf then
    do data <-
      match data with
      | PyStr text =>
          match encode UTF8 text with
          | Some b => ret b
          | None => raise UnicodeEncodeError
          end
      | PyBytes b => ret b
      | _ => ret []
      end;
    Write_loop (S (Z.to_nat (len data / MAXDATAPERITE))) data 0
  else
    native (file_write (__file s) data);;
    ret tt.

(** Converts a byte literal to a string literal.  Windows only. *)
Definition _BytesToStr (l_bytes : bytes) : str :=
  match decode UTF8 l_bytes with
  | Some text => text
  | None => default [] (decode Latin1 l_bytes)
  end.

(** Storing the bytes a native read delivered at offset [count] of the
    buffer [out]. *)
Definition store (out : bytes) (count : Z) (data : bytes) : bytes :=
  take (Z.to_nat count) out ++ data
  ++ drop (Z.to_nat count + length data)%nat out.

(** The [while] loop of [Read] (win32), unrolled [fuel] times. *)
Fixpoint Read_loop (fuel : nat) (out : bytes) (n_chars count : Z) : M St bytes :=
  if negb (n_chars - count =? 0) then
    match fuel with
    | O => unfinished
    | S fuel' =>
        do s <- self;
        do r <-
          (if n_chars - count >? MAXDATAPERITE then
             do _return <- native (_ReadFile (__file s) MAXDATAPERITE);
             ret (_return, count + MAXDATAPERITE)
           else
             do _return <- native (_ReadFile (__file s) (n_chars - count));
             ret (_return, n_chars));
        if negb (fst (fst r))
        then do msg <- native _GetMessageError; raise (OSError msg)
        else Read_loop fuel' (store out count (snd (fst r))) n_chars (snd r)
    end
  else ret out.

Definition Read (n_chars : pyval) : M St pyval :=
  _HaveFileOpen;;
  do s <- self;
  raise_if (py_eq (_mode s) (WRITEMODE pf)) WriteOnlyMode;;
  raise_if (negb (is_int n_chars)) InvalidArgumentNChars;;
  let n_chars := as_int n_chars in
  do n_chars <-
    (do pos <- Seek (PyInt 0) current;
     do size <- GetFileSize;
     if pos >=? size then ret 0
     else
       do size <- GetFileSize;
       do pos <- Seek (PyInt 0) current;
       if size - pos + n_chars + 1 <? 0 then ret 0
       else if n_chars <? 0 then
         do size <- GetFileSize;
         do pos <- Seek (PyInt 0) current;
         ret (size - pos + (n_chars + 1))
       else
         do pos <- Seek (PyInt 0) current;
         do size <- GetFileSize;
         if pos + n_chars >? size then
           do size <- GetFileSize;
           do pos <- Seek (PyInt 0) current;
           ret (size - pos)
         else ret n_chars);
  if win32 pf then
    do out <-
      Read_loop (S (Z.to_nat (n_chars / MAXDATAPERITE)))
        (replicate (Z.to_nat n_chars) 0) n_chars 0;
    if __binary s then ret (PyBytes out)
    else ret (PyStr (_BytesToStr out))
  else native (file_read (__file s) n_chars).

(** Close the file. *)
Definition Close : M St unit :=
  do s <- self;
  (if win32 pf
   then if isinstance_HANDLE (__file s)
        then native (_CloseHandle (__file s));; ret tt
        else ret tt
   else if isinstance_IOBase (__file s)
        then native (file_close (__file s))
        else ret tt);;
  set_filename (PyBytes []);;
  set_mode PyNone;;
  set_file PyNone;;
  set_binary false.

Definition GetCursorPos : M St Z :=
  if win32 pf then __Seek 0 1
  else do s <- self; native (file_tell (__file s)).

Definition IsWriteable : M St bool :=
  do s <- self; ret (py_ne (_mode s) (READMODE pf)).

Definition IsReadable : M St bool :=
  do s <- self; ret (py_ne (_mode s) (WRITEMODE pf)).

Definition IsBinary : M St bool :=
  do s <- self; ret (__binary s).

Definition __str__ : M St str :=
  do s <- self;
  let name := format_value (_filename s) in
  do size <- GetFileSize;
  ret (lit "File: " ++ name ++ lit " | Size: " ++ str_of_int size ++ lit " Bytes").

Definition __repr__ : M St str := __str__.

Definition __enter__ : M St t := self.

Definition __exit__ (exc_type exc_value traceback : pyval) : M St unit :=
  Close.

Definition __del__ : M St unit := Close.

(** [with self: body], as the interpreter runs it on [__enter__] and
    [__exit__]: [__exit__] is called when the body returns and when it
    raises; it returns [None], so an exception of the body is raised
    again. *)
Definition with_ {A} (body : M St A) : M St A :=
  __enter__;;
  fun s =>
    match body s with
    | (Return a, s') => (__exit__ PyNone PyNone PyNone;; ret a) s'
    | (Raise e, s') =>
        (__exit__ (PyObject 0) (PyObject 0) (PyObject 0);; raise e) s'
    | (Unfinished, s') => (Unfinished, s')
    end.

(** The object as [__init__] sets it up before it may call [Open]. *)
Definition fresh : t :=
  {| _filename := PyStr []; _mode := PyNone; __file := PyNone;
     __binary := false |}.

(** [LockFile(filename, mode, encoding)]: the constructed object, or the
    exception that left the constructor. *)
Definition __init__ (filename mode encoding : pyval) : M World t :=
  fun w =>
    if py_ne filename PyNone || py_ne mode PyNone then
      match Open filename mode encoding (w, fresh) with
      | (Return _, s) => (Return (snd s), fst s)
      | (Raise e, s) => (Raise e, fst s)
      | (Unfinished, s) => (Unfinished, fst s)
      end
    else (Return fresh, w).

End Methods.

End LockFile.

(** The module-level [Open(filename, mode, encoding)]. *)
Definition Open (pf : Platform) (filename mode encoding : pyval) : M World LockFile.t :=
  LockFile.__init__ pf filename mode encoding.

(** A second name for it, for where the methods of the class are used
    unqualified. *)
Abbreviation module_Open := Open.

(** ** Notions the properties are stated with *)

(** The largest file offset, [2 ** 63 - 1]. *)
Definition MAXOFFSET : Z := 9223372036854775807.

(** The handle [h] is open on the live native resource [k], whose state
    is [st], over a file with content [c]: what a successful [Open]
    establishes and the data operations maintain. *)
Record bound (pf : Platform) (w : World) (h : LockFile.t)
    (k : Z) (st : Stream) (c : bytes) : Prop := {
  bound_file :
    LockFile.__file h = (if win32 pf then PyHandle k else PyFile k);
  bound_live : w_open w !! k = Some st;
  bound_name : LockFile._filename h = PyStr (s_path st);
  bound_content : w_files w !! s_path st = Some c;
  bound_pos : 0 <= s_pos st <= MAXOFFSET;
  bound_kind :
    s_text st = None <-> (win32 pf = true \/ LockFile.__binary h = true)
}.

(** The handle was opened for reading: with a mode token [r] or [rw]. *)
Definition opened_for_reading (pf : Platform) (h : LockFile.t) (st : Stream) : Prop :=
  (LockFile._mode h = READMODE pf \/ LockFile._mode h = WRITEANDREADMODE pf)
  /\ s_readable st = true.

(** The length [Read] transfers, as the source computes it from the
    cursor position, the file size and the requested length. *)
Definition effective_length (pos size n : Z) : Z :=
  if pos >=? size then 0
  else if size - pos + n + 1 <? 0 then 0
  else if n <? 0 then size - pos + (n + 1)
  else if pos + n >? size then size - pos
  else n.

(** The length-clamping rule in the words of the specification. *)
Definition spec_effective_length (pos size n : Z) : Z :=
  if pos >=? size then 0
  else if n <? 0 then Z.max 0 (size - pos + n + 1)
  else if pos + n >? size then size - pos
  else n.

(** The number of units (characters or bytes) of a value read. *)
Definition units (v : pyval) : Z :=
  match v with
  | PyStr s => len s
  | PyBytes b => len b
  | _ => 0
  end.

(** The position a seek is measured from, and its normalized target in
    the words of the specification. *)
Definition anchor_base (startpoint : pyval) (pos size : Z) : Z :=
  if py_eq startpoint LockFile.begin_ then 0
  else if py_eq startpoint LockFile.current then pos
  else size.

Definition spec_seek_target (startpoint : pyval) (pos size offset : Z) : Z :=
  Z.max 0 (anchor_base startpoint pos size + offset).

(** The invariant of the data model: a mode is bound exactly when a
    native resource is. *)
Definition mode_iff_resource (h : LockFile.t) : Prop :=
  LockFile._mode h <> PyNone <-> LockFile.__file h <> PyNone.

(** The fields as [Close] leaves them. *)
Definition cleared : LockFile.t :=
  {| LockFile._filename := PyBytes []; LockFile._mode := PyNone;
     LockFile.__file := PyNone; LockFile.__binary := false |}.

(** The handle holds a native resource, as [_HaveFileOpen] tests it. *)
Definition is_open (pf : Platform) (h : LockFile.t) : bool :=
  if win32 pf then isinstance_HANDLE (LockFile.__file h)
  else isinstance_IOBase (LockFile.__file h).

(** The key of the native resource a handle holds. *)
Definition resource_key (h : LockFile.t) : option Z :=
  match LockFile.__file h with
  | PyHandle k => Some k
  | PyFile k => Some k
  | _ => None
  end.

(** A string the UTF-8 codec can encode: Unicode scalar values only. *)
Definition scalar (c : Z) : bool :=
  (0 <=? c) && (c <? 1114112) && negb (is_surrogate c).

(** The data of a round trip: any byte sequence in binary mode; in text
    mode a string of scalar values which, where the platform reads
    through a text stream, has no carriage return. *)
Definition round_trips (pf : Platform) (d : pyval) : Prop :=
  match d with
  | PyBytes _ => True
  | PyStr s =>
      forallb scalar s = true
      /\ (win32 pf = false -> contains 13 s = false)
  | _ => False
  end.

(** The mode tokens of a round trip on [d]. *)
Definition write_token (d : pyval) : pyval :=
  PyStr (lit (if is_bytes d then "wb" else "w")).
Definition read_token (d : pyval) : pyval :=
  PyStr (lit (if is_bytes d then "rb" else "r")).

(** The scenario of a round trip: open for writing, write, close, open
    for reading, read with [n = -1]. *)
Definition round_trip (pf : Platform) (path : str) (d : pyval) : M LockFile.St pyval :=
  LockFile.Open pf (PyStr path) (write_token d) PyNone;;
  LockFile.Write pf d;;
  LockFile.Close pf;;
  LockFile.Open pf (PyStr path) (read_token d) PyNone;;
  LockFile.Read pf (PyInt (-1)).

(** *** Concrete worlds and scenarios *)

Definition t_txt : str := lit "t.txt".

(** No file, nothing open. *)
Definition empty_world : World :=
  {| w_files := ∅; w_foreign := ∅; w_faulty := ∅; w_open := ∅;
     w_next := 3; w_lasterr := PyNone |}.

(** The file [t.txt] with content [c], nothing open. *)
Definition world_with (c : bytes) : World :=
  {| w_files := {[ t_txt := c ]}; w_foreign := ∅; w_faulty := ∅;
     w_open := ∅; w_next := 3; w_lasterr := PyNone |}.

(** The file [t.txt] with content [c], held by another process. *)
Definition world_held_elsewhere (c : bytes) : World :=
  {| w_files := {[ t_txt := c ]}; w_foreign := {[ t_txt ]}; w_faulty := ∅;
     w_open := ∅; w_next := 3; w_lasterr := PyNone |}.

(** A run, and the state it leaves. *)
Definition result {S A} (r : outcome A * S) : outcome A := fst r.
Definition self_after {A} (r : outcome A * LockFile.St) : LockFile.t := snd (snd r).
Definition world_after {A} (r : outcome A * LockFile.St) : World := fst (snd r).

(** The world after the cursor of the resource [k] moved to [p]. *)
Definition move (w : World) (k : Z) (st : Stream) (p : Z) : World :=
  set_open <[k := with_pos p st]> w.

(** The resource a native open creates, and the world once it is
    allocated under [key] ([alloc]). *)
Definition new_stream (path : str) (pos : Z) (readable writable append : bool)
    (text : option Codec) (locked : bool) : Stream :=
  {| s_path := path; s_pos := pos; s_readable := readable;
     s_writable := writable; s_append := append; s_text := text;
     s_locked := locked |}.

Definition allocated (w : World) (key : Z) (s : Stream) : World :=
  set_next (w_next w + 1) (set_open <[key := s]> w).

(** The bytes a value is stored as: the bytes themselves, or the UTF-8
    encoding of a string. *)
Definition stored_as (d : pyval) : option bytes :=
  match d with
  | PyBytes b => Some b
  | PyStr s => encode UTF8 s
  | _ => None
  end.

(** *** Outcomes and fields of a run, whatever the world *)

(** [m] raises only exceptions that satisfy [P]. *)
Definition raises_only {S A} (m : M S A) (P : exn -> Prop) : Prop :=
  forall s e, fst (m s) = Raise e -> P e.

(** Run on a handle with the fields [h], in any world, [m] ends in an
    outcome and in fields that satisfy [Q]. *)
Definition ends_in {A} (m : M LockFile.St A) (h : LockFile.t)
    (Q : outcome A -> LockFile.t -> Prop) : Prop :=
  forall w, Q (fst (m (w, h))) (snd (snd (m (w, h)))).

(** The errors with which [Open] rejects a call before it binds a mode. *)
Definition rejected_early (e : exn) : Prop :=
  e = AlreadyOpen \/ e = InvalidType \/ e = InvalidFilename
  \/ e = InvalidMode \/ e = FileNotFound.

(** An operation keeps the fields of [self] and raises nothing that
    [Open] rejects a call with. *)
Definition keeps_self {A} (m : M LockFile.St A) : Prop :=
  forall h,
    ends_in m h
      (fun r h' =>
         h' = h /\ match r with Raise e => ~ rejected_early e | _ => True end).

(** An exception other than those. *)
Definition late (e : exn) : Prop := ~ rejected_early e.

(** What [Open] guarantees of a handle with the fields [h]: on success a
    mode is bound and the handle holds a resource; when it rejects the
    call early, the mode and the resource are as they were. *)
Definition Open_post (pf : Platform) (h : LockFile.t)
    (r : outcome unit) (h' : LockFile.t) : Prop :=
  match r with
  | Return _ => LockFile._mode h' <> PyNone /\ is_open pf h' = true
  | Raise e =>
      rejected_early e ->
      LockFile._mode h' = LockFile._mode h
      /\ LockFile.__file h' = LockFile.__file h
  | Unfinished => True
  end.

(** The state after [t.txt], with content [c], was opened with the mode
    token [mode] on a new handle. *)
Definition opened (pf : Platform) (mode : string) (c : bytes) : LockFile.St :=
  snd (LockFile.Open pf (PyStr t_txt) (PyStr (lit mode)) PyNone
         (world_with c, LockFile.fresh)).

(** The key and the state of the resource of [opened pf "r" c]. *)
Definition opened_key (pf : Platform) : Z :=
  if win32 pf then handle_of 3 else 3.
Definition opened_stream (pf : Platform) : Stream :=
  new_stream t_txt 0 true false false
    (if win32 pf then None else Some UTF8) true.

(** *** Notions of the further properties *)

(** A control character: one of [chr(0)], ..., [chr(31)]. *)
Definition control (c : Z) : Prop := 0 <= c < 32.

(** The part of a win32 file name that is searched for forbidden
    characters: what follows the drive and one more character. *)
Definition after_drive (filename : str) : str :=
  if negb (bool_decide (fst (splitdrive filename) = []))
  then slice_from (len (fst (splitdrive filename)) + 1) filename
  else filename.

(** The fields of [h] with the file name bound to [fn]. *)
Definition named (fn : pyval) (h : LockFile.t) : LockFile.t :=
  {| LockFile._filename := fn; LockFile._mode := LockFile._mode h;
     LockFile.__file := LockFile.__file h;
     LockFile.__binary := LockFile.__binary h |}.

(** The anchors [Seek] accepts. *)
Definition anchor (startpoint : pyval) : Prop :=
  startpoint = LockFile.begin_ \/ startpoint = LockFile.current
  \/ startpoint = LockFile.end_.

(** The data has the type the handle writes. *)
Definition writes_type (h : LockFile.t) (d : pyval) : bool :=
  if LockFile.__binary h then is_bytes d else is_str d.

(** A native primitive that leaves the content of every file alone. *)
Definition reads_only {A} (m : M World A) : Prop :=
  forall w, w_files (snd (m w)) = w_files w.

(** An operation that leaves the content of every file alone, whatever
    the state it is run in and whatever its outcome. *)
Definition leaves_files {A} (m : M LockFile.St A) : Prop :=
  forall s, w_files (fst (snd (m s))) = w_files (fst s).

(** The file content after [b] was written over [c] at offset [pos]. *)
Definition overwritten (c : bytes) (pos : Z) (b : bytes) : bytes :=
  take (Z.to_nat pos) c ++ b ++ drop (Z.to_nat (pos + len b)) c.

(** The empty value a read returns. *)
Definition empty_value (binary : bool) : pyval :=
  if binary then PyBytes [] else PyStr [].

(** The resource of the handle can be written through at its cursor: the
    handle was not opened for reading only, the resource is writable and
    not in append mode, a text stream encodes in UTF-8, and the cursor
    lies within the file. *)
Record writes_at_cursor (pf : Platform) (h : LockFile.t) (st : Stream)
    (c : bytes) : Prop := {
  wr_mode : LockFile._mode h <> READMODE pf;
  wr_writable : s_writable st = true;
  wr_append : s_append st = false;
  wr_codec : s_text st = None \/ s_text st = Some UTF8;
  wr_within : s_pos st <= len c
}.

(** [Write(b); Seek2(pos); Read(len(b))]: reading back through the same
    handle what was just written. *)
Definition write_then_read_back (pf : Platform) (b : bytes) (pos : Z)
    : M LockFile.St pyval :=
  LockFile.Write pf (PyBytes b);;
  LockFile.Seek2 pf (PyInt pos);;
  LockFile.Read pf (PyInt (len b)).

(** No resource is open under a key that [alloc] has yet to hand out. *)
Definition keys_fresh (w : World) : Prop :=
  forall k, w_next w <= k -> w_open w !! k = None.

(** The mode tokens by the access they ask for. *)
Definition read_only_token (m : pyval) : bool :=
  py_eq m (PyStr (lit "r")) || py_eq m (PyStr (lit "rb")).
Definition write_only_token (m : pyval) : bool :=
  py_eq m (PyStr (lit "w")) || py_eq m (PyStr (lit "wb")).
Definition append_token (m : pyval) : bool :=
  py_eq m (PyStr (lit "a")) || py_eq m (PyStr (lit "ab")).
Definition binary_token (m : pyval) : bool :=
  endswith (LockFile.as_str m) (lit "b").

(** What a successful [Open] leaves in the fields of a handle that had
    the fields [h]. *)
Definition Open_binds (pf : Platform) (fn m : pyval) (h : LockFile.t)
    (r : outcome unit) (h' : LockFile.t) : Prop :=
  r = Return tt ->
  m ∈ LockFile.__modes
  /\ LockFile._filename h' = fn
  /\ LockFile.__binary h' = LockFile.__binary h || binary_token m
  /\ py_ne (LockFile._mode h') (READMODE pf) = negb (read_only_token m)
  /\ (append_token m = false ->
      py_ne (LockFile._mode h') (WRITEMODE pf) = negb (write_only_token m)).

(** The fields of a handle that [Open] bound to the resource [k] on the
    file [p], with the mode [mode]. *)
Definition opened_as (pf : Platform) (p : str) (mode : pyval) (k : Z)
    (binary : bool) : LockFile.t :=
  {| LockFile._filename := PyStr p; LockFile._mode := mode;
     LockFile.__file := (if win32 pf then PyHandle k else PyFile k);
     LockFile.__binary := binary |}.

(** A resource as [Open] leaves it: locked, its cursor at the start. *)
Definition at_start (st : Stream) (readable writable : bool) : Prop :=
  s_pos st = 0 /\ s_locked st = true
  /\ s_readable st = readable /\ s_writable st = writable.

(** The text [str(handle)] gives for a file name and a size. *)
Definition described (name : str) (size : Z) : str :=
  lit "File: " ++ name ++ lit " | Size: " ++ str_of_int size ++ lit " Bytes".

(** The resource of [opened Posix "rwb" c]. *)
Definition update_stream : Stream :=
  new_stream t_txt 0 true true false None true.


(** The file name field holds text: a [str], or the empty [bytes] that
    [Close] stores. *)
Definition name_is_text (h : LockFile.t) : Prop :=
  is_str (LockFile._filename h) = true \/ LockFile._filename h = PyBytes [].

(** [Open] leaves the file name field as it was or binds it to its
    argument, which then is a [str]. *)
Definition Open_names (fn : pyval) (h : LockFile.t)
    (r : outcome unit) (h' : LockFile.t) : Prop :=
  LockFile._filename h' = LockFile._filename h
  \/ (is_str fn = true /\ LockFile._filename h' = fn).

(** * Properties *)

Import LockFile.

(** *** Outcomes whatever the world *)

Ltac late :=
  unfold late, rejected_early, AlreadyOpen, InvalidType, InvalidFilename,
    InvalidMode, FileNotFound;
  let H := fresh in
  intros H; repeat destruct H as [H|H]; discriminate H.

Section Raises.

Context {S : Type}.

Lemma raises_ret {A} (a : A) P : raises_only (S := S) (ret a) P.
Proof. intros s e. discriminate. Qed.

Lemma raises_raise {A} e (P : exn -> Prop) :
  P e -> raises_only (S := S) (A := A) (raise e) P.
Proof. intros H s e' [= <-]. exact H. Qed.

Lemma raises_unfinished {A} P : raises_only (S := S) (A := A) unfinished P.
Proof. intros s e. discriminate. Qed.

Lemma raises_get P : raises_only (S := S) get P.
Proof. intros s e. discriminate. Qed.

Lemma raises_modify f P : raises_only (S := S) (modify f) P.
Proof. intros s e. discriminate. Qed.

Lemma raises_bind {A B} (m : M S A) (k : A -> M S B) P :
  raises_only m P -> (forall a, raises_only (k a) P) -> raises_only (bind m k) P.
Proof.
  intros Hm Hk s e. unfold bind.
  destruct (m s) as [[a|e'|] s'] eqn:E; cbn.
  - apply Hk.
  - intros [= <-]. apply (Hm s). rewrite E. reflexivity.
  - discriminate.
Qed.

Lemma raises_raise_if c e (P : exn -> Prop) :
  P e -> raises_only (S := S) (raise_if c e) P.
Proof. intros H. destruct c; [apply raises_raise, H|apply raises_ret]. Qed.

End Raises.

Ltac raises_step :=
  lazymatch goal with
  | |- raises_only (bind _ _) _ => apply raises_bind; [|intros ?]
  | |- raises_only (ret _) _ => apply raises_ret
  | |- raises_only (raise _) _ => apply raises_raise; late
  | |- raises_only unfinished _ => apply raises_unfinished
  | |- raises_only get _ => apply raises_get
  | |- raises_only (modify _) _ => apply raises_modify
  | |- raises_only (raise_if _ _) _ => apply raises_raise_if; late
  | |- raises_only (fail_with _ _) _ => unfold fail_with
  | |- raises_only (alloc _ _) _ => unfold alloc
  | |- raises_only (if ?c then _ else _) _ => destruct c
  | |- raises_only (match ?x with _ => _ end) _ => destruct x
  | |- raises_only (let (_, _) := ?x in _) _ => destruct x
  end.

Ltac raises := repeat raises_step.

Lemma stream_of_late f : raises_only (stream_of f) late.
Proof.
  intros w e. unfold stream_of. destruct f; cbn; try (intros [= <-]; late).
  destruct (w_open w !! fd); cbn; [discriminate|]. intros [= <-]. late.
Qed.

Lemma handle_of_val_late h : raises_only (handle_of_val h) late.
Proof.
  intros w e. unfold handle_of_val. destruct h; cbn; try discriminate.
  destruct (w_open w !! v); discriminate.
Qed.

Lemma path_exists_late p : raises_only (path_exists p) late.
Proof. intros w e. discriminate. Qed.

Lemma getsize_late p : raises_only (getsize p) late.
Proof.
  intros w e. unfold getsize. destruct p; cbn; try (intros [= <-]; late).
  destruct (w_files w !! s); cbn; [discriminate|]. intros [= <-]. late.
Qed.

Lemma py_open_late p m enc : raises_only (py_open p m enc) late.
Proof. unfold py_open. raises. Qed.

Lemma flock_late f : raises_only (flock f) late.
Proof. unfold flock. raises. apply stream_of_late. Qed.

Lemma file_tell_late f : raises_only (file_tell f) late.
Proof. unfold file_tell. raises. apply stream_of_late. Qed.

Lemma file_seek_late f n : raises_only (file_seek f n) late.
Proof. unfold file_seek. raises. apply stream_of_late. Qed.

Lemma file_write_late f d : raises_only (file_write f d) late.
Proof. unfold file_write. raises; apply stream_of_late. Qed.

Lemma file_read_late f n : raises_only (file_read f n) late.
Proof. unfold file_read. raises; apply stream_of_late. Qed.

Lemma file_close_late f : raises_only (file_close f) late.
Proof. unfold file_close. destruct f; raises. Qed.

Lemma CreateFile_late n a d : raises_only (_CreateFile n a d) late.
Proof. unfold _CreateFile. destruct n; raises. Qed.

Lemma SetFilePointer_late h d m : raises_only (_SetFilePointer h d m) late.
Proof. unfold _SetFilePointer. raises; apply handle_of_val_late. Qed.

Lemma WriteFile_late h b n : raises_only (_WriteFile h b n) late.
Proof. unfold _WriteFile. raises; apply handle_of_val_late. Qed.

Lemma ReadFile_late h n : raises_only (_ReadFile h n) late.
Proof. unfold _ReadFile. raises; apply handle_of_val_late. Qed.

Lemma CloseHandle_late h : raises_only (_CloseHandle h) late.
Proof. unfold _CloseHandle. raises; apply handle_of_val_late. Qed.

Lemma GetFileSize_native_late h : raises_only (_GetFileSize h) late.
Proof. unfold _GetFileSize. raises; apply handle_of_val_late. Qed.

Lemma GetMessageError_late : raises_only _GetMessageError late.
Proof. unfold _GetMessageError. raises. Qed.

Section Ends.

Lemma ends_mono {A} (m : M St A) h (Q Q' : outcome A -> t -> Prop) :
  ends_in m h Q -> (forall r h', Q r h' -> Q' r h') -> ends_in m h Q'.
Proof. intros H HQ w. apply HQ, H. Qed.

Lemma ends_ret {A} (a : A) h (Q : outcome A -> t -> Prop) :
  Q (Return a) h -> ends_in (ret a) h Q.
Proof. intros H w. exact H. Qed.

Lemma ends_raise {A} e h (Q : outcome A -> t -> Prop) :
  Q (Raise e) h -> ends_in (raise e) h Q.
Proof. intros H w. exact H. Qed.

Lemma ends_unfinished {A} h (Q : outcome A -> t -> Prop) :
  Q Unfinished h -> ends_in unfinished h Q.
Proof. intros H w. exact H. Qed.

Lemma ends_bind {A B} (m : M St A) (k : A -> M St B) h (Q : outcome B -> t -> Prop) :
  ends_in m h
    (fun r h' =>
       match r with
       | Return a => ends_in (k a) h' Q
       | Raise e => Q (Raise e) h'
       | Unfinished => Q Unfinished h'
       end) ->
  ends_in (bind m k) h Q.
Proof.
  intros H w. unfold bind. specialize (H w).
  destruct (m (w, h)) as [[a|e|] [w' h']]; cbn in *; [apply H|exact H|exact H].
Qed.

Lemma ends_self h (Q : outcome t -> t -> Prop) :
  Q (Return h) h -> ends_in self h Q.
Proof. intros H w. exact H. Qed.

Lemma ends_set_self f h (Q : outcome unit -> t -> Prop) :
  Q (Return tt) (f h) -> ends_in (set_self f) h Q.
Proof. intros H w. exact H. Qed.

Lemma ends_raise_if (c : bool) e h (Q : outcome unit -> t -> Prop) :
  (c = true -> Q (Raise e) h) -> (c = false -> Q (Return tt) h) ->
  ends_in (raise_if c e) h Q.
Proof. intros H1 H2 w. destruct c; cbn; auto. Qed.

Lemma ends_native {A} (m : M World A) h (Q : outcome A -> t -> Prop) :
  raises_only m late ->
  (forall a, Q (Return a) h) -> (forall e, late e -> Q (Raise e) h) ->
  Q Unfinished h ->
  ends_in (native m) h Q.
Proof.
  intros Hm Hr He Hu w. unfold native. cbn.
  destruct (m w) as [[a|e|] w'] eqn:E; cbn; auto.
  apply He, (Hm w). rewrite E. reflexivity.
Qed.

Lemma ends_keeps {A} (m : M St A) h (Q : outcome A -> t -> Prop) :
  keeps_self m ->
  (forall a, Q (Return a) h) -> (forall e, late e -> Q (Raise e) h) ->
  Q Unfinished h ->
  ends_in m h Q.
Proof.
  intros Hm Hr He Hu w. destruct (Hm h w) as [-> Hl].
  destruct (fst (m (w, h))); auto.
Qed.

End Ends.

Ltac keeps_step :=
  lazymatch goal with
  | |- ends_in (bind _ _) _ _ => apply ends_bind
  | |- ends_in (ret _) _ _ => apply ends_ret
  | |- ends_in (raise _) _ _ => apply ends_raise
  | |- ends_in unfinished _ _ => apply ends_unfinished
  | |- ends_in self _ _ => apply ends_self
  | |- ends_in (raise_if _ _) _ _ => apply ends_raise_if; intros ?
  | |- ends_in (native _) _ _ => apply ends_native
  | |- ends_in (if ?c then _ else _) _ _ => destruct c
  | |- ends_in (match ?x with _ => _ end) _ _ => destruct x
  | |- raises_only _ _ =>
      first [ apply path_exists_late | apply getsize_late | apply py_open_late
            | apply flock_late | apply file_tell_late | apply file_seek_late
            | apply file_write_late | apply file_read_late | apply file_close_late
            | apply CreateFile_late | apply SetFilePointer_late
            | apply WriteFile_late | apply ReadFile_late | apply CloseHandle_late
            | apply GetFileSize_native_late | apply GetMessageError_late ]
  | |- forall _, _ => intros ?
  | |- _ /\ _ => split
  | |- ?x = ?x => reflexivity
  | |- True => exact I
  | |- late _ => first [assumption | late]
  | |- ~ rejected_early _ => first [assumption | late]
  | |- ends_in _ _ _ => apply ends_keeps; [solve [eauto with keeps]|..]
  | |- _ => progress cbn beta iota
  end.

Ltac keeps := repeat keeps_step.

Create HintDb keeps.

Lemma HaveFileOpen_keeps pf : keeps_self (_HaveFileOpen pf).
Proof. intros h. unfold _HaveFileOpen. keeps. Qed.

#[local] Hint Resolve HaveFileOpen_keeps : keeps.

Lemma Seek_native_keeps o sp : keeps_self (__Seek o sp).
Proof. intros h. unfold __Seek. keeps. Qed.
#[local] Hint Resolve Seek_native_keeps : keeps.

Lemma GetFileSize_keeps pf : keeps_self (GetFileSize pf).
Proof. intros h. unfold GetFileSize. keeps. Qed.
#[local] Hint Resolve GetFileSize_keeps : keeps.

Lemma Seek_depth_keeps pf d : forall o sp, keeps_self (Seek_ pf d o sp).
Proof.
  induction d as [|d IH]; intros o sp h; simpl Seek_; keeps.
Qed.

Lemma Seek_keeps pf o sp : keeps_self (Seek pf o sp).
Proof. apply Seek_depth_keeps. Qed.
#[local] Hint Resolve Seek_keeps : keeps.

Lemma Seek2_keeps pf pos : keeps_self (Seek2 pf pos).
Proof. apply Seek_keeps. Qed.

Lemma Write_loop_keeps fuel : forall data count, keeps_self (Write_loop fuel data count).
Proof.
  induction fuel as [|fuel IH]; intros data count h; simpl Write_loop; keeps.
Qed.
#[local] Hint Resolve Write_loop_keeps : keeps.

Lemma Write_keeps pf d : keeps_self (Write pf d).
Proof. intros h. unfold Write. keeps. Qed.

Lemma Read_loop_keeps fuel : forall out n count, keeps_self (Read_loop fuel out n count).
Proof.
  induction fuel as [|fuel IH]; intros out n count h; simpl Read_loop; keeps.
Qed.
#[local] Hint Resolve Read_loop_keeps : keeps.

Lemma Read_keeps pf n : keeps_self (Read pf n).
Proof. intros h. unfold Read. keeps. Qed.

Lemma GetCursorPos_keeps pf : keeps_self (GetCursorPos pf).
Proof. intros h. unfold GetCursorPos. keeps. Qed.

Lemma IsWriteable_keeps pf : keeps_self (IsWriteable pf).
Proof. intros h. unfold IsWriteable. keeps. Qed.

Lemma IsReadable_keeps pf : keeps_self (IsReadable pf).
Proof. intros h. unfold IsReadable. keeps. Qed.

Lemma IsBinary_keeps : keeps_self IsBinary.
Proof. intros h. unfold IsBinary. keeps. Qed.

(** *** The files, whatever the state *)


Section Leaves.

Lemma leaves_ret {A} (a : A) : leaves_files (ret a).
Proof. intros s. reflexivity. Qed.

Lemma leaves_raise {A} e : leaves_files (A := A) (raise e).
Proof. intros s. reflexivity. Qed.

Lemma leaves_unfinished {A} : leaves_files (A := A) unfinished.
Proof. intros s. reflexivity. Qed.

Lemma leaves_self : leaves_files self.
Proof. intros s. reflexivity. Qed.

Lemma leaves_set_self f : leaves_files (set_self f).
Proof. intros s. reflexivity. Qed.

Lemma leaves_raise_if c e : leaves_files (raise_if c e).
Proof. intros s. destruct c; reflexivity. Qed.

Lemma leaves_bind {A B} (m : M St A) (k : A -> M St B) :
  leaves_files m -> (forall a, leaves_files (k a)) -> leaves_files (bind m k).
Proof.
  intros Hm Hk s. unfold bind. specialize (Hm s).
  destruct (m s) as [[a|e|] s']; cbn in *; [rewrite Hk|..]; exact Hm.
Qed.

Lemma leaves_native {A} (m : M World A) :
  reads_only m -> leaves_files (native m).
Proof. intros Hm s. unfold native. cbn. apply Hm. Qed.

End Leaves.

Ltac reads :=
  let w := fresh "w" in
  intros w;
  unfold file_tell, file_seek, file_read, file_close,
    getsize, _SetFilePointer, _ReadFile, _CloseHandle, _GetFileSize,
    _GetMessageError, fail_with, stream_of, handle_of_val,
    bind, raise_if, get, modify, ret, raise;
  repeat case_match; simplify_eq; cbn; try reflexivity.

Lemma getsize_reads p : reads_only (getsize p).
Proof. reads. Qed.
Lemma file_tell_reads f : reads_only (file_tell f).
Proof. reads. Qed.
Lemma file_seek_reads f n : reads_only (file_seek f n).
Proof. reads. Qed.
Lemma file_read_reads f n : reads_only (file_read f n).
Proof. reads. Qed.
Lemma file_close_reads f : reads_only (file_close f).
Proof. reads. Qed.
Lemma SetFilePointer_reads h d m : reads_only (_SetFilePointer h d m).
Proof. reads. Qed.
Lemma ReadFile_reads h n : reads_only (_ReadFile h n).
Proof. reads. Qed.
Lemma CloseHandle_reads h : reads_only (_CloseHandle h).
Proof. reads. Qed.
Lemma GetFileSize_native_reads h : reads_only (_GetFileSize h).
Proof. reads. Qed.
Lemma GetMessageError_reads : reads_only _GetMessageError.
Proof. reads. Qed.

Create HintDb leaves.

Ltac leaves_step :=
  lazymatch goal with
  | |- leaves_files (bind _ _) => apply leaves_bind; [|intros ?]
  | |- leaves_files (ret _) => apply leaves_ret
  | |- leaves_files (raise _) => apply leaves_raise
  | |- leaves_files unfinished => apply leaves_unfinished
  | |- leaves_files self => apply leaves_self
  | |- leaves_files (set_filename _) => apply leaves_set_self
  | |- leaves_files (set_mode _) => apply leaves_set_self
  | |- leaves_files (set_file _) => apply leaves_set_self
  | |- leaves_files (set_binary _) => apply leaves_set_self
  | |- leaves_files (raise_if _ _) => apply leaves_raise_if
  | |- leaves_files (native _) => apply leaves_native
  | |- leaves_files (if ?c then _ else _) => destruct c
  | |- leaves_files (match ?x with _ => _ end) => destruct x
  | |- reads_only _ =>
      first [ apply getsize_reads | apply file_tell_reads | apply file_seek_reads
            | apply file_read_reads | apply file_close_reads
            | apply SetFilePointer_reads | apply ReadFile_reads
            | apply CloseHandle_reads | apply GetFileSize_native_reads
            | apply GetMessageError_reads ]
  | |- leaves_files (let _ := _ in _) => cbv zeta
  | |- leaves_files _ => solve [eauto with leaves]
  end.

Ltac leaves := repeat leaves_step.

Lemma HaveFileOpen_leaves pf : leaves_files (_HaveFileOpen pf).
Proof. unfold _HaveFileOpen. leaves. Qed.
#[local] Hint Resolve HaveFileOpen_leaves : leaves.

Lemma Seek_native_leaves o sp : leaves_files (__Seek o sp).
Proof. unfold __Seek. leaves. Qed.
#[local] Hint Resolve Seek_native_leaves : leaves.

Lemma GetFileSize_leaves pf : leaves_files (GetFileSize pf).
Proof. unfold GetFileSize. leaves. Qed.
#[local] Hint Resolve GetFileSize_leaves : leaves.

Lemma Seek_depth_leaves pf d : forall o sp, leaves_files (Seek_ pf d o sp).
Proof.
  induction d as [|d IH]; intros o sp.
  - apply leaves_unfinished.
  - simpl Seek_. leaves.
Qed.

Lemma Seek_leaves pf o sp : leaves_files (Seek pf o sp).
Proof. apply Seek_depth_leaves. Qed.
#[local] Hint Resolve Seek_leaves : leaves.

Lemma Read_loop_leaves fuel : forall out n count, leaves_files (Read_loop fuel out n count).
Proof.
  induction fuel as [|fuel IH]; intros out n count.
  - simpl Read_loop. leaves.
  - simpl Read_loop. leaves.
Qed.
#[local] Hint Resolve Read_loop_leaves : leaves.

Lemma Read_leaves pf n : leaves_files (Read pf n).
Proof. unfold Read. leaves. Qed.

Lemma Close_leaves pf : leaves_files (Close pf).
Proof. unfold Close. leaves. Qed.

Lemma GetCursorPos_leaves pf : leaves_files (GetCursorPos pf).
Proof. unfold GetCursorPos. leaves. Qed.

#[local] Arguments _ValidateFileName : simpl never.
#[local] Arguments lit : simpl never.
#[local] Arguments ch : simpl never.
#[local] Arguments LockFile.__modes : simpl never.
#[local] Arguments startswith : simpl never.
#[local] Arguments endswith : simpl never.
#[local] Arguments remove_char : simpl never.
#[local] Arguments contains : simpl never.
#[local] Arguments bool_decide : simpl never.
#[local] Arguments py_eq : simpl never.
#[local] Arguments py_ne : simpl never.

Ltac closed_bool t :=
  let v := eval vm_compute in t in
  lazymatch v with
  | true => replace t with true by (vm_compute; reflexivity)
  | false => replace t with false by (vm_compute; reflexivity)
  end.

Ltac closed_bools :=
  repeat match goal with
    | |- context [bool_decide ?P] => closed_bool (bool_decide P)
    | |- context [startswith ?a ?b] => closed_bool (startswith a b)
    | |- context [endswith ?a ?b] => closed_bool (endswith a b)
    | |- context [py_eq ?a ?b] => closed_bool (py_eq a b)
    | |- context [py_ne ?a ?b] => closed_bool (py_ne a b)
    | |- context [contains ?a ?b] => closed_bool (contains a b)
    end.

Lemma mode_cases (mode : pyval) :
  mode ∈ __modes ->
  mode = PyStr (lit "w") \/ mode = PyStr (lit "r") \/ mode = PyStr (lit "a")
  \/ mode = PyStr (lit "rw") \/ mode = PyStr (lit "wb") \/ mode = PyStr (lit "rb")
  \/ mode = PyStr (lit "ab") \/ mode = PyStr (lit "rwb").
Proof.
  unfold __modes. cbn [map]. rewrite !elem_of_cons, elem_of_nil. tauto.
Qed.

Lemma py_open_returns p m enc w a :
  fst (py_open p m enc w) = Return a -> isinstance_IOBase a = true.
Proof.
  unfold py_open, bind, raise_if, get, modify, alloc, ret, raise.
  repeat case_match; cbn; intros; simplify_eq; try reflexivity.
Qed.

Lemma ends_native_ret {A} (m : M World A) h (Q : outcome A -> t -> Prop)
    (R : A -> Prop) :
  (forall w a, fst (m w) = Return a -> R a) ->
  raises_only m late ->
  (forall a, R a -> Q (Return a) h) -> (forall e, late e -> Q (Raise e) h) ->
  Q Unfinished h ->
  ends_in (native m) h Q.
Proof.
  intros HR Hm Hr He Hu w. unfold native. cbn.
  destruct (m w) as [[a|e|] w'] eqn:E; cbn; auto.
  - apply Hr, (HR w). rewrite E. reflexivity.
  - apply He, (Hm w). rewrite E. reflexivity.
Qed.

Ltac opens_step :=
  first
    [ match goal with
      | H : negb (bool_decide (_ ∈ __modes)) = false |- _ =>
          apply negb_false_iff, bool_decide_eq_true_1, mode_cases in H;
          destruct H as [-> | [-> | [-> | [-> | [-> | [-> | [-> | ->]]]]]]]
      end
    | progress (cbn [as_str as_int win32 negb andb orb]; closed_bools;
                cbn [as_str as_int win32 negb andb orb])
    | lazymatch goal with
      | |- ends_in (bind _ _) _ _ => apply ends_bind
      | |- ends_in (ret _) _ _ => apply ends_ret
      | |- ends_in (raise _) _ _ => apply ends_raise
      | |- ends_in self _ _ => apply ends_self
      | |- ends_in (set_filename _) _ _ => apply ends_set_self
      | |- ends_in (set_mode _) _ _ => apply ends_set_self
      | |- ends_in (set_file _) _ _ => apply ends_set_self
      | |- ends_in (set_binary _) _ _ => apply ends_set_self
      | |- ends_in (raise_if _ _) _ _ => apply ends_raise_if; intros ?
      | |- ends_in (native (py_open _ _ _)) _ _ =>
          apply (ends_native_ret _ _ _ (fun a => isinstance_IOBase a = true));
          [apply py_open_returns|apply py_open_late|..]
      | |- ends_in (native _) _ _ => apply ends_native
      | |- ends_in (if ?c then _ else _) _ _ => destruct c eqn:?
      | |- ends_in (match ?x with _ => _ end) _ _ => destruct x eqn:?
      | |- raises_only _ _ =>
          first [ apply path_exists_late | apply flock_late | apply file_close_late
                | apply CreateFile_late | apply GetMessageError_late ]
      | |- ends_in (Seek _ _ _) _ _ => apply ends_keeps; [apply Seek_keeps|..]
      | |- forall _, _ => intros ?
      | |- _ => progress cbn beta iota
      end ].

Ltac opens_leaf :=
  unfold Open_post;
  cbn [_mode __file __binary _filename is_open win32
       isinstance_HANDLE isinstance_IOBase];
  first
    [ intros _; split; reflexivity
    | let H := fresh in
      intros H; exfalso;
      first [ match goal with L : late _ |- _ => exact (L H) end
            | revert H; late ]
    | exact I
    | split;
      [ unfold WRITEMODE, READMODE, APPENDMODE, WRITEANDREADMODE; discriminate
      | first [reflexivity | assumption] ] ].

Lemma Open_ends pf fn mode enc h :
  ends_in (LockFile.Open pf fn mode enc) h (Open_post pf h).
Proof.
  destruct h as [f0 m0 fl0 b0].
  unfold LockFile.Open. destruct pf.
  - repeat opens_step. all: opens_leaf.
  - repeat opens_step. all: opens_leaf.
Qed.

(** *** The fields after a successful [Open] *)


Ltac binds_leaf :=
  unfold Open_binds;
  first
    [ discriminate
    | intros _;
      cbn [_mode __file __binary _filename];
      unfold read_only_token, write_only_token, append_token, binary_token;
      cbn [as_str];
      repeat apply conj;
      [ unfold __modes; cbn [map]; rewrite !elem_of_cons; tauto
      | reflexivity
      | closed_bools; rewrite ?orb_true_r, ?orb_false_r; reflexivity
      | vm_compute; reflexivity
      | vm_compute; first [reflexivity | discriminate] ] ].

Lemma Open_ends_bound pf fn mode enc h :
  ends_in (LockFile.Open pf fn mode enc) h (Open_binds pf fn mode h).
Proof.
  destruct h as [f0 m0 fl0 b0].
  unfold LockFile.Open. destruct pf.
  - repeat opens_step. all: binds_leaf.
  - repeat opens_step. all: binds_leaf.
Qed.


Ltac names_leaf :=
  unfold Open_names; cbn [_filename]; intros;
  first
    [ left; reflexivity
    | right; split;
      [ match goal with
        | H : negb (is_str _) = false |- _ => apply negb_false_iff in H; exact H
        end
      | reflexivity ] ].

Lemma Open_ends_named pf fn mode enc h :
  ends_in (LockFile.Open pf fn mode enc) h (Open_names fn h).
Proof.
  destruct h as [f0 m0 fl0 b0].
  unfold LockFile.Open. destruct pf.
  - repeat opens_step. all: names_leaf.
  - repeat opens_step. all: names_leaf.
Qed.

(** ** Running the monad *)

#[local] Arguments bind {S A B} m k s /.
#[local] Arguments ret {S A} a s /.
#[local] Arguments raise {S A} e s /.
#[local] Arguments unfinished {S A} s /.
#[local] Arguments raise_if {S} !c e /.
#[local] Arguments get {S} s /.
#[local] Arguments modify {S} f s /.
#[local] Arguments LockFile.self s /.
#[local] Arguments LockFile.set_self f /.
#[local] Arguments LockFile.native {A} m s /.
#[local] Arguments LockFile.set_filename v /.
#[local] Arguments LockFile.set_mode v /.
#[local] Arguments LockFile.set_file v /.
#[local] Arguments LockFile.set_binary b /.
#[local] Arguments fail_with {A} msg r /.
#[local] Arguments alloc key s /.
#[local] Arguments stream_of : simpl never.
#[local] Arguments WRITEMODE : simpl never.
#[local] Arguments READMODE : simpl never.
#[local] Arguments APPENDMODE : simpl never.
#[local] Arguments WRITEANDREADMODE : simpl never.
#[local] Arguments py_eq : simpl never.
#[local] Arguments py_ne : simpl never.
#[local] Arguments handle_of_val : simpl never.

Ltac dlia := Z.to_euclidean_division_equations; lia.

Ltac zbool :=
  repeat first
    [ rewrite Z.gtb_ltb | rewrite Z.geb_leb
    | match goal with
      | |- context [?a <? ?b] =>
          first [ rewrite (proj2 (Z.ltb_lt a b)) by lia
                | rewrite (proj2 (Z.ltb_ge a b)) by lia ]
      | |- context [?a <=? ?b] =>
          first [ rewrite (proj2 (Z.leb_le a b)) by lia
                | rewrite (proj2 (Z.leb_gt a b)) by lia ]
      | |- context [?a =? ?b] =>
          first [ rewrite (proj2 (Z.eqb_eq a b)) by lia
                | rewrite (proj2 (Z.eqb_neq a b)) by lia ]
      end ].

Lemma len_nonneg {A} (l : list A) : 0 <= len l.
Proof. unfold len. lia. Qed.

Lemma len_app {A} (l1 l2 : list A) : len (l1 ++ l2) = len l1 + len l2.
Proof. unfold len. rewrite length_app. lia. Qed.

Lemma len_nil {A} : len (@nil A) = 0.
Proof. reflexivity. Qed.

Lemma len_take_le {A} (l : list A) n :
  0 <= n <= len l -> len (take (Z.to_nat n) l) = n.
Proof. unfold len. intros H. rewrite length_take. lia. Qed.

Lemma len_drop {A} (l : list A) n :
  0 <= n <= len l -> len (drop (Z.to_nat n) l) = len l - n.
Proof. unfold len. intros H. rewrite length_drop. lia. Qed.

Lemma with_pos_id st : with_pos (s_pos st) st = st.
Proof. destruct st; reflexivity. Qed.

Lemma set_open_id w k st :
  w_open w !! k = Some st -> set_open <[k := st]> w = w.
Proof.
  destruct w as [fs fo fa op nx le]; cbn. intros H.
  unfold set_open; cbn. f_equal. apply insert_id, H.
Qed.

Lemma move_id w k st :
  w_open w !! k = Some st -> set_open <[k := with_pos (s_pos st) st]> w = w.
Proof. intros H. rewrite with_pos_id. apply set_open_id, H. Qed.

(** *** The codecs *)

Ltac dbool :=
  repeat first
    [ rewrite Z.gtb_ltb | rewrite Z.geb_leb
    | match goal with
      | |- context [?a <? ?b] =>
          first [ rewrite (proj2 (Z.ltb_lt a b)) by dlia
                | rewrite (proj2 (Z.ltb_ge a b)) by dlia ]
      | |- context [?a <=? ?b] =>
          first [ rewrite (proj2 (Z.leb_le a b)) by dlia
                | rewrite (proj2 (Z.leb_gt a b)) by dlia ]
      | |- context [?a =? ?b] =>
          first [ rewrite (proj2 (Z.eqb_eq a b)) by dlia
                | rewrite (proj2 (Z.eqb_neq a b)) by dlia ]
      end ].

Lemma utf8_spans_char c bc rest :
  utf8_encode_char c = Some bc ->
  utf8_spans (bc ++ rest) = cons (c, Z.of_nat (length bc)) <$> utf8_spans rest.
Proof.
  unfold utf8_encode_char, is_surrogate.
  destruct (Z.ltb_spec c 0); [discriminate|].
  destruct (Z.ltb_spec c 128).
  { intros [= <-]. cbn [app utf8_spans length]. dbool. reflexivity. }
  destruct (Z.ltb_spec c 2048).
  { intros [= <-]. cbn [app utf8_spans length]. unfold is_cont. dbool. cbn [andb].
    repeat f_equal. dlia. }
  destruct (Z.ltb_spec c 65536).
  { destruct (Z.leb_spec 55296 c), (Z.leb_spec c 57343); cbn [andb]; try discriminate; try (exfalso; lia).
    all: intros [= <-]; cbn [app utf8_spans length]; unfold is_cont, is_surrogate; dbool; cbn [andb negb]. 
    all: try (replace ((224 + c / 4096 - 224) * 4096 + (128 + (c / 64) mod 64 - 128) * 64 + (128 + c mod 64 - 128)) with c by dlia).
    all: dbool; cbn [andb negb]; reflexivity. }
  destruct (Z.ltb_spec c 1114112); [|discriminate].
  intros [= <-]; cbn [app utf8_spans length]; unfold is_cont; dbool; cbn [andb negb].
  replace ((240 + c / 262144 - 240) * 262144 + (128 + (c / 4096) mod 64 - 128) * 4096 + (128 + (c / 64) mod 64 - 128) * 64 + (128 + c mod 64 - 128)) with c by dlia.
  dbool. cbn [andb]. reflexivity.
Qed.

Lemma utf8_round_trip s b :
  encode UTF8 s = Some b ->
  exists spans, utf8_spans b = Some spans /\ map fst spans = s.
Proof.
  cbn [encode]. revert b. induction s as [|c s IH]; intros b; cbn [encode_with].
  - intros [= <-]. exists []. split; reflexivity.
  - destruct (utf8_encode_char c) as [bc|] eqn:Ec; [|discriminate].
    destruct (encode_with utf8_encode_char s) as [bs|]; [|discriminate].
    intros [= <-]. destruct (IH bs eq_refl) as (spans & Hs & Hm).
    exists ((c, Z.of_nat (length bc)) :: spans). split.
    + rewrite (utf8_spans_char c bc bs Ec), Hs. reflexivity.
    + cbn. rewrite Hm. reflexivity.
Qed.

Lemma scalar_encodes s :
  forallb scalar s = true -> exists b, encode UTF8 s = Some b.
Proof.
  cbn [encode]. induction s as [|c s IH]; cbn [forallb encode_with].
  - exists []. reflexivity.
  - intros [Hc Hs]%andb_prop. destruct (IH Hs) as [bs ->].
    unfold scalar in Hc. apply andb_prop in Hc as [[H0 H1]%andb_prop Hsur].
    apply Z.leb_le in H0. apply Z.ltb_lt in H1. apply negb_true_iff in Hsur.
    unfold utf8_encode_char. rewrite Hsur. dbool.
    destruct (c <? 128), (c <? 2048), (c <? 65536); eexists; reflexivity.
Qed.

Lemma utf8_encode_char_nonempty c bc : utf8_encode_char c = Some bc -> bc <> [].
Proof.
  unfold utf8_encode_char.
  repeat match goal with |- context [if ?x then _ else _] => destruct x end;
    intros [= <-]; discriminate.
Qed.

Lemma encode_utf8_nil s : encode UTF8 s = Some [] -> s = [].
Proof.
  cbn [encode]. destruct s as [|c s]; [reflexivity|]. cbn [encode_with].
  destruct (utf8_encode_char c) as [bc|] eqn:Ec; [|discriminate].
  destruct (encode_with utf8_encode_char s) as [bs|]; [|discriminate].
  intros [= H]. apply app_eq_nil in H as [H _].
  destruct (utf8_encode_char_nonempty _ _ Ec H).
Qed.

Lemma utf8_spans_length bs :
  forall spans, utf8_spans bs = Some spans -> (length spans <= length bs)%nat.
Proof.
  remember (length bs) as n eqn:E.
  assert (length bs <= n)%nat as Hn by lia. clear E. revert bs Hn.
  induction n as [|n IH]; intros bs Hn spans.
  - destruct bs; [|cbn in Hn; lia]. intros [= <-]. cbn. lia.
  - destruct bs as [|b0 t0]; [intros [= <-]; cbn; lia|].
    cbn [utf8_spans].
    repeat match goal with
           | |- context [if ?x then _ else _] => destruct x
           | |- context [match ?l with [] => _ | _ :: _ => _ end] => destruct l
           | |- None = Some _ -> _ => discriminate
           end.
    all: try discriminate.
    all: match goal with
         | |- (_ <$> utf8_spans ?t) = Some _ -> _ =>
             destruct (utf8_spans t) as [l|] eqn:El; [|discriminate];
             intros [= <-]; specialize (IH t ltac:(cbn in Hn |- *; lia) l El);
             cbn in *; lia
         end.
Qed.

Lemma decode_length codec bs s :
  decode codec bs = Some s -> len s <= len bs.
Proof.
  unfold decode, len. destruct codec; cbn [decode_spans].
  - destruct (utf8_spans bs) as [l|] eqn:E; [|discriminate].
    intros [= <-]. rewrite length_map.
    pose proof (utf8_spans_length bs l E). lia.
  - intros [= <-]. rewrite !length_map. lia.
Qed.

Lemma BytesToStr_length bs : len (_BytesToStr bs) <= len bs.
Proof.
  unfold _BytesToStr. destruct (decode UTF8 bs) as [s|] eqn:E.
  - apply (decode_length _ _ _ E).
  - apply (decode_length Latin1). reflexivity.
Qed.

Lemma universal_newlines_id spans :
  contains 13 (map fst spans) = false -> universal_newlines spans = spans.
Proof.
  unfold contains. induction spans as [|[c k] rest IH]; [reflexivity|].
  cbn [map fst existsb]. intros [Hc Hr]%orb_false_elim.
  cbn [universal_newlines]. rewrite Z.eqb_sym, Hc, (IH Hr). reflexivity.
Qed.

(** *** The stream primitives *)

Section Streams.

Variables (w : World) (k : Z) (st : Stream).
Hypothesis live : w_open w !! k = Some st.

Lemma stream_of_run : stream_of (PyFile k) w = (Return (k, st), w).
Proof. unfold stream_of. rewrite live. reflexivity. Qed.

Lemma file_tell_run : file_tell (PyFile k) w = (Return (s_pos st), w).
Proof. unfold file_tell. cbn. rewrite stream_of_run. reflexivity. Qed.

Lemma file_seek_run n :
  0 <= n <= 9223372036854775807 ->
  file_seek (PyFile k) n w
  = (Return n, set_open <[k := with_pos n st]> w).
Proof.
  intros Hn. unfold file_seek. cbn. rewrite stream_of_run. cbn.
  zbool. reflexivity.
Qed.

Lemma file_read_binary n :
  s_readable st = true -> s_text st = None ->
  let rest := drop (Z.to_nat (s_pos st)) (content w (s_path st)) in
  let data := if n <? 0 then rest else take (Z.to_nat n) rest in
  file_read (PyFile k) n w
  = (Return (PyBytes data),
     set_open <[k := with_pos (s_pos st + len data) st]> w).
Proof.
  intros Hr Ht. unfold file_read. cbn. rewrite stream_of_run. cbn.
  rewrite Hr, Ht. reflexivity.
Qed.

Lemma file_write_run data b :
  s_writable st = true ->
  match s_text st, data with
  | None, PyBytes b' => b' = b
  | Some c, PyStr t => encode c t = Some b
  | _, _ => False
  end ->
  let old := content w (s_path st) in
  let at_ := if s_append st then len old else s_pos st in
  file_write (PyFile k) data w
  = (Return (len b),
     set_open <[k := with_pos (at_ + len b) st]>
       (set_files <[s_path st := write_at old at_ b]> w)).
Proof.
  intros Hw Hd. unfold file_write. cbn. rewrite stream_of_run. cbn.
  destruct (s_text st) as [c|], data; try contradiction.
  - rewrite Hd. cbn. rewrite Hw. reflexivity.
  - subst. cbn. rewrite Hw. reflexivity.
Qed.

Lemma flock_run :
  ¬ held w (s_path st) ->
  flock (PyFile k) w = (Return tt, set_open <[k := with_locked true st]> w).
Proof.
  intros Hh. unfold flock. cbn. rewrite stream_of_run. cbn.
  rewrite bool_decide_eq_false_2 by exact Hh. reflexivity.
Qed.

(** *** The win32 primitives *)

Lemma handle_of_val_run : handle_of_val (PyHandle k) w = (Return (Some (k, st)), w).
Proof. unfold handle_of_val. rewrite live. reflexivity. Qed.

Lemma SetFilePointer_run d method :
  0 <= method <= 2 ->
  let target :=
    (if method =? 0 then 0
     else if method =? 1 then s_pos st
     else len (content w (s_path st))) + wrap64 d in
  0 <= target <= 9223372036854775807 ->
  _SetFilePointer (PyHandle k) d method w
  = (Return (true, target), set_open <[k := with_pos target st]> w).
Proof.
  intros Hm target Ht. unfold _SetFilePointer. cbn.
  rewrite handle_of_val_run. cbn. fold target.
  zbool. cbn. zbool. reflexivity.
Qed.

Lemma GetFileSize_native_run :
  _GetFileSize (PyHandle k) w = (Return (true, len (content w (s_path st))), w).
Proof. unfold _GetFileSize. cbn. rewrite handle_of_val_run. reflexivity. Qed.

Lemma ReadFile_run n :
  s_readable st = true ->
  let data := take (Z.to_nat n) (drop (Z.to_nat (s_pos st)) (content w (s_path st))) in
  _ReadFile (PyHandle k) n w
  = (Return (true, data), set_open <[k := with_pos (s_pos st + len data) st]> w).
Proof.
  intros Hr. unfold _ReadFile. cbn. rewrite handle_of_val_run. cbn.
  rewrite Hr. reflexivity.
Qed.

Lemma WriteFile_run buffer n :
  s_writable st = true ->
  let data := take (Z.to_nat n) buffer in
  _WriteFile (PyHandle k) buffer n w
  = (Return true,
     set_open <[k := with_pos (s_pos st + len data) st]>
       (set_files <[s_path st := write_at (content w (s_path st)) (s_pos st) data]> w)).
Proof.
  intros Hr. unfold _WriteFile. cbn. rewrite handle_of_val_run. cbn.
  rewrite Hr. reflexivity.
Qed.

Lemma CloseHandle_run :
  _CloseHandle (PyHandle k) w = (Return true, set_open (delete k) w).
Proof. unfold _CloseHandle. cbn. rewrite handle_of_val_run. reflexivity. Qed.

End Streams.

(** *** Moving the cursor of a resource *)


Lemma move_same w k st :
  w_open w !! k = Some st -> move w k st (s_pos st) = w.
Proof. apply move_id. Qed.

Lemma move_move w k st p q :
  move (move w k st p) k (with_pos p st) q = move w k st q.
Proof.
  unfold move, set_open. destruct w; cbn. f_equal.
  rewrite insert_insert_eq. reflexivity.
Qed.

Lemma move_live w k st p : w_open (move w k st p) !! k = Some (with_pos p st).
Proof. unfold move. cbn. apply lookup_insert_eq. Qed.

Lemma move_files w k st p : w_files (move w k st p) = w_files w.
Proof. reflexivity. Qed.

Lemma wrap64_small z :
  - 9223372036854775808 <= z <= 9223372036854775807 -> wrap64 z = z.
Proof.
  intros H. unfold wrap64. rewrite Z.mod_small by lia. lia.
Qed.

Lemma bound_move pf w h k st c p :
  bound pf w h k st c -> 0 <= p <= MAXOFFSET ->
  bound pf (move w k st p) h k (with_pos p st) c.
Proof.
  intros [Hf Hl Hn Hc Hp Hk] Hq. split; cbn; try assumption.
  apply move_live.
Qed.

(** *** [_HaveFileOpen], [__Seek], [GetFileSize] *)

Lemma HaveFileOpen_run pf w h :
  is_open pf h = true -> _HaveFileOpen pf (w, h) = (Return tt, (w, h)).
Proof.
  unfold is_open, _HaveFileOpen. cbn. destruct (win32 pf); intros ->; reflexivity.
Qed.

Lemma HaveFileOpen_closed pf w h :
  is_open pf h = false -> _HaveFileOpen pf (w, h) = (Raise NotOpen, (w, h)).
Proof.
  unfold is_open, _HaveFileOpen. cbn. destruct (win32 pf); intros ->; reflexivity.
Qed.

Lemma bound_is_open pf w h k st c : bound pf w h k st c -> is_open pf h = true.
Proof.
  intros [Hf _ _ _ _ _]. unfold is_open. rewrite Hf. destruct (win32 pf); reflexivity.
Qed.

#[local] Arguments LockFile._HaveFileOpen : simpl never.

Lemma Seek_closed pf d o sp w h :
  is_open pf h = false ->
  Seek_ pf (S d) o sp (w, h) = (Raise NotOpen, (w, h)).
Proof.
  intros Hc. simpl Seek_. cbn. rewrite (HaveFileOpen_closed _ _ _ Hc).
  reflexivity.
Qed.

Lemma GetFileSize_closed pf w h :
  is_open pf h = false -> GetFileSize pf (w, h) = (Raise NotOpen, (w, h)).
Proof.
  intros Hc. unfold GetFileSize. cbn. rewrite (HaveFileOpen_closed _ _ _ Hc).
  reflexivity.
Qed.

Lemma Seek_native_run w h k st d method :
  __file h = PyHandle k -> w_open w !! k = Some st ->
  0 <= method <= 2 ->
  let target :=
    (if method =? 0 then 0
     else if method =? 1 then s_pos st
     else len (content w (s_path st))) + wrap64 d in
  0 <= target <= MAXOFFSET ->
  __Seek d method (w, h) = (Return target, (move w k st target, h)).
Proof.
  intros Hf Hl Hm target Ht. unfold __Seek. cbn. rewrite Hf.
  rewrite (SetFilePointer_run w k st Hl d method Hm Ht). reflexivity.
Qed.

#[local] Arguments LockFile.__Seek : simpl never.

Lemma bound_content_eq pf w h k st c :
  bound pf w h k st c -> content w (s_path st) = c.
Proof. intros [_ _ _ Hc _ _]. unfold content. rewrite Hc. reflexivity. Qed.

Lemma GetFileSize_run pf w h k st c :
  bound pf w h k st c ->
  GetFileSize pf (w, h) = (Return (len c), (w, h)).
Proof.
  intros Hb. pose proof (bound_is_open _ _ _ _ _ _ Hb) as Ho.
  pose proof (bound_content_eq _ _ _ _ _ _ Hb) as Hcc.
  destruct Hb as [Hf Hl Hn Hc Hp Hk].
  unfold GetFileSize. cbn. rewrite (HaveFileOpen_run _ _ _ Ho).
  destruct pf; cbn in *.
  - rewrite Hf, (GetFileSize_native_run w k st Hl). cbn. rewrite Hcc. reflexivity.
  - rewrite Hn. cbn. rewrite Hc. reflexivity.
Qed.

#[local] Arguments LockFile.GetFileSize : simpl never.

(** *** [Seek] *)

Lemma anchor_tests :
  py_eq current begin_ = false /\ py_eq current current = true
  /\ py_eq begin_ begin_ = true /\ py_eq end_ begin_ = false
  /\ py_eq end_ current = false /\ py_eq end_ end_ = true
  /\ py_eq begin_ end_ = false /\ py_eq current end_ = false.
Proof. repeat split; reflexivity. Qed.

Ltac anchors :=
  repeat first
    [ rewrite (proj1 anchor_tests)
    | rewrite (proj1 (proj2 anchor_tests))
    | rewrite (proj1 (proj2 (proj2 anchor_tests)))
    | rewrite (proj1 (proj2 (proj2 (proj2 anchor_tests))))
    | rewrite (proj1 (proj2 (proj2 (proj2 (proj2 anchor_tests)))))
    | rewrite (proj1 (proj2 (proj2 (proj2 (proj2 (proj2 anchor_tests))))))
    | rewrite (proj1 (proj2 (proj2 (proj2 (proj2 (proj2 (proj2 anchor_tests)))))))
    | rewrite (proj2 (proj2 (proj2 (proj2 (proj2 (proj2 (proj2 anchor_tests))))))) ].

Section NativeSeek.

Variables (w : World) (h : LockFile.t) (k : Z) (st : Stream).
Hypothesis file : __file h = PyHandle k.
Hypothesis live : w_open w !! k = Some st.

Lemma Seek_native_begin d :
  0 <= d <= MAXOFFSET ->
  __Seek d 0 (w, h) = (Return d, (move w k st d, h)).
Proof.
  intros Hd. unfold MAXOFFSET in Hd.
  rewrite (Seek_native_run w h k st d 0 file live); cbn [Z.eqb];
    rewrite ?wrap64_small; unfold MAXOFFSET; try lia.
  reflexivity.
Qed.

Lemma Seek_native_current d :
  0 <= s_pos st + d <= MAXOFFSET ->
  - 9223372036854775808 <= d <= MAXOFFSET ->
  __Seek d 1 (w, h) = (Return (s_pos st + d), (move w k st (s_pos st + d), h)).
Proof.
  intros Ht Hd. unfold MAXOFFSET in *.
  rewrite (Seek_native_run w h k st d 1 file live); cbn [Z.eqb Pos.eqb];
    rewrite ?wrap64_small; unfold MAXOFFSET; try lia.
  reflexivity.
Qed.

Lemma Seek_native_end d :
  0 <= len (content w (s_path st)) + d <= MAXOFFSET ->
  - 9223372036854775808 <= d <= MAXOFFSET ->
  __Seek d 2 (w, h)
  = (Return (len (content w (s_path st)) + d),
     (move w k st (len (content w (s_path st)) + d), h)).
Proof.
  intros Ht Hd. unfold MAXOFFSET in *.
  rewrite (Seek_native_run w h k st d 2 file live); cbn [Z.eqb Pos.eqb];
    rewrite ?wrap64_small; unfold MAXOFFSET; try lia.
  reflexivity.
Qed.

End NativeSeek.

Lemma Seek_current_run pf d w h k st c off :
  bound pf w h k st c ->
  Z.max 0 (s_pos st + off) <= MAXOFFSET ->
  Seek_ pf (S d) (PyInt off) current (w, h)
  = (Return (Z.max 0 (s_pos st + off)),
     (move w k st (Z.max 0 (s_pos st + off)), h)).
Proof.
  intros Hb Ht. pose proof (bound_is_open _ _ _ _ _ _ Hb) as Ho.
  destruct Hb as [Hf Hl Hn Hc Hp Hk]. unfold MAXOFFSET in *.
  simpl Seek_. cbn. rewrite (HaveFileOpen_run _ _ _ Ho). cbn.
  change (2 ^ (8 * 8) `div` 2 - 1) with 9223372036854775807.
  destruct pf; cbn in *.
  - rewrite (Seek_native_current w h k st Hf Hl 0) by (unfold MAXOFFSET; lia).
    rewrite Z.add_0_r, (move_same _ _ _ Hl). anchors. rewrite !andb_false_r.
    destruct (Z.ltb_spec off 0) as [Hneg|Hpos]; cbn.
    + destruct (Z.ltb_spec (s_pos st + off) 0) as [Hlow|Hin]; cbn.
      * rewrite (Seek_native_current w h k st Hf Hl) by (unfold MAXOFFSET; lia).
        replace (s_pos st + - s_pos st) with 0 by lia.
        rewrite Z.max_l by lia. reflexivity.
      * zbool. cbn.
        rewrite (Seek_native_current w h k st Hf Hl) by (unfold MAXOFFSET; lia).
        rewrite Z.max_r by lia. reflexivity.
    + zbool. cbn.
      rewrite (Seek_native_current w h k st Hf Hl) by (unfold MAXOFFSET; lia).
      rewrite Z.max_r by lia. reflexivity.
  - rewrite Hf. rewrite !(file_tell_run w k st Hl).
    destruct (Z.ltb_spec off 0) as [Hneg|Hpos]; cbn.
    + destruct (Z.ltb_spec (s_pos st + off) 0) as [Hlow|Hin]; cbn.
      * rewrite (file_seek_run w k st Hl) by lia.
        rewrite Z.max_l by lia. reflexivity.
      * rewrite (file_seek_run w k st Hl) by lia.
        rewrite Z.max_r by lia. reflexivity.
    + destruct (Z.eqb_spec off 0) as [->|Hnz]; cbn.
      * rewrite (file_tell_run w k st Hl). rewrite Z.add_0_r, Z.max_r by lia.
        rewrite (move_same _ _ _ Hl). reflexivity.
      * rewrite (file_seek_run w k st Hl) by lia.
        rewrite Z.max_r by lia. reflexivity.
Qed.

Lemma Seek_anchored_run pf d w h k st c offset startpoint :
  bound pf w h k st c -> len c <= MAXOFFSET ->
  (1 <= d)%nat ->
  startpoint = begin_ \/ startpoint = current \/ startpoint = end_ ->
  spec_seek_target startpoint (s_pos st) (len c) offset <= MAXOFFSET ->
  Seek_ pf (S d) (PyInt offset) startpoint (w, h)
  = (Return (spec_seek_target startpoint (s_pos st) (len c) offset),
     (move w k st (spec_seek_target startpoint (s_pos st) (len c) offset), h)).
Proof.
  intros Hb Hsz Hd Hsp Ht.
  destruct Hsp as [-> | [-> | ->]]; unfold spec_seek_target, anchor_base in *;
    revert Ht; anchors; intros Ht.
  - (* begin *)
    pose proof (bound_is_open _ _ _ _ _ _ Hb) as Ho.
    pose proof (bound_move pf w h k st c 0 Hb ltac:(unfold MAXOFFSET; lia)) as Hb0.
    pose proof Hb as [Hf Hl Hn Hc Hp Hk]. unfold MAXOFFSET in Hsz, Ht, Hp.
    simpl Seek_. cbn. rewrite (HaveFileOpen_run _ _ _ Ho). cbn.
    change (2 ^ (8 * 8) `div` 2 - 1) with 9223372036854775807.
    destruct pf; cbn.
    + rewrite (Seek_native_current w h k st Hf Hl 0) by (unfold MAXOFFSET; lia).
      rewrite Z.add_0_r, (move_same _ _ _ Hl). anchors.
      rewrite !andb_true_r, ?andb_false_r.
      destruct (Z.ltb_spec offset 0) as [Hneg|Hpos]; cbn.
      * rewrite (Seek_native_begin w h k st Hf Hl) by (unfold MAXOFFSET; lia).
        rewrite Z.max_l by lia. reflexivity.
      * zbool. cbn.
        rewrite (Seek_native_begin w h k st Hf Hl) by (unfold MAXOFFSET; lia).
        rewrite Z.max_r by lia. reflexivity.
    + rewrite Hf. rewrite (file_seek_run w k st Hl) by lia. cbn.
      destruct d as [|d]; [lia|].
      fold (move w k st 0).
      rewrite (Seek_current_run _ _ _ _ _ _ _ _ Hb0) by (cbn; unfold MAXOFFSET; lia).
      cbn. rewrite move_move. reflexivity.
  - (* current *)
    rewrite (Seek_current_run _ _ _ _ _ _ _ _ Hb) by exact Ht. reflexivity.
  - (* end *)
    pose proof (bound_is_open _ _ _ _ _ _ Hb) as Ho.
    pose proof (bound_content_eq _ _ _ _ _ _ Hb) as Hcc.
    pose proof (len_nonneg c) as Hc0.
    pose proof (bound_move pf w h k st c (len c) Hb ltac:(unfold MAXOFFSET in *; lia)) as Hb0.
    pose proof Hb as [Hf Hl Hn Hc Hp Hk]. unfold MAXOFFSET in Hsz, Ht, Hp.
    simpl Seek_. cbn. rewrite (HaveFileOpen_run _ _ _ Ho). cbn.
    change (2 ^ (8 * 8) `div` 2 - 1) with 9223372036854775807.
    destruct pf; cbn.
    + rewrite (Seek_native_current w h k st Hf Hl 0) by (unfold MAXOFFSET; lia).
      rewrite Z.add_0_r, (move_same _ _ _ Hl). anchors.
      rewrite !andb_true_r, ?andb_false_r.
      destruct (Z.ltb_spec offset 0) as [Hneg|Hpos]; cbn.
      * rewrite (Seek_native_end w h k st Hf Hl 0)
          by (rewrite ?Hcc; unfold MAXOFFSET; lia).
        rewrite Hcc, Z.add_0_r.
        destruct d as [|d]; [lia|].
        rewrite (Seek_current_run _ _ _ _ _ _ _ _ Hb0) by (cbn; unfold MAXOFFSET; lia).
        cbn. rewrite move_move. reflexivity.
      * zbool. cbn.
        rewrite (Seek_native_end w h k st Hf Hl)
          by (rewrite ?Hcc; unfold MAXOFFSET; lia).
        rewrite Hcc, Z.max_r by lia. reflexivity.
    + rewrite (GetFileSize_run _ _ _ _ _ _ Hb). rewrite Hf.
      rewrite (file_seek_run w k st Hl) by lia. cbn.
      destruct d as [|d]; [lia|].
      fold (move w k st (len c)).
      rewrite (Seek_current_run _ _ _ _ _ _ _ _ Hb0) by (cbn; unfold MAXOFFSET; lia).
      cbn. rewrite move_move. reflexivity.
Qed.

Lemma Seek_run pf w h k st c offset startpoint :
  bound pf w h k st c -> len c <= MAXOFFSET ->
  startpoint = begin_ \/ startpoint = current \/ startpoint = end_ ->
  spec_seek_target startpoint (s_pos st) (len c) offset <= MAXOFFSET ->
  Seek pf (PyInt offset) startpoint (w, h)
  = (Return (spec_seek_target startpoint (s_pos st) (len c) offset),
     (move w k st (spec_seek_target startpoint (s_pos st) (len c) offset), h)).
Proof. intros. unfold Seek. apply Seek_anchored_run with (c := c); auto. Qed.

Lemma Seek_zero_run pf w h k st c :
  bound pf w h k st c ->
  Seek pf (PyInt 0) current (w, h) = (Return (s_pos st), (w, h)).
Proof.
  intros Hb. unfold Seek.
  pose proof (bound_pos _ _ _ _ _ _ Hb) as Hp. unfold MAXOFFSET in Hp.
  rewrite (Seek_current_run _ _ _ _ _ _ _ _ Hb)
    by (rewrite Z.add_0_r, Z.max_r; unfold MAXOFFSET; lia).
  rewrite Z.add_0_r, Z.max_r by lia.
  rewrite (move_same _ _ _ (bound_live _ _ _ _ _ _ Hb)). reflexivity.
Qed.

#[local] Arguments LockFile.Seek_ : simpl never.
#[local] Arguments LockFile.Seek : simpl never.

(** *** The clamped length *)

Lemma effective_length_spec pos size n :
  effective_length pos size n = spec_effective_length pos size n.
Proof.
  unfold effective_length, spec_effective_length.
  destruct (Z.geb_spec pos size); [reflexivity|].
  destruct (Z.ltb_spec (size - pos + n + 1) 0), (Z.ltb_spec n 0);
    try destruct (Z.gtb_spec (pos + n) size); lia.
Qed.

Lemma effective_length_range pos size n :
  0 <= effective_length pos size n <= Z.max 0 (size - pos).
Proof.
  unfold effective_length.
  destruct (Z.geb_spec pos size); [lia|].
  destruct (Z.ltb_spec (size - pos + n + 1) 0); [lia|].
  destruct (Z.ltb_spec n 0); [lia|].
  destruct (Z.gtb_spec (pos + n) size); lia.
Qed.

Lemma effective_length_idem pos size n :
  effective_length pos size (effective_length pos size n)
  = effective_length pos size n.
Proof.
  pose proof (effective_length_range pos size n) as H.
  remember (effective_length pos size n) as e eqn:E. clear E.
  unfold effective_length.
  destruct (Z.geb_spec pos size); [lia|].
  destruct (Z.ltb_spec (size - pos + e + 1) 0); [lia|].
  destruct (Z.ltb_spec e 0); [lia|].
  destruct (Z.gtb_spec (pos + e) size); lia.
Qed.

(** *** [Read] *)

Lemma opened_for_reading_mode pf h st :
  opened_for_reading pf h st -> py_eq (_mode h) (WRITEMODE pf) = false.
Proof.
  intros [[H|H] _]; rewrite H; destruct pf; reflexivity.
Qed.

Ltac probe Hb :=
  repeat (first [ rewrite (Seek_zero_run _ _ _ _ _ _ Hb)
                | rewrite (GetFileSize_run _ _ _ _ _ _ Hb) ]; cbn).

(** [Read] reduces to the transfer of the clamped length. *)
Lemma Read_posix_run w h k st c n :
  bound Posix w h k st c -> opened_for_reading Posix h st ->
  Read Posix (PyInt n) (w, h)
  = native (file_read (PyFile k) (effective_length (s_pos st) (len c) n)) (w, h).
Proof.
  intros Hb Hr. pose proof (bound_is_open _ _ _ _ _ _ Hb) as Ho.
  pose proof (opened_for_reading_mode _ _ _ Hr) as Hm.
  unfold Read. cbn. rewrite (HaveFileOpen_run _ _ _ Ho). cbn.
  rewrite Hm. cbn. probe Hb.
  rewrite (bound_file _ _ _ _ _ _ Hb). cbn.
  unfold effective_length.
  destruct (Z.geb_spec (s_pos st) (len c)); cbn; [reflexivity|]. probe Hb.
  destruct (Z.ltb_spec (len c - s_pos st + n + 1) 0); cbn; [reflexivity|].
  destruct (Z.ltb_spec n 0); cbn; probe Hb; [reflexivity|].
  destruct (Z.gtb_spec (s_pos st + n) (len c)); cbn; probe Hb; reflexivity.
Qed.

Lemma Read_win32_run w h k st c n :
  bound Win32 w h k st c -> opened_for_reading Win32 h st ->
  Read Win32 (PyInt n) (w, h)
  = (do out <-
       Read_loop (S (Z.to_nat (effective_length (s_pos st) (len c) n / MAXDATAPERITE)))
         (replicate (Z.to_nat (effective_length (s_pos st) (len c) n)) 0)
         (effective_length (s_pos st) (len c) n) 0;
     if __binary h then ret (PyBytes out) else ret (PyStr (_BytesToStr out)))
      (w, h).
Proof.
  intros Hb Hr. pose proof (bound_is_open _ _ _ _ _ _ Hb) as Ho.
  pose proof (opened_for_reading_mode _ _ _ Hr) as Hm.
  unfold Read. cbn. rewrite (HaveFileOpen_run _ _ _ Ho). cbn.
  rewrite Hm. cbn. probe Hb.
  unfold effective_length.
  destruct (Z.geb_spec (s_pos st) (len c)); cbn; [reflexivity|]. probe Hb.
  destruct (Z.ltb_spec (len c - s_pos st + n + 1) 0); cbn; [reflexivity|].
  destruct (Z.ltb_spec n 0); cbn; probe Hb; [reflexivity|].
  destruct (Z.gtb_spec (s_pos st + n) (len c)); cbn; probe Hb; reflexivity.
Qed.

(** *** The transfer loops of win32 *)

Lemma store_length out count data :
  0 <= count -> count + len data <= len out ->
  len (store out count data) = len out.
Proof.
  unfold store, len. intros H1 H2.
  rewrite !length_app, length_take, length_drop. lia.
Qed.

Lemma take_store out count data :
  0 <= count <= len out ->
  take (Z.to_nat (count + len data)) (store out count data)
  = take (Z.to_nat count) out ++ data.
Proof.
  unfold store, len. intros H.
  rewrite app_assoc.
  rewrite take_app_length'; [reflexivity|].
  rewrite length_app, length_take. lia.
Qed.

Lemma Read_loop_run h k c :
  __file h = PyHandle k ->
  forall fuel out n count w st,
    w_open w !! k = Some st -> s_readable st = true ->
    content w (s_path st) = c ->
    0 <= count <= n -> len out = n ->
    0 <= s_pos st -> s_pos st + (n - count) <= len c ->
    n - count <= Z.of_nat fuel * MAXDATAPERITE ->
    Read_loop fuel out n count (w, h)
    = (Return (take (Z.to_nat count) out
               ++ take (Z.to_nat (n - count)) (drop (Z.to_nat (s_pos st)) c)),
       (move w k st (s_pos st + (n - count)), h)).
Proof.
  intros Hf. induction fuel as [|fuel IH];
    intros out n count w st Hl Hr Hc Hcount Hout Hp Hfit Hfuel;
    unfold MAXDATAPERITE in *.
  - assert (n - count = 0) as E by lia. simpl Read_loop. rewrite E. cbn.
    rewrite Z.add_0_r, (move_same _ _ _ Hl), app_nil_r.
    rewrite firstn_all2 by (unfold len in Hout; lia). reflexivity.
  - simpl Read_loop. destruct (Z.eqb_spec (n - count) 0) as [E|E]; cbn.
    + rewrite E. cbn. rewrite Z.add_0_r, (move_same _ _ _ Hl), app_nil_r.
      rewrite firstn_all2 by (unfold len in Hout; lia). reflexivity.
    + rewrite Hf. unfold MAXDATAPERITE.
      destruct (Z.gtb_spec (n - count) 100000) as [Hbig|Hsmall]; cbn.
      * rewrite (ReadFile_run w k st Hl 100000 Hr). cbn. rewrite Hc.
        set (data := take (Z.to_nat 100000) (drop (Z.to_nat (s_pos st)) c)).
        assert (len data = 100000) as Hd.
        { unfold data, len. rewrite length_take, length_drop.
          unfold len in Hfit. lia. }
        rewrite Hd. fold (move w k st (s_pos st + 100000)).
        rewrite (IH (store out count data) n (count + 100000)
                   (move w k st (s_pos st + 100000))
                   (with_pos (s_pos st + 100000) st));
          cbn; try lia; try assumption.
        -- rewrite move_move. f_equal; [f_equal|f_equal; f_equal; lia].
           rewrite <- Hd at 1. rewrite take_store by lia.
           rewrite <- app_assoc. f_equal. unfold data.
           replace (Z.to_nat (s_pos st + 100000))
             with (Z.to_nat (s_pos st) + Z.to_nat 100000)%nat by lia.
           rewrite <- drop_drop.
           replace (Z.to_nat (n - count))
             with (Z.to_nat 100000 + Z.to_nat (n - (count + 100000)))%nat by lia.
           rewrite take_take_drop. reflexivity.
        -- apply move_live.
        -- rewrite store_length; lia.
      * rewrite (ReadFile_run w k st Hl (n - count) Hr). cbn. rewrite Hc.
        set (data := take (Z.to_nat (n - count)) (drop (Z.to_nat (s_pos st)) c)).
        assert (len data = n - count) as Hd.
        { unfold data, len. rewrite length_take, length_drop.
          unfold len in Hfit. lia. }
        rewrite Hd. destruct fuel; simpl Read_loop; rewrite Z.sub_diag; cbn.
        -- f_equal. f_equal. unfold store. f_equal.
           rewrite drop_ge, app_nil_r; [reflexivity|]. unfold len in *. lia.
        -- f_equal. f_equal. unfold store. f_equal.
           rewrite drop_ge, app_nil_r; [reflexivity|]. unfold len in *. lia.
Qed.

#[local] Arguments LockFile.Read_loop : simpl never.

Lemma Read_win32_result w h k st c n :
  bound Win32 w h k st c -> opened_for_reading Win32 h st ->
  let eff := effective_length (s_pos st) (len c) n in
  let data := take (Z.to_nat eff) (drop (Z.to_nat (s_pos st)) c) in
  Read Win32 (PyInt n) (w, h)
  = (Return (if __binary h then PyBytes data else PyStr (_BytesToStr data)),
     (move w k st (s_pos st + eff), h))
  /\ len data = eff.
Proof.
  intros Hb Hr eff data.
  pose proof (effective_length_range (s_pos st) (len c) n) as He. fold eff in He.
  pose proof (bound_pos _ _ _ _ _ _ Hb) as Hp.
  assert (eff = 0 \/ s_pos st + eff <= len c) as Hfit by lia.
  assert (len data = eff) as Hd.
  { unfold data, len. rewrite length_take, length_drop. unfold len in Hfit. lia. }
  split; [|exact Hd].
  rewrite (Read_win32_run _ _ _ _ _ _ Hb Hr). fold eff. cbn.
  destruct Hfit as [E|Hfit].
  - unfold data. rewrite E. cbn. unfold Read_loop. cbn.
    rewrite Z.add_0_r, (move_same _ _ _ (bound_live _ _ _ _ _ _ Hb)).
    destruct (__binary h); reflexivity.
  - rewrite (Read_loop_run h k c (bound_file _ _ _ _ _ _ Hb) _ _ eff 0 w st);
      try (destruct Hr; assumption); try lia.
    + cbn. rewrite Z.sub_0_r. fold data. destruct (__binary h); reflexivity.
    + apply (bound_live _ _ _ _ _ _ Hb).
    + apply (bound_content_eq _ _ _ _ _ _ Hb).
    + unfold len. rewrite length_replicate. lia.
    + unfold MAXDATAPERITE.
      pose proof (Z.mul_succ_div_gt eff 100000 ltac:(lia)). lia.
Qed.

#[local] Arguments LockFile.Read : simpl never.

Lemma Read_posix_result w h k st c n :
  bound Posix w h k st c -> opened_for_reading Posix h st ->
  let eff := effective_length (s_pos st) (len c) n in
  let rest := drop (Z.to_nat (s_pos st)) c in
  match s_text st with
  | None =>
      Read Posix (PyInt n) (w, h)
      = (Return (PyBytes (take (Z.to_nat eff) rest)),
         (move w k st (s_pos st + len (take (Z.to_nat eff) rest)), h))
      /\ len (take (Z.to_nat eff) rest) = eff
  | Some codec =>
      if eff =? 0 then Read Posix (PyInt n) (w, h) = (Return (PyStr []), (w, h))
      else
        match decode_spans codec rest with
        | None => Read Posix (PyInt n) (w, h) = (Raise UnicodeDecodeError, (w, h))
        | Some spans =>
            let got := take (Z.to_nat eff) (universal_newlines spans) in
            Read Posix (PyInt n) (w, h)
            = (Return (PyStr (map fst got)),
               (move w k st (s_pos st + sum_snd got), h))
        end
  end.
Proof.
  intros Hb Hr eff rest.
  pose proof (effective_length_range (s_pos st) (len c) n) as He. fold eff in He.
  pose proof (bound_pos _ _ _ _ _ _ Hb) as Hp.
  pose proof (bound_live _ _ _ _ _ _ Hb) as Hl.
  pose proof (bound_content_eq _ _ _ _ _ _ Hb) as Hc.
  pose proof Hr as [_ Hrd].
  rewrite (Read_posix_run _ _ _ _ _ _ Hb Hr). fold eff.
  unfold file_read. cbn. rewrite (stream_of_run _ _ _ Hl). cbn.
  rewrite Hrd. cbn. rewrite Hc. fold rest.
  destruct (s_text st) as [codec|]; cbn.
  - destruct (Z.eqb_spec eff 0) as [E|E]; cbn; [reflexivity|].
    destruct (decode_spans codec rest) as [spans|]; cbn; [|reflexivity].
    destruct (Z.ltb_spec eff 0); [lia|]. reflexivity.
  - destruct (Z.ltb_spec eff 0); [lia|]. split; [reflexivity|].
    unfold rest, len. rewrite length_take, length_drop. unfold len in He. lia.
Qed.

Lemma take_length_le {A} (l : list A) n : 0 <= n -> len (take (Z.to_nat n) l) <= n.
Proof. intros H. unfold len. rewrite length_take. lia. Qed.


(** *** Opening *)

#[local] Arguments _ValidateFileName : simpl never.
#[local] Arguments lit : simpl never.
#[local] Arguments ch : simpl never.
#[local] Arguments LockFile.__modes : simpl never.
#[local] Arguments startswith : simpl never.
#[local] Arguments endswith : simpl never.
#[local] Arguments remove_char : simpl never.
#[local] Arguments contains : simpl never.
#[local] Arguments lookup_codec : simpl never.
#[local] Arguments bool_decide : simpl never.

Lemma held_iff w p :
  held w p <->
  p ∈ w_foreign w
  \/ exists k s, w_open w !! k = Some s /\ s_path s = p /\ s_locked s = true.
Proof.
  unfold held. rewrite map_Exists_lookup. reflexivity.
Qed.

Lemma not_held_insert w w' p k s :
  ¬ held w p -> w_foreign w' = w_foreign w ->
  w_open w' = <[k := s]> (w_open w) ->
  (s_path s = p -> s_locked s = false) ->
  ¬ held w' p.
Proof.
  rewrite !held_iff. intros Hn Hfo Hop Hs [Hin | (k' & s' & Hl & Hp & Hlk)].
  - apply Hn. left. rewrite <- Hfo. exact Hin.
  - rewrite Hop in Hl. destruct (decide (k = k')) as [<-|Hne].
    + rewrite lookup_insert_eq in Hl. injection Hl as <-.
      rewrite (Hs Hp) in Hlk. discriminate.
    + rewrite lookup_insert_ne in Hl by exact Hne.
      apply Hn. right. exists k', s'. auto.
Qed.

Lemma not_held_delete w w' p k :
  ¬ held w p -> w_foreign w' = w_foreign w ->
  w_open w' = delete k (w_open w) ->
  ¬ held w' p.
Proof.
  rewrite !held_iff. intros Hn Hfo Hop [Hin | (k' & s' & Hl & Hp & Hlk)].
  - apply Hn. left. rewrite <- Hfo. exact Hin.
  - rewrite Hop in Hl. apply lookup_delete_Some in Hl as [_ Hl].
    apply Hn. right. exists k', s'. auto.
Qed.

Lemma py_open_write_run w p mode enc tx :
  remove_char (ch "b") mode = lit "w" ->
  (if contains (ch "b") mode then Some None
   else Some <$> lookup_codec (default (lit "UTF-8") enc)) = Some tx ->
  p ∉ w_faulty w ->
  py_open p mode enc w
  = (Return (PyFile (w_next w)),
     allocated (set_files <[p := []]> w) (w_next w)
       (new_stream p 0 false true false tx false)).
Proof.
  intros Hbase Htx Hfa. unfold py_open. rewrite Hbase. closed_bools. cbn.
  rewrite (bool_decide_eq_false_2 _ Hfa). cbn.
  destruct (contains (ch "b") mode); cbn.
  - injection Htx as <-. reflexivity.
  - destruct (lookup_codec _) as [c|]; [|discriminate].
    injection Htx as <-. reflexivity.
Qed.

Lemma py_open_read_run w p mode enc tx c :
  remove_char (ch "b") mode = lit "r" ->
  (if contains (ch "b") mode then Some None
   else Some <$> lookup_codec (default (lit "UTF-8") enc)) = Some tx ->
  p ∉ w_faulty w -> w_files w !! p = Some c ->
  py_open p mode enc w
  = (Return (PyFile (w_next w)),
     allocated w (w_next w) (new_stream p 0 true false false tx false)).
Proof.
  intros Hbase Htx Hfa Hc. unfold py_open. rewrite Hbase. closed_bools. cbn.
  rewrite (bool_decide_eq_false_2 _ Hfa). cbn.
  rewrite bool_decide_eq_true_2 by (rewrite Hc; eauto). cbn.
  destruct (contains (ch "b") mode); cbn.
  - injection Htx as <-. reflexivity.
  - destruct (lookup_codec _) as [cd|]; [|discriminate].
    injection Htx as <-. reflexivity.
Qed.

Lemma CreateFile_new_run w p access :
  p ∉ w_faulty w -> ¬ held w p ->
  _CreateFile (PyStr p) access 2 w
  = (Return (handle_of (w_next w)),
     allocated (set_files <[p := []]> w) (handle_of (w_next w))
       (new_stream p 0 (Z.testbit access 31) (Z.testbit access 30) false None true)).
Proof.
  intros Hfa Hh. unfold _CreateFile. cbn.
  rewrite (bool_decide_eq_false_2 _ Hfa), (bool_decide_eq_false_2 _ Hh). cbn.
  reflexivity.
Qed.

Lemma CreateFile_existing_run w p access c :
  p ∉ w_faulty w -> ¬ held w p -> w_files w !! p = Some c ->
  _CreateFile (PyStr p) access 3 w
  = (Return (handle_of (w_next w)),
     allocated w (handle_of (w_next w))
       (new_stream p 0 (Z.testbit access 31) (Z.testbit access 30) false None true)).
Proof.
  intros Hfa Hh Hc. unfold _CreateFile. cbn.
  rewrite (bool_decide_eq_false_2 _ Hfa), (bool_decide_eq_false_2 _ Hh). cbn.
  rewrite bool_decide_eq_true_2 by (rewrite Hc; eauto). cbn.
  reflexivity.
Qed.

Lemma handle_of_valid n : (handle_of n =? 4294967295) = false.
Proof. unfold handle_of. apply Z.eqb_neq. lia. Qed.

#[local] Arguments py_open : simpl never.
#[local] Arguments flock : simpl never.
#[local] Arguments _CreateFile : simpl never.
#[local] Arguments handle_of : simpl never.

Ltac modes :=
  unfold WRITEMODE, READMODE, APPENDMODE, WRITEANDREADMODE;
  cbn [as_str as_int].

Lemma allocated_live w k s : w_open (allocated w k s) !! k = Some s.
Proof. cbn. apply lookup_insert_eq. Qed.

Lemma flock_allocated w f k s :
  ¬ held w (s_path s) -> s_locked s = false ->
  flock (PyFile k) (allocated (set_files f w) k s)
  = (Return tt,
     set_open <[k := with_locked true s]> (allocated (set_files f w) k s)).
Proof.
  intros Hh Hs. apply flock_run; [apply allocated_live|].
  eapply (not_held_insert w); [exact Hh|reflexivity|reflexivity|auto].
Qed.

Lemma flock_allocated' w k s :
  ¬ held w (s_path s) -> s_locked s = false ->
  flock (PyFile k) (allocated w k s)
  = (Return tt, set_open <[k := with_locked true s]> (allocated w k s)).
Proof.
  intros Hh Hs. apply flock_run; [apply allocated_live|].
  eapply (not_held_insert w); [exact Hh|reflexivity|reflexivity|auto].
Qed.

Lemma Open_write_run pf w h p (bin : bool) :
  __file h = PyNone -> __binary h = false ->
  _ValidateFileName pf p = true -> ¬ held w p -> p ∉ w_faulty w ->
  exists w1 k,
    let st := new_stream p 0 false true false
                (if win32 pf || bin then None else Some UTF8) true in
    LockFile.Open pf (PyStr p) (PyStr (lit (if bin then "wb" else "w"))) PyNone (w, h)
    = (Return tt,
       (w1, {| _filename := PyStr p; _mode := WRITEMODE pf;
               __file := (if win32 pf then PyHandle k else PyFile k);
               __binary := bin |}))
    /\ w_open w1 = <[k := st]> (w_open w)
    /\ w_files w1 = <[p := []]> (w_files w)
    /\ w_foreign w1 = w_foreign w /\ w_faulty w1 = w_faulty w.
Proof.
  intros Hf Hb Hv Hh Hfa. destruct h as [fn md fl bn]. cbn in Hf, Hb. subst.
  destruct pf, bin; unfold LockFile.Open; cbn; rewrite Hv; cbn; closed_bools; cbn.
  - rewrite (CreateFile_new_run _ _ _ Hfa Hh). cbn. rewrite handle_of_valid. cbn.
    closed_bools. cbn. do 2 eexists. split; [reflexivity|]. cbn. auto.
  - rewrite (CreateFile_new_run _ _ _ Hfa Hh). cbn. rewrite handle_of_valid. cbn.
    closed_bools. cbn. do 2 eexists. split; [reflexivity|]. cbn. auto.
  - modes. closed_bools. cbn.
    rewrite (py_open_write_run w p _ None None) by (vm_compute; reflexivity || exact Hfa).
    cbn. rewrite flock_allocated by (cbn; auto). cbn.
    do 2 eexists. split; [reflexivity|]. cbn.
    rewrite insert_insert_eq. auto.
  - modes. closed_bools. cbn.
    rewrite (py_open_write_run w p _ _ (Some UTF8)) by (vm_compute; reflexivity || exact Hfa).
    cbn. rewrite flock_allocated by (cbn; auto). cbn.
    do 2 eexists. split; [reflexivity|]. cbn.
    rewrite insert_insert_eq. auto.
Qed.

Lemma path_exists_present w p c :
  w_files w !! p = Some c -> bool_decide (is_Some (w_files w !! p)) = true.
Proof. intros H. apply bool_decide_eq_true_2. rewrite H. eauto. Qed.

Lemma Open_read_run pf w h p (bin : bool) c :
  __file h = PyNone -> __binary h = false ->
  _ValidateFileName pf p = true -> ¬ held w p -> p ∉ w_faulty w ->
  w_files w !! p = Some c ->
  exists w1 k,
    let st := new_stream p 0 true false false
                (if win32 pf || bin then None else Some UTF8) true in
    LockFile.Open pf (PyStr p) (PyStr (lit (if bin then "rb" else "r"))) PyNone (w, h)
    = (Return tt,
       (w1, {| _filename := PyStr p; _mode := READMODE pf;
               __file := (if win32 pf then PyHandle k else PyFile k);
               __binary := bin |}))
    /\ w_open w1 = <[k := st]> (w_open w)
    /\ w_files w1 = w_files w
    /\ w_foreign w1 = w_foreign w /\ w_faulty w1 = w_faulty w.
Proof.
  intros Hf Hb Hv Hh Hfa Hc. destruct h as [fn md fl bn]. cbn in Hf, Hb. subst.
  destruct pf, bin; unfold LockFile.Open; cbn; rewrite Hv; cbn; closed_bools; cbn;
    unfold path_exists; rewrite (path_exists_present _ _ _ Hc); cbn.
  - rewrite (CreateFile_existing_run _ _ _ _ Hfa Hh Hc). cbn.
    rewrite handle_of_valid. cbn.
    closed_bools. cbn. do 2 eexists. split; [reflexivity|]. cbn. auto.
  - rewrite (CreateFile_existing_run _ _ _ _ Hfa Hh Hc). cbn.
    rewrite handle_of_valid. cbn.
    closed_bools. cbn. do 2 eexists. split; [reflexivity|]. cbn. auto.
  - modes. closed_bools. cbn.
    rewrite (py_open_read_run w p _ None None c) by (vm_compute; reflexivity || assumption).
    cbn. rewrite flock_allocated' by (cbn; auto). cbn.
    do 2 eexists. split; [reflexivity|]. cbn.
    rewrite insert_insert_eq. auto.
  - modes. closed_bools. cbn.
    rewrite (py_open_read_run w p _ _ (Some UTF8) c) by (vm_compute; reflexivity || assumption).
    cbn. rewrite flock_allocated' by (cbn; auto). cbn.
    do 2 eexists. split; [reflexivity|]. cbn.
    rewrite insert_insert_eq. auto.
Qed.

#[local] Arguments LockFile.Open : simpl never.

(** *** Writing *)

Lemma write_at_prefix_length old p :
  length (take p (old ++ replicate (p - length old) 0)) = p.
Proof. rewrite length_take, length_app, length_replicate. lia. Qed.

Lemma write_at_nil old pos : 0 <= pos <= len old -> write_at old pos [] = old.
Proof.
  unfold write_at, len. intros H. cbn [app length].
  replace (Z.to_nat pos - length old)%nat with 0%nat by lia.
  cbn [replicate]. rewrite app_nil_r, Nat.add_0_r. apply take_drop.
Qed.

Lemma write_at_empty data : write_at [] 0 data = data.
Proof.
  unfold write_at. cbn. rewrite drop_nil, app_nil_r. reflexivity.
Qed.

Lemma write_at_length old pos data :
  0 <= pos -> pos + len data <= len (write_at old pos data).
Proof.
  unfold write_at, len. intros H.
  rewrite !length_app, write_at_prefix_length. lia.
Qed.

Lemma write_at_app old pos a b :
  0 <= pos ->
  write_at (write_at old pos a) (pos + len a) b = write_at old pos (a ++ b).
Proof.
  intros Hpos. unfold write_at at 1. unfold len.
  replace (Z.to_nat (pos + Z.of_nat (length a)))
    with (Z.to_nat pos + length a)%nat by lia.
  unfold write_at.
  set (p := Z.to_nat pos).
  set (P := take p (old ++ replicate (p - length old) 0)).
  assert (length P = p) as HP by apply write_at_prefix_length.
  set (D := drop (p + length a) old).
  assert (take (p + length a) ((P ++ a ++ D) ++
            replicate (p + length a - length (P ++ a ++ D)) 0) = P ++ a) as ->.
  { generalize (replicate (p + length a - length (P ++ a ++ D)) 0). intros zs.
    replace ((P ++ a ++ D) ++ zs) with ((P ++ a) ++ (D ++ zs))
      by (rewrite <- !app_assoc; reflexivity).
    rewrite take_app_length'; [reflexivity|]. rewrite length_app. lia. }
  assert (drop (p + length a + length b) (P ++ a ++ D)
          = drop (p + length (a ++ b)) old) as ->.
  { rewrite (app_assoc P a).
    rewrite drop_app_ge by (rewrite length_app; lia).
    rewrite length_app, HP. unfold D. rewrite drop_drop, length_app.
    f_equal. lia. }
  rewrite <- !app_assoc. reflexivity.
Qed.

Lemma Write_loop_run h k :
  __file h = PyHandle k ->
  forall fuel data count w st c,
    w_open w !! k = Some st -> s_writable st = true ->
    w_files w !! s_path st = Some c ->
    0 <= count <= len data -> 0 <= s_pos st <= len c ->
    len data - count <= Z.of_nat fuel * MAXDATAPERITE ->
    exists w2,
      Write_loop fuel data count (w, h) = (Return tt, (w2, h))
      /\ w_files w2
         = <[s_path st := write_at c (s_pos st) (drop (Z.to_nat count) data)]> (w_files w)
      /\ w_open w2 = <[k := with_pos (s_pos st + (len data - count)) st]> (w_open w)
      /\ w_foreign w2 = w_foreign w /\ w_faulty w2 = w_faulty w.
Proof.
  intros Hf. induction fuel as [|fuel IH];
    intros data count w st c Hl Hw Hc Hcount Hp Hfuel; unfold MAXDATAPERITE in *.
  - assert (count = len data) as -> by lia. exists w. simpl Write_loop.
    rewrite Z.eqb_refl. cbn. unfold len. rewrite Nat2Z.id, drop_all.
    rewrite write_at_nil by lia. rewrite insert_id by exact Hc.
    rewrite Z.sub_diag, Z.add_0_r, with_pos_id, insert_id by exact Hl. auto.
  - simpl Write_loop. destruct (Z.eqb_spec (len data) count) as [E|E]; cbn.
    + subst count. exists w. unfold len. rewrite Nat2Z.id, drop_all.
      rewrite write_at_nil by lia. rewrite insert_id by exact Hc.
      rewrite Z.sub_diag, Z.add_0_r, with_pos_id, insert_id by exact Hl. auto.
    + rewrite Hf. unfold MAXDATAPERITE, slice_from.
      assert (content w (s_path st) = c) as Hcc by (unfold content; rewrite Hc; reflexivity).
      destruct (Z.gtb_spec (len data - count) 100000) as [Hbig|Hsmall]; cbn.
      * rewrite (WriteFile_run w k st Hl _ 100000 Hw). cbn. rewrite Hcc.
        set (chunk := take (Z.to_nat 100000) (drop (Z.to_nat count) data)).
        assert (len chunk = 100000) as Hd.
        { unfold chunk, len. rewrite length_take, length_drop. unfold len in *. lia. }
        rewrite Hd.
        edestruct (IH data (count + 100000)
                     (set_open <[k := with_pos (s_pos st + 100000) st]>
                        (set_files <[s_path st := write_at c (s_pos st) chunk]> w))
                     (with_pos (s_pos st + 100000) st)
                     (write_at c (s_pos st) chunk))
          as (w2 & Hrun & Hfs & Hop & Hfo & Hfa); cbn; try lia; try assumption.
        -- apply lookup_insert_eq.
        -- apply lookup_insert_eq.
        -- pose proof (write_at_length c (s_pos st) chunk ltac:(lia)). lia.
        -- exists w2. rewrite Hrun. split; [reflexivity|].
           rewrite Hfs, Hop, Hfo, Hfa. cbn. rewrite !insert_insert_eq.
           repeat split.
           ++ f_equal. rewrite <- Hd at 1. rewrite write_at_app by lia. f_equal.
              unfold chunk.
              replace (Z.to_nat (count + 100000))
                with (Z.to_nat count + Z.to_nat 100000)%nat by lia.
              rewrite <- drop_drop. apply take_drop.
           ++ f_equal. unfold with_pos; cbn. f_equal. lia.
      * rewrite (WriteFile_run w k st Hl _ _ Hw). cbn. rewrite Hcc.
        rewrite firstn_all2 by (unfold len; lia).
        eexists. split.
        { destruct fuel; simpl Write_loop; rewrite Z.eqb_refl; cbn; reflexivity. }
        cbn. repeat split. f_equal. f_equal.
        unfold len. rewrite length_drop. unfold len in *. lia.
Qed.

#[local] Arguments LockFile.Write_loop : simpl never.
#[local] Arguments encode : simpl never.

Lemma Write_run pf w h k st c d b :
  __file h = (if win32 pf then PyHandle k else PyFile k) ->
  w_open w !! k = Some st -> w_files w !! s_path st = Some c ->
  py_eq (_mode h) (READMODE pf) = false ->
  __binary h = is_bytes d -> stored_as d = Some b ->
  s_writable st = true -> s_append st = false ->
  s_text st = (if win32 pf || is_bytes d then None else Some UTF8) ->
  0 <= s_pos st <= len c ->
  exists w2,
    Write pf d (w, h) = (Return tt, (w2, h))
    /\ w_files w2 = <[s_path st := write_at c (s_pos st) b]> (w_files w)
    /\ w_open w2 = <[k := with_pos (s_pos st + len b) st]> (w_open w)
    /\ w_foreign w2 = w_foreign w /\ w_faulty w2 = w_faulty w.
Proof.
  intros Hf Hl Hc Hm Hbin Hst Hw Ha Ht Hp.
  assert (is_open pf h = true) as Ho.
  { unfold is_open. rewrite Hf. destruct pf; reflexivity. }
  assert (content w (s_path st) = c) as Hcc by (unfold content; rewrite Hc; reflexivity).
  unfold Write. cbn. rewrite (HaveFileOpen_run _ _ _ Ho). cbn.
  rewrite Hbin, Hm.
  destruct d; try discriminate; cbn in Hst, Ht |- *; destruct pf; cbn in Hf, Ht |- *.
  - (* text, win32 *)
    rewrite Hst. cbn.
    destruct (Write_loop_run h k Hf (S (Z.to_nat (len b / MAXDATAPERITE))) b 0 w st c)
      as (w2 & Hrun & Hfs & Hop & Hfo & Hfa); try assumption; try lia.
    { pose proof (len_nonneg b). lia. }
    { unfold MAXDATAPERITE. pose proof (len_nonneg b).
      pose proof (Z.mul_succ_div_gt (len b) 100000 ltac:(lia)). lia. }
    exists w2. rewrite Hrun. cbn in Hfs. rewrite Z.sub_0_r in Hop. auto.
  - (* text, stream *)
    rewrite Hf. rewrite (file_write_run w k st Hl (PyStr s) b Hw) by (rewrite Ht; exact Hst).
    cbn. rewrite Ha, Hcc. eexists. split; [reflexivity|]. cbn. auto.
  - (* bytes, win32 *)
    injection Hst as ->.
    destruct (Write_loop_run h k Hf (S (Z.to_nat (len b / MAXDATAPERITE))) b 0 w st c)
      as (w2 & Hrun & Hfs & Hop & Hfo & Hfa); try assumption; try lia.
    { pose proof (len_nonneg b). lia. }
    { unfold MAXDATAPERITE. pose proof (len_nonneg b).
      pose proof (Z.mul_succ_div_gt (len b) 100000 ltac:(lia)). lia. }
    exists w2. rewrite Hrun. cbn in Hfs. rewrite Z.sub_0_r in Hop. auto.
  - (* bytes, stream *)
    injection Hst as ->.
    rewrite Hf. rewrite (file_write_run w k st Hl (PyBytes b) b Hw) by (rewrite Ht; reflexivity).
    cbn. rewrite Ha, Hcc. eexists. split; [reflexivity|]. cbn. auto.
Qed.

#[local] Arguments LockFile.Write : simpl never.

(** *** Closing *)

Lemma Close_run pf w h :
  exists w',
    Close pf (w, h) = (Return tt, (w', cleared))
    /\ w_files w' = w_files w /\ w_foreign w' = w_foreign w
    /\ w_faulty w' = w_faulty w
    /\ (is_open pf h = false -> w' = w)
    /\ (forall k, is_open pf h = true -> resource_key h = Some k ->
        w_open w' = delete k (w_open w)).
Proof.
  unfold Close, is_open, resource_key. destruct pf; cbn; destruct (__file h) eqn:Ef; cbn;
    try (exists w; repeat split; (reflexivity || discriminate)).
  - unfold _CloseHandle. cbn. unfold handle_of_val.
    destruct (w_open w !! v) as [s|] eqn:El; cbn.
    + eexists. split; [reflexivity|]. cbn. repeat split; try discriminate.
      intros k _ [= <-]. reflexivity.
    + eexists. split; [reflexivity|]. cbn. repeat split; try discriminate.
      intros k _ [= <-]. symmetry. apply delete_id. exact El.
  - eexists. split; [reflexivity|]. cbn. repeat split; try discriminate.
    intros k _ [= <-]. reflexivity.
Qed.

#[local] Arguments LockFile.Close : simpl never.

Lemma effective_length_all size :
  0 <= size -> effective_length 0 size (-1) = size.
Proof.
  intros H. unfold effective_length.
  destruct (Z.geb_spec 0 size); [lia|].
  destruct (Z.ltb_spec (size - 0 + -1 + 1) 0); [lia|]. cbn. lia.
Qed.

Lemma round_trips_stored pf d :
  round_trips pf d -> exists b, stored_as d = Some b.
Proof.
  destruct d; cbn; try contradiction.
  - intros [Hs _]. apply scalar_encodes, Hs.
  - eauto.
Qed.


(** * The claims *)



(** C9, amended.  A mode is bound exactly when a native resource is: this
    holds of a newly constructed handle and after every [Close]; every
    successful [Open] establishes it; an [Open] that rejects the call
    early (with AlreadyOpen, InvalidType, InvalidFilename, InvalidMode or
    FileNotFound) preserves it; and [Write], [Read], [Seek], [Seek2],
    [GetFileSize], [GetCursorPos] and the queries leave the fields as
    they are. *)
Theorem mode_bound_iff_resource_bound pf :
  mode_iff_resource fresh
  /\ (forall s, mode_iff_resource (self_after (Close pf s)))
  /\ (forall fn m e s,
        result (LockFile.Open pf fn m e s) = Return tt ->
        mode_iff_resource (self_after (LockFile.Open pf fn m e s)))
  /\ (forall fn m e s x,
        result (LockFile.Open pf fn m e s) = Raise x -> rejected_early x ->
        mode_iff_resource (snd s) ->
        mode_iff_resource (self_after (LockFile.Open pf fn m e s)))
  /\ (forall s d n o sp,
        self_after (Write pf d s) = snd s
        /\ self_after (Read pf n s) = snd s
        /\ self_after (Seek pf o sp s) = snd s
        /\ self_after (Seek2 pf o s) = snd s
        /\ self_after (GetFileSize pf s) = snd s
        /\ self_after (GetCursorPos pf s) = snd s
        /\ self_after (IsWriteable pf s) = snd s
        /\ self_after (IsReadable pf s) = snd s
        /\ self_after (IsBinary s) = snd s).
Proof.
  split; [|split; [|split; [|split]]].
  - unfold mode_iff_resource. cbn. tauto.
  - intros [w h]. destruct (Close_run pf w h) as (w' & Hrun & _).
    unfold self_after. rewrite Hrun. unfold mode_iff_resource. cbn. tauto.
  - intros fn m e [w h] Hr. pose proof (Open_ends pf fn m e h w) as H.
    unfold result in Hr. unfold self_after. rewrite Hr in H.
    destruct H as [Hm Ho]. unfold mode_iff_resource. split; intros _; [|exact Hm].
    unfold is_open in Ho. intros E. rewrite E in Ho. destruct pf; discriminate.
  - intros fn m e [w h] x Hr Hx Hinv. pose proof (Open_ends pf fn m e h w) as H.
    unfold result in Hr. unfold self_after. rewrite Hr in H.
    destruct (H Hx) as [Hm Hf]. unfold mode_iff_resource in *.
    rewrite Hm, Hf. exact Hinv.
  - intros [w h] d n o sp. unfold self_after. cbn [snd].
    repeat apply conj.
    + apply (Write_keeps pf d h w).
    + apply (Read_keeps pf n h w).
    + apply (Seek_keeps pf o sp h w).
    + apply (Seek2_keeps pf o h w).
    + apply (GetFileSize_keeps pf h w).
    + apply (GetCursorPos_keeps pf h w).
    + apply (IsWriteable_keeps pf h w).
    + apply (IsReadable_keeps pf h w).
    + apply (IsBinary_keeps h w).
Qed.


(** ** Concrete runs *)

Lemma empty_world_not_held p : ¬ held empty_world p.
Proof.
  unfold held. cbn. intros [H|H].
  - exact (not_elem_of_empty p H).
  - exact (map_Exists_empty _ H).
Defined.

Lemma empty_world_not_faulty p : p ∉ w_faulty empty_world.
Proof. cbn. apply not_elem_of_empty. Defined.

Lemma opened_for_read_bound pf :
  bound pf (fst (opened pf "r" (lit "hello"))) (snd (opened pf "r" (lit "hello")))
    (opened_key pf) (opened_stream pf) (lit "hello").
Proof.
  destruct pf; split; try (vm_compute; reflexivity).
  - vm_compute. split; discriminate.
  - vm_compute. split; auto.
  - vm_compute. split; discriminate.
  - vm_compute. split; [discriminate | intros [H|H]; discriminate H].
Defined.

Lemma opened_for_read_reading pf :
  opened_for_reading pf (snd (opened pf "r" (lit "hello"))) (opened_stream pf).
Proof. destruct pf; split; try (left; vm_compute; reflexivity); reflexivity. Defined.







(** C5.  On win32 the file [t.txt] holds three bytes and is opened with
    the token [ab]: the cursor is at 0, not at end-of-file.  [Open] seeks
    to the end only when the token is exactly [a]; with [a] on win32, and
    with [ab] and [a] through a stream, the cursor is at 3. *)
Theorem append_binary_cursor_at_start :
  result (GetCursorPos Win32 (opened Win32 "ab" (lit "xyz"))) = Return 0
  /\ result (GetFileSize Win32 (opened Win32 "ab" (lit "xyz"))) = Return 3
  /\ result (GetCursorPos Win32 (opened Win32 "a" (lit "xyz"))) = Return 3
  /\ result (GetCursorPos Posix (opened Posix "ab" (lit "xyz"))) = Return 3
  /\ result (GetCursorPos Posix (opened Posix "a" (lit "xyz"))) = Return 3.
Proof. repeat apply conj; vm_compute; reflexivity. Qed.

(** C6.  Through a stream, a handle opened with the token [a] (or [ab])
    answers [IsReadable()] with true, where the claim wants false; on
    win32 the answer is false, as for every other token on both
    platforms the answers are those of the claim. *)
Theorem append_handle_reports_readable :
  result (IsReadable Posix (opened Posix "a" (lit "xyz"))) = Return true
  /\ result (IsReadable Posix (opened Posix "ab" (lit "xyz"))) = Return true
  /\ result (IsWriteable Posix (opened Posix "a" (lit "xyz"))) = Return true
  /\ result (IsReadable Win32 (opened Win32 "a" (lit "xyz"))) = Return false
  /\ result (IsReadable Win32 (opened Win32 "ab" (lit "xyz"))) = Return false
  /\ (forall pf,
        map (fun m => (result (IsReadable pf (opened pf m (lit "xyz"))),
                       result (IsWriteable pf (opened pf m (lit "xyz")))))
          ["r"; "rb"; "w"; "wb"; "rw"; "rwb"]%string
        = [(Return true, Return false); (Return true, Return false);
           (Return false, Return true); (Return false, Return true);
           (Return true, Return true); (Return true, Return true)]).
Proof.
  do 5 (split; [vm_compute; reflexivity|]).
  intros []; vm_compute; reflexivity.
Qed.

(** C7.  On a handle that was never opened, [GetCursorPos()] does not
    fail with NotOpen: through a stream it fails with the AttributeError
    of the missing stream, on win32 with the native error of the null
    handle.  [Seek], [Seek2] and [GetFileSize] do fail with NotOpen, after
    [Close] as well. *)
Theorem GetCursorPos_on_closed_handle :
  result (GetCursorPos Posix (empty_world, fresh)) = Raise no_attribute
  /\ no_attribute <> NotOpen
  /\ (exists msg, result (GetCursorPos Win32 (empty_world, fresh)) = Raise (OSError msg))
  /\ (forall pf w h o sp,
        is_open pf h = false ->
        result (Seek pf o sp (w, h)) = Raise NotOpen
        /\ result (Seek2 pf o (w, h)) = Raise NotOpen
        /\ result (GetFileSize pf (w, h)) = Raise NotOpen).
Proof.
  split; [vm_compute; reflexivity|]. split; [discriminate|].
  split; [eexists; vm_compute; reflexivity|].
  intros pf w h o sp Hc. unfold result, Seek2, Seek.
  rewrite !(Seek_closed _ _ _ _ _ _ Hc), (GetFileSize_closed _ _ _ Hc). auto.
Qed.

(** C9, counterexample.  An [Open] that fails on the type of the
    encoding argument has bound the mode already, and no resource. *)
Lemma failing_Open_leaves_mode_bound :
  let r := LockFile.Open Posix (PyStr t_txt) (PyStr (lit "w")) (PyInt 5)
             (empty_world, fresh) in
  result r = Raise InvalidEncoding
  /\ mode_iff_resource fresh
  /\ _mode (self_after r) = PyStr (lit "w")
  /\ __file (self_after r) = PyNone
  /\ ~ mode_iff_resource (self_after r).
Proof.
  cbv zeta. split; [vm_compute; reflexivity|]. split; [|split; [|split]].
  - unfold mode_iff_resource. cbn. tauto.
  - vm_compute. reflexivity.
  - vm_compute. reflexivity.
  - unfold mode_iff_resource. intros [H _]. apply H; [|vm_compute; reflexivity].
    vm_compute. discriminate.
Qed.


(** * Further properties *)


(** ** File names, [_MAKELANGID] and [_BytesToStr] *)

Lemma existsb_none {A} (f : A -> bool) l :
  existsb f l = false <-> forall x, In x l -> f x = false.
Proof.
  induction l as [|a l IH]; cbn.
  - split; [intros _ x []|reflexivity].
  - rewrite orb_false_iff, IH. split.
    + intros [Ha Hl] x [<-|Hx]; auto.
    + intros H. split; [apply H; auto|intros x Hx; apply H; auto].
Qed.

Lemma contains_true c s : contains c s = true <-> In c s.
Proof.
  unfold contains. rewrite existsb_exists. split.
  - intros (x & Hx & E). apply Z.eqb_eq in E. subst. exact Hx.
  - intros H. exists c. split; [exact H|apply Z.eqb_refl].
Qed.

Lemma contains_false c s : contains c s = false <-> ~ In c s.
Proof.
  rewrite <- contains_true. destruct (contains c s); split; intros; try discriminate; try tauto.
Qed.

Lemma no_control_chars filename :
  existsb (fun c => contains c filename) (map Z.of_nat (seq 0 32)) = false
  <-> forall c, In c filename -> ~ control c.
Proof.
  rewrite existsb_none. split.
  - intros H c Hc [H0 H1]. specialize (H c).
    rewrite (proj2 (contains_true c filename) Hc) in H.
    discriminate H. apply in_map_iff. exists (Z.to_nat c). split; [lia|].
    apply in_seq. lia.
  - intros H c Hc. apply contains_false. intros Hin.
    apply (H c Hin). apply in_map_iff in Hc as (n & <- & Hn).
    apply in_seq in Hn. unfold control. lia.
Qed.

(** X1.  [_ValidateFileName] accepts no name that holds a control
    character (a code point below 32), on any platform; on a platform
    other than win32 that is the whole test: a name is valid exactly when
    it holds none.  A name that is valid on win32 is valid everywhere. *)
Theorem ValidateFileName_control_characters filename :
  (forall pf, _ValidateFileName pf filename = true ->
              forall c, In c filename -> ~ control c)
  /\ (_ValidateFileName Posix filename = true <->
      forall c, In c filename -> ~ control c)
  /\ (_ValidateFileName Win32 filename = true ->
      _ValidateFileName Posix filename = true).
Proof.
  assert (forall pf, _ValidateFileName pf filename = true ->
                     forall c, In c filename -> ~ control c) as H1.
  { intros pf. unfold _ValidateFileName.
    destruct (existsb _ (map Z.of_nat (seq 0 32))) eqn:E; [discriminate|].
    intros _. apply no_control_chars, E. }
  assert (_ValidateFileName Posix filename = true <->
          forall c, In c filename -> ~ control c) as H2.
  { split; [apply H1|]. intros H. apply no_control_chars in H.
    unfold _ValidateFileName. rewrite H. reflexivity. }
  split; [exact H1|]. split; [exact H2|].
  intros H. apply H2, (H1 Win32 H).
Qed.

(** X2.  On win32 [_ValidateFileName] rejects a name when one of its
    components, between backslashes and put in upper case, starts with a
    reserved device name ([CON], [PRN], [AUX], [CLOCK$], [NUL], [COM0] to
    [COM9], [LPT0] to [LPT9]): also a component that only begins with the
    device name. *)
Theorem ValidateFileName_reserved_names filename name part :
  In name reserved_names -> In part (split sep filename) ->
  startswith (upper part) name = true ->
  _ValidateFileName Win32 filename = false.
Proof.
  intros Hn Hp Hs. unfold _ValidateFileName.
  destruct (existsb _ (map Z.of_nat (seq 0 32))); [reflexivity|].
  cbn [win32 negb].
  replace (existsb _ reserved_names) with true; [reflexivity|].
  symmetry. apply existsb_exists. exists name. split; [exact Hn|].
  apply existsb_exists. exists part. auto.
Qed.

Lemma split_cons_inv c d s :
  split c (d :: s) =
  if d =? c then [] :: split c s
  else match split c s with
       | [] => [[d]]
       | part :: parts => (d :: part) :: parts
       end.
Proof. reflexivity. Qed.

Lemma in_split_part c x s :
  x <> c -> In x s -> exists part, In part (split c s) /\ In x part.
Proof.
  intros Hx. induction s as [|d s IH]; [intros []|].
  intros Hin. rewrite split_cons_inv.
  destruct (Z.eqb_spec d c) as [->|Hd].
  - destruct Hin as [<-|Hin]; [congruence|].
    destruct (IH Hin) as (part & Hp & Hxp). exists part. split; [right; exact Hp|exact Hxp].
  - destruct Hin as [<-|Hin].
    + destruct (split c s) as [|part parts].
      * exists [d]. split; left; reflexivity.
      * exists (d :: part). split; left; reflexivity.
    + destruct (IH Hin) as (part & Hp & Hxp).
      destruct (split c s) as [|part0 parts]; [destruct Hp|].
      destruct Hp as [<-|Hp].
      * exists (d :: part0). split; [left; reflexivity|right; exact Hxp].
      * exists part. split; [right; exact Hp|exact Hxp].
Qed.

(** X3.  On win32 [_ValidateFileName] rejects a name that holds one of
    the characters < > : double-quote / | ? * anywhere after the drive
    and the character that follows it (anywhere at all when the name
    has no drive). *)
Theorem ValidateFileName_forbidden_characters filename c :
  In c forbidden_chars -> In c (after_drive filename) ->
  _ValidateFileName Win32 filename = false.
Proof.
  intros Hc Hin. unfold _ValidateFileName.
  destruct (existsb _ (map Z.of_nat (seq 0 32))); [reflexivity|].
  cbn [win32 negb].
  destruct (existsb _ reserved_names); [reflexivity|].
  fold (after_drive filename).
  replace (existsb _ forbidden_chars) with true; [reflexivity|].
  symmetry. apply existsb_exists. exists c. split; [exact Hc|].
  assert (c <> sep) as Hsep.
  { unfold forbidden_chars, sep in *. cbn in Hc. intros ->.
    repeat destruct Hc as [Hc|Hc]; try discriminate Hc. exact Hc. }
  destruct (in_split_part sep c _ Hsep Hin) as (part & Hp & Hxp).
  apply existsb_exists. exists part. split; [exact Hp|].
  apply contains_true, Hxp.
Qed.

(** X4.  [_MAKELANGID(primary, sublang)] packs the low byte of [primary]
    into bits 0 to 7 and the low byte of [sublang] into bits 16 to 23:
    its value is [primary mod 256 + 65536 * (sublang mod 256)], below
    [2 ** 24], and both bytes can be read back from it. *)
Theorem MAKELANGID_packs_low_bytes primary sublang :
  _MAKELANGID primary sublang = primary mod 256 + 65536 * (sublang mod 256)
  /\ 0 <= _MAKELANGID primary sublang < 2 ^ 24
  /\ Z.land (_MAKELANGID primary sublang) 255 = primary mod 256
  /\ Z.shiftr (_MAKELANGID primary sublang) 16 = sublang mod 256.
Proof.
  unfold _MAKELANGID.
  change 255 with (Z.ones 8). rewrite !Z.land_ones by lia.
  change (2 ^ 8) with 256.
  rewrite Z.shiftl_mul_pow2 by lia. change (2 ^ 16) with 65536.
  pose proof (Z.mod_pos_bound primary 256 ltac:(lia)) as Hp.
  pose proof (Z.mod_pos_bound sublang 256 ltac:(lia)) as Hs.
  set (a := primary mod 256) in *. set (b := sublang mod 256) in *.
  assert (Z.lor a (b * 65536) = a + 65536 * b) as E.
  { assert (Z.land a (b * 65536) = 0) as Hd.
    { apply Z.bits_inj'; intros n Hn. rewrite Z.land_spec, Z.bits_0.
      destruct (Z.ltb_spec n 16).
      - replace (b * 65536) with (b * 2 ^ 16) by lia.
        rewrite (Z.mul_pow2_bits_low b 16 n) by lia. apply andb_false_r.
      - replace (Z.testbit a n) with false; [reflexivity|].
        symmetry. destruct (Z.eq_dec a 0) as [->|]; [apply Z.bits_0|].
        apply (Z.bits_above_log2 a n); [lia|].
        apply Z.lt_le_trans with 8; [|lia].
        apply Z.log2_lt_pow2; lia. }
    rewrite <- (Z.lxor_lor _ _ Hd), <- (Z.add_nocarry_lxor _ _ Hd). lia. }
  rewrite E. split; [reflexivity|]. split; [lia|]. split.
  - Z.to_euclidean_division_equations; lia.
  - rewrite Z.shiftr_div_pow2 by lia. change (2 ^ 16) with 65536.
    Z.to_euclidean_division_equations; lia.
Qed.

Lemma latin1_decode bs : decode Latin1 bs = Some bs.
Proof.
  unfold decode. cbn. f_equal. rewrite map_map. cbn. apply map_id.
Qed.

(** X5.  [_BytesToStr] never fails: the UTF-8 encoding of a string is
    decoded back to that string; bytes that are not valid UTF-8 are
    decoded as ISO-8859-1, every byte giving the character of the same
    code point; the result is never longer than the bytes. *)
Theorem BytesToStr_decodes_or_falls_back :
  (forall s b, encode UTF8 s = Some b -> _BytesToStr b = s)
  /\ (forall b, decode UTF8 b = None -> _BytesToStr b = b)
  /\ (forall b, len (_BytesToStr b) <= len b).
Proof.
  split; [|split].
  - intros s b H. destruct (utf8_round_trip s b H) as (spans & Hs & Hm).
    unfold _BytesToStr, decode. cbn [decode_spans]. rewrite Hs. cbn. exact Hm.
  - intros b H. unfold _BytesToStr. rewrite H, latin1_decode. reflexivity.
  - apply BytesToStr_length.
Qed.


(** ** Rejected calls *)

(** X6.  [Open] on a handle that is open (and whose file name is not
    empty) raises AlreadyOpen before it looks at its arguments, whatever
    they are, and changes neither the handle nor the world. *)
Theorem Open_on_open_handle pf fn m e w h :
  is_open pf h = true -> _filename h <> PyStr [] ->
  LockFile.Open pf fn m e (w, h) = (Raise AlreadyOpen, (w, h)).
Proof.
  intros Ho Hf. unfold LockFile.Open, is_open in *.
  assert (py_ne (_filename h) (PyStr []) = true) as Hne.
  { unfold py_ne, py_eq. rewrite bool_decide_eq_false_2 by exact Hf. reflexivity. }
  destruct pf; cbn in *; rewrite Ho, Hne; reflexivity.
Qed.

Ltac open_closed pf Ho :=
  unfold is_open in Ho; unfold LockFile.Open;
  destruct pf; cbn in Ho |- *; rewrite Ho; cbn.

(** X7.  On a closed handle [Open] checks its arguments in this order
    and opens nothing when one fails: a filename that is not a [str]
    raises InvalidType and one that [_ValidateFileName] refuses raises
    InvalidFilename, both leaving the handle as it was; a mode that is
    not one of the eight tokens (also one that is not a string) raises
    InvalidMode, and a read token on a file that does not exist raises
    FileNotFound, both with only the file name field bound.  The world
    is untouched in all four cases: no file is created. *)
Theorem Open_rejects_arguments pf fn m e w h :
  is_open pf h = false ->
  (is_str fn = false ->
   LockFile.Open pf fn m e (w, h) = (Raise InvalidType, (w, h)))
  /\ (forall p, fn = PyStr p -> _ValidateFileName pf p = false ->
      LockFile.Open pf fn m e (w, h) = (Raise InvalidFilename, (w, h)))
  /\ (forall p, fn = PyStr p -> _ValidateFileName pf p = true ->
      m ∉ __modes ->
      LockFile.Open pf fn m e (w, h) = (Raise InvalidMode, (w, named fn h)))
  /\ (forall p, fn = PyStr p -> _ValidateFileName pf p = true ->
      m = PyStr (lit "r") \/ m = PyStr (lit "rb") ->
      w_files w !! p = None ->
      LockFile.Open pf fn m e (w, h) = (Raise FileNotFound, (w, named fn h))).
Proof.
  intros Ho. split; [|split; [|split]].
  - intros Hf. open_closed pf Ho; rewrite Hf; reflexivity.
  - intros p -> Hv. open_closed pf Ho; rewrite Hv; reflexivity.
  - intros p -> Hv Hm. open_closed pf Ho; rewrite Hv; cbn;
      rewrite bool_decide_eq_false_2 by exact Hm; reflexivity.
  - intros p -> Hv Hm Hc.
    assert (bool_decide (is_Some (w_files w !! p)) = false) as He.
    { apply bool_decide_eq_false_2. rewrite Hc. intros [x Hx]. discriminate. }
    open_closed pf Ho; rewrite Hv; cbn;
      destruct Hm as [-> | ->]; closed_bools; cbn; unfold path_exists;
      rewrite He; reflexivity.
Qed.

(** X21.  The queries do not need an open file: on a handle that was
    closed, and on one that was never opened, [IsWriteable()] and
    [IsReadable()] both answer true and [IsBinary()] answers false,
    whatever the handle was opened with before. *)
Theorem queries_on_closed_handle pf s :
  let closed := snd (Close pf s) in
  result (IsWriteable pf closed) = Return true
  /\ result (IsReadable pf closed) = Return true
  /\ result (IsBinary closed) = Return false
  /\ closed = (fst closed, cleared)
  /\ (forall w,
      result (IsWriteable pf (w, fresh)) = Return true
      /\ result (IsReadable pf (w, fresh)) = Return true
      /\ result (IsBinary (w, fresh)) = Return false).
Proof.
  destruct s as [w h]. destruct (Close_run pf w h) as (w' & Hrun & _).
  cbv zeta. rewrite Hrun. cbn [snd fst].
  repeat apply conj; try (intros w0; repeat apply conj); destruct pf; reflexivity.
Qed.

Lemma GetCursorPos_run pf w h k st c :
  bound pf w h k st c ->
  GetCursorPos pf (w, h) = (Return (s_pos st), (w, h)).
Proof.
  intros Hb. pose proof Hb as [Hf Hl Hn Hc Hp Hk].
  unfold GetCursorPos. destruct pf; cbn in *.
  - rewrite (Seek_native_current w h k st Hf Hl 0) by (unfold MAXOFFSET in *; lia).
    rewrite Z.add_0_r, (move_same _ _ _ Hl). reflexivity.
  - rewrite Hf, (file_tell_run w k st Hl). reflexivity.
Qed.

(** X19.  On an open handle [GetCursorPos()] returns the cursor
    position, leaves the state unchanged, and is the same run as
    [Seek(0, "current")], as its documentation says. *)
Theorem GetCursorPos_is_Seek_zero pf w h k st c :
  bound pf w h k st c ->
  GetCursorPos pf (w, h) = (Return (s_pos st), (w, h))
  /\ Seek pf (PyInt 0) current (w, h) = GetCursorPos pf (w, h).
Proof.
  intros Hb. rewrite (GetCursorPos_run _ _ _ _ _ _ Hb), (Seek_zero_run _ _ _ _ _ _ Hb).
  split; reflexivity.
Qed.

Lemma py_eq_false a b : a <> b -> py_eq a b = false.
Proof. intros H. unfold py_eq. apply bool_decide_eq_false_2, H. Qed.

(** X18.  On an open handle [Seek] raises InvalidArgument for an offset
    that is not an integer, whatever the anchor, and InvalidAnchor for
    an anchor other than begin, current and end; in both cases the
    cursor is not moved. *)
Theorem Seek_rejects_arguments pf w h k st c o sp :
  bound pf w h k st c ->
  (is_int o = false ->
   Seek pf o sp (w, h) = (Raise InvalidArgumentOffset, (w, h)))
  /\ (is_int o = true -> ~ anchor sp ->
      Seek pf o sp (w, h) = (Raise InvalidAnchor, (w, h))).
Proof.
  intros Hb. pose proof (bound_is_open _ _ _ _ _ _ Hb) as Ho.
  pose proof Hb as [Hf Hl Hn Hc Hp Hk].
  split.
  - intros Hi. unfold Seek, Seek_. cbn. rewrite (HaveFileOpen_run _ _ _ Ho). cbn.
    rewrite Hi. reflexivity.
  - intros Hi Ha. unfold anchor in Ha.
    assert (py_eq sp begin_ = false) as E1 by (apply py_eq_false; tauto).
    assert (py_eq sp current = false) as E2 by (apply py_eq_false; tauto).
    assert (py_eq sp end_ = false) as E3 by (apply py_eq_false; tauto).
    unfold Seek, Seek_. cbn. rewrite (HaveFileOpen_run _ _ _ Ho). cbn.
    rewrite Hi. cbn. rewrite E1, E2, E3.
    destruct pf; cbn in *; [|reflexivity].
    rewrite (Seek_native_current w h k st Hf Hl 0) by (unfold MAXOFFSET in *; lia).
    rewrite Z.add_0_r, (move_same _ _ _ Hl). rewrite !andb_false_r.
    repeat match goal with |- context [if ?b then _ else _] => destruct b end;
      cbn; rewrite ?E1, ?E2, ?E3; reflexivity.
Qed.

(** X12.  [Write] checks, in this order: that the handle is open
    (NotOpen), that the data is [bytes] on a binary handle and [str] on
    a text handle (TypeMismatch), that the handle was not opened for
    reading only (ReadOnlyMode).  When a check fails nothing is written
    and the state is unchanged. *)
Theorem Write_rejects pf w h d :
  (is_open pf h = false -> Write pf d (w, h) = (Raise NotOpen, (w, h)))
  /\ (is_open pf h = true -> __binary h = true -> is_bytes d = false ->
      Write pf d (w, h) = (Raise TypeMismatchBytes, (w, h)))
  /\ (is_open pf h = true -> __binary h = false -> is_str d = false ->
      Write pf d (w, h) = (Raise TypeMismatchStr, (w, h)))
  /\ (is_open pf h = true -> writes_type h d = true -> _mode h = READMODE pf ->
      Write pf d (w, h) = (Raise ReadOnlyMode, (w, h))).
Proof.
  unfold writes_type. repeat apply conj.
  - intros Ho. unfold Write. cbn. rewrite (HaveFileOpen_closed _ _ _ Ho). reflexivity.
  - intros Ho Hb Hd. unfold Write. cbn. rewrite (HaveFileOpen_run _ _ _ Ho). cbn.
    rewrite Hb, Hd. reflexivity.
  - intros Ho Hb Hd. unfold Write. cbn. rewrite (HaveFileOpen_run _ _ _ Ho). cbn.
    rewrite Hb, Hd. reflexivity.
  - intros Ho Hd Hm. unfold Write. cbn. rewrite (HaveFileOpen_run _ _ _ Ho). cbn.
    rewrite Hm. destruct (__binary h); rewrite Hd; cbn;
      replace (py_eq (READMODE pf) (READMODE pf)) with true
        by (destruct pf; reflexivity); reflexivity.
Qed.

(** X15.  [Read] checks, in this order: that the handle is open
    (NotOpen), that it was not opened for writing only (WriteOnlyMode,
    also when the argument is not an integer), that the argument is an
    integer (InvalidArgument).  When a check fails the state is
    unchanged. *)
Theorem Read_rejects pf w h n :
  (is_open pf h = false -> Read pf n (w, h) = (Raise NotOpen, (w, h)))
  /\ (is_open pf h = true -> _mode h = WRITEMODE pf ->
      Read pf n (w, h) = (Raise WriteOnlyMode, (w, h)))
  /\ (is_open pf h = true -> _mode h <> WRITEMODE pf -> is_int n = false ->
      Read pf n (w, h) = (Raise InvalidArgumentNChars, (w, h))).
Proof.
  repeat apply conj.
  - intros Ho. unfold Read. cbn. rewrite (HaveFileOpen_closed _ _ _ Ho). reflexivity.
  - intros Ho Hm. unfold Read. cbn. rewrite (HaveFileOpen_run _ _ _ Ho). cbn.
    rewrite Hm. replace (py_eq (WRITEMODE pf) (WRITEMODE pf)) with true
      by (destruct pf; reflexivity). reflexivity.
  - intros Ho Hm Hn. unfold Read. cbn. rewrite (HaveFileOpen_run _ _ _ Ho). cbn.
    rewrite (py_eq_false _ _ Hm). cbn. rewrite Hn. reflexivity.
Qed.


(** ** Opening a file that is held *)

Lemma held_preserved w w' p :
  held w p -> w_foreign w' = w_foreign w ->
  (forall k s, w_open w !! k = Some s -> w_open w' !! k = Some s) ->
  held w' p.
Proof.
  rewrite !held_iff. intros [Hin | (k & s & Hl & Hp & Hlk)] Hfo Hop.
  - left. rewrite Hfo. exact Hin.
  - right. exists k, s. auto.
Qed.

Lemma CreateFile_held w p access disposition :
  held w p ->
  exists msg,
    _CreateFile (PyStr p) access disposition w
    = (Return INVALID_HANDLE_VALUE, set_lasterr (PyStr msg) w).
Proof.
  intros Hh. unfold _CreateFile. cbn.
  destruct (bool_decide (p ∈ w_faulty w)); cbn; [eexists; reflexivity|].
  rewrite (bool_decide_eq_true_2 _ Hh). cbn. eexists; reflexivity.
Qed.

Lemma flock_held w k s :
  w_open w !! k = Some s -> held w (s_path s) ->
  flock (PyFile k) w = (Raise would_block, w).
Proof.
  intros Hl Hh. unfold flock. cbn. rewrite (stream_of_run _ _ _ Hl). cbn.
  rewrite (bool_decide_eq_true_2 _ Hh). reflexivity.
Qed.

Lemma py_open_held w p mode enc :
  held w p -> keys_fresh w ->
  bool_decide (remove_char (ch "b") mode
               ∈ [lit "r"; lit "w"; lit "a"; lit "r+"]) = true ->
  contains (ch "b") mode = true
  \/ is_Some (lookup_codec (default (lit "UTF-8") enc)) ->
  match py_open p mode enc w with
  | (Return f, w') =>
      f = PyFile (w_next w) /\ w_next w' = w_next w + 1
      /\ w_foreign w' = w_foreign w
      /\ (exists s, w_open w' = <[w_next w := s]> (w_open w) /\ s_path s = p)
  | (Raise e, w') => is_OSError e = true
  | (Unfinished, _) => False
  end.
Proof.
  intros Hh Hk Hbase Hcodec. unfold py_open.
  apply bool_decide_eq_true_1 in Hbase.
  rewrite !elem_of_cons, elem_of_nil in Hbase.
  set (base := remove_char (ch "b") mode) in *.
  assert (negb (bool_decide (base = lit "r") || bool_decide (base = lit "w")
                || bool_decide (base = lit "a") || bool_decide (base = lit "r+")) = false) as E.
  { destruct Hbase as [-> | [-> | [-> | [-> | []]]]]; vm_compute; reflexivity. }
  cbn. rewrite E. cbn.
  destruct (bool_decide (p ∈ w_faulty w)); cbn; [reflexivity|].
  destruct ((bool_decide (base = lit "r") || bool_decide (base = lit "r+"))
            && negb (bool_decide (is_Some (w_files w !! p)))); cbn; [reflexivity|].
  destruct (bool_decide (base = lit "w")
            || bool_decide (base = lit "a") && negb (bool_decide (is_Some (w_files w !! p))));
    cbn.
  all: destruct (contains (ch "b") mode); cbn.
  all: try (destruct Hcodec as [Hc|[c Hc]]; [discriminate Hc|rewrite Hc; cbn]).
  all: repeat split; eexists; split; reflexivity.
Qed.

Lemma is_OSError_inv e : is_OSError e = true -> exists msg, e = OSError msg.
Proof. destruct e; try discriminate. eauto. Qed.

Lemma held_after_create_close w w1 p s :
  held w p -> keys_fresh w ->
  w_next w1 = w_next w + 1 -> w_foreign w1 = w_foreign w ->
  w_open w1 = <[w_next w := s]> (w_open w) ->
  held (set_open (delete (w_next w)) w1) p
  /\ keys_fresh (set_open (delete (w_next w)) w1).
Proof.
  intros Hh Hk Hn Hfo Hop. split.
  - apply (held_preserved w); [exact Hh|exact Hfo|].
    intros k s' Hl. cbn. rewrite Hop, delete_insert_eq.
    rewrite lookup_delete_ne; [exact Hl|].
    intros <-. rewrite (Hk (w_next w)) in Hl by lia. discriminate.
  - intros k Hge. cbn in *. rewrite Hop, delete_insert_eq.
    destruct (decide (w_next w = k)) as [<-|Hne].
    + apply lookup_delete_eq.
    + rewrite lookup_delete_ne by exact Hne. apply Hk. lia.
Qed.

Lemma held_after_open w w1 p s :
  held w p -> keys_fresh w -> w_foreign w1 = w_foreign w ->
  w_open w1 = <[w_next w := s]> (w_open w) ->
  held w1 p.
Proof.
  intros Hh Hk Hfo Hop.
  apply (held_preserved w); [exact Hh|exact Hfo|].
  intros k s' Hl. rewrite Hop, lookup_insert_ne; [exact Hl|].
  intros <-. rewrite (Hk (w_next w)) in Hl by lia. discriminate.
Qed.

Ltac opens_held Hh Hk :=
  lazymatch goal with
  | |- context [py_open ?p ?m ?e ?w0] =>
      let H := fresh "H" in
      pose proof (py_open_held w0 p m e Hh Hk ltac:(vm_compute; reflexivity)
                    ltac:(first [ left; vm_compute; reflexivity
                                | right; vm_compute; eexists; reflexivity ])) as H;
      let f := fresh "f" in let x := fresh "x" in let w1 := fresh "w" in
      destruct (py_open p m e w0) as [[f|x|] w1]; cbn [fst snd];
      [ let Hn := fresh "Hn" in let Hfo := fresh "Hfo" in
        let s := fresh "s" in let Hop := fresh "Hop" in let Hp := fresh "Hp" in
        destruct H as (-> & Hn & Hfo & s & Hop & Hp)
      | let msg := fresh "msg" in
        apply is_OSError_inv in H as [msg ->]; eexists; reflexivity
      | destruct H ]
  end.

Ltac locks_held Hh Hk :=
  lazymatch goal with
  | Hop : w_open ?w1 = <[?k := ?s]> _, Hp : s_path ?s = ?p, Hfo : w_foreign ?w1 = _
    |- context [flock (PyFile ?k) ?w1] =>
      rewrite (flock_held w1 k s)
        by (first [ rewrite Hop; apply lookup_insert_eq
                  | rewrite Hp; exact (held_after_open _ w1 p s Hh Hk Hfo Hop) ]);
      cbn; eexists; reflexivity
  end.



(** ** What [Open] binds *)

(** X9.  After a successful [Open(filename, mode)] the mode was one of
    the eight tokens, [_filename] is the filename given, [IsBinary()]
    answers true when the token ends in [b] (or when the binary flag was
    already set on the handle), [IsWriteable()] answers false exactly for
    the tokens [r] and [rb], and for the tokens other than [a] and [ab]
    [IsReadable()] answers false exactly for [w] and [wb]. *)
Theorem Open_binds_fields pf fn m e s :
  result (LockFile.Open pf fn m e s) = Return tt ->
  let s' := snd (LockFile.Open pf fn m e s) in
  m ∈ __modes
  /\ _filename (snd s') = fn
  /\ result (IsBinary s') = Return (__binary (snd s) || binary_token m)
  /\ result (IsWriteable pf s') = Return (negb (read_only_token m))
  /\ (append_token m = false ->
      result (IsReadable pf s') = Return (negb (write_only_token m))).
Proof.
  destruct s as [w h]. intros Hr.
  pose proof (Open_ends_bound pf fn m e h w Hr) as (Hm & Hf & Hb & Hw & Hrd).
  cbv zeta. unfold result, IsBinary, IsWriteable, IsReadable, bind, self, ret.
  cbn [fst snd]. rewrite Hb, Hw. repeat apply conj; try assumption; try reflexivity.
  intros Ha. rewrite (Hrd Ha). reflexivity.
Qed.


(** ** The file name field *)

(** X24.  The file name field only ever holds text: a [str], or the
    empty [bytes] that [Close] stores.  This holds of a new handle and
    after [Close], and every operation preserves it, [Open] included
    whatever its arguments and its outcome: [Open] binds the field only
    after it has checked that the filename is a [str]. *)
Theorem filename_field_is_text pf :
  name_is_text fresh
  /\ (forall s, name_is_text (self_after (Close pf s)))
  /\ (forall fn m e s,
        name_is_text (snd s) -> name_is_text (self_after (LockFile.Open pf fn m e s)))
  /\ (forall s d n o sp,
        name_is_text (snd s) ->
        name_is_text (self_after (Write pf d s))
        /\ name_is_text (self_after (Read pf n s))
        /\ name_is_text (self_after (Seek pf o sp s))
        /\ name_is_text (self_after (GetFileSize pf s))
        /\ name_is_text (self_after (GetCursorPos pf s))).
Proof.
  split; [left; reflexivity|]. split; [|split].
  - intros [w h]. destruct (Close_run pf w h) as (w' & Hrun & _).
    unfold self_after. rewrite Hrun. right. reflexivity.
  - intros fn m e [w h] H. unfold self_after.
    destruct (Open_ends_named pf fn m e h w) as [E | [Hs E]]; unfold name_is_text;
      rewrite E; [exact H|left; exact Hs].
  - intros [w h] d n o sp H. unfold self_after. cbn [snd] in H.
    repeat apply conj.
    + rewrite (proj1 (Write_keeps pf d h w)). exact H.
    + rewrite (proj1 (Read_keeps pf n h w)). exact H.
    + rewrite (proj1 (Seek_keeps pf o sp h w)). exact H.
    + rewrite (proj1 (GetFileSize_keeps pf h w)). exact H.
    + rewrite (proj1 (GetCursorPos_keeps pf h w)). exact H.
Qed.


(** ** What the mode tokens do to the file *)

Lemma py_open_update_run w p mode enc tx c :
  remove_char (ch "b") mode = lit "r+" ->
  (if contains (ch "b") mode then Some None
   else Some <$> lookup_codec (default (lit "UTF-8") enc)) = Some tx ->
  p ∉ w_faulty w -> w_files w !! p = Some c ->
  py_open p mode enc w
  = (Return (PyFile (w_next w)),
     allocated w (w_next w) (new_stream p 0 true true false tx false)).
Proof.
  intros Hbase Htx Hfa Hc. unfold py_open. rewrite Hbase. closed_bools. cbn.
  rewrite (bool_decide_eq_false_2 _ Hfa). cbn.
  rewrite bool_decide_eq_true_2 by (rewrite Hc; eauto). cbn.
  destruct (contains (ch "b") mode); cbn.
  - injection Htx as <-. reflexivity.
  - destruct (lookup_codec _) as [cd|]; [|discriminate].
    injection Htx as <-. reflexivity.
Qed.

Lemma path_exists_absent w p :
  w_files w !! p = None -> bool_decide (is_Some (w_files w !! p)) = false.
Proof. intros H. apply bool_decide_eq_false_2. rewrite H. intros [x Hx]. discriminate. Qed.

Lemma bound_kind_of pf (bin : bool) :
  (if win32 pf || bin then None else Some UTF8) = None
  <-> (win32 pf = true \/ bin = true).
Proof.
  destruct pf, bin; cbn; split; auto; try discriminate.
  intros [H|H]; discriminate.
Qed.

Lemma Open_update_run pf w h p (bin : bool) :
  __file h = PyNone -> __binary h = false ->
  _ValidateFileName pf p = true -> ¬ held w p -> p ∉ w_faulty w ->
  exists w1 k,
    LockFile.Open pf (PyStr p) (PyStr (lit (if bin then "rwb" else "rw"))) PyNone (w, h)
    = (Return tt, (w1, opened_as pf p (WRITEANDREADMODE pf) k bin))
    /\ w_open w1 !! k
       = Some (new_stream p 0 true true false
                 (if win32 pf || bin then None else Some UTF8) true)
    /\ w_files w1 = <[p := content w p]> (w_files w).
Proof.
  intros Hf Hb Hv Hh Hfa. destruct h as [fn md fl bn]. cbn in Hf, Hb. subst.
  unfold opened_as.
  destruct (w_files w !! p) as [c|] eqn:Hc.
  - (* the file exists *)
    assert (content w p = c) as Hcc by (unfold content; rewrite Hc; reflexivity).
    rewrite Hcc. rewrite (insert_id _ _ _ Hc).
    destruct pf, bin; unfold LockFile.Open; cbn; rewrite Hv; cbn; closed_bools; cbn;
      unfold path_exists; rewrite ?(path_exists_present _ _ _ Hc); cbn.
    + rewrite (CreateFile_existing_run _ _ _ _ Hfa Hh Hc). cbn.
      rewrite handle_of_valid. cbn. closed_bools. cbn.
      do 2 eexists. split; [reflexivity|]. cbn. split; [apply lookup_insert_eq|reflexivity].
    + rewrite (CreateFile_existing_run _ _ _ _ Hfa Hh Hc). cbn.
      rewrite handle_of_valid. cbn. closed_bools. cbn.
      do 2 eexists. split; [reflexivity|]. cbn. split; [apply lookup_insert_eq|reflexivity].
    + modes. closed_bools. cbn. unfold path_exists; rewrite ?(path_exists_present _ _ _ Hc); cbn.
      rewrite (py_open_update_run w p _ None None c) by (vm_compute; reflexivity || assumption).
      cbn. rewrite flock_allocated' by (cbn; auto). cbn.
      do 2 eexists. split; [reflexivity|]. cbn. split; [apply lookup_insert_eq|reflexivity].
    + modes. closed_bools. cbn. unfold path_exists; rewrite ?(path_exists_present _ _ _ Hc); cbn.
      rewrite (py_open_update_run w p _ _ (Some UTF8) c) by (vm_compute; reflexivity || assumption).
      cbn. rewrite flock_allocated' by (cbn; auto). cbn.
      do 2 eexists. split; [reflexivity|]. cbn. split; [apply lookup_insert_eq|reflexivity].
  - (* the file is created *)
    assert (content w p = []) as Hcc by (unfold content; rewrite Hc; reflexivity).
    rewrite Hcc.
    destruct pf, bin; unfold LockFile.Open; cbn; rewrite Hv; cbn; closed_bools; cbn;
      unfold path_exists; rewrite ?(path_exists_absent _ _ Hc); cbn.
    + rewrite (CreateFile_new_run _ _ _ Hfa Hh). cbn.
      rewrite handle_of_valid. cbn. closed_bools. cbn.
      do 2 eexists. split; [reflexivity|]. cbn. split; [apply lookup_insert_eq|reflexivity].
    + rewrite (CreateFile_new_run _ _ _ Hfa Hh). cbn.
      rewrite handle_of_valid. cbn. closed_bools. cbn.
      do 2 eexists. split; [reflexivity|]. cbn. split; [apply lookup_insert_eq|reflexivity].
    + modes. closed_bools. cbn. unfold path_exists; rewrite ?(path_exists_absent _ _ Hc); cbn.
      rewrite (py_open_write_run w p _ None (Some UTF8)) by (vm_compute; reflexivity || exact Hfa).
      cbn.
      match goal with
      | |- context [py_open p ?m ?e ?w2] =>
          assert (¬ held w2 p) as Hh2;
          [ apply (not_held_delete
                     (allocated (set_files <[p := []]> w) (w_next w)
                        (new_stream p 0 false true false (Some UTF8) false)) w2 p (w_next w));
            [ apply (not_held_insert w _ p (w_next w)
                       (new_stream p 0 false true false (Some UTF8) false) Hh);
              [reflexivity|reflexivity|reflexivity]
            | reflexivity | reflexivity ]
          | rewrite (py_open_update_run w2 p m e None [])
              by (first [ vm_compute; reflexivity | exact Hfa | apply lookup_insert_eq ]) ]
      end.
      cbn [fst snd].
      rewrite flock_allocated' by (first [exact Hh2 | reflexivity]).
      cbn. modes. do 2 eexists. split; [reflexivity|]. cbn.
      split; [apply lookup_insert_eq|reflexivity].
    + modes. closed_bools. cbn. unfold path_exists; rewrite ?(path_exists_absent _ _ Hc); cbn.
      rewrite (py_open_write_run w p _ None (Some UTF8)) by (vm_compute; reflexivity || exact Hfa).
      cbn.
      match goal with
      | |- context [py_open p ?m ?e ?w2] =>
          assert (¬ held w2 p) as Hh2;
          [ apply (not_held_delete
                     (allocated (set_files <[p := []]> w) (w_next w)
                        (new_stream p 0 false true false (Some UTF8) false)) w2 p (w_next w));
            [ apply (not_held_insert w _ p (w_next w)
                       (new_stream p 0 false true false (Some UTF8) false) Hh);
              [reflexivity|reflexivity|reflexivity]
            | reflexivity | reflexivity ]
          | rewrite (py_open_update_run w2 p m e (Some UTF8) [])
              by (first [ vm_compute; reflexivity | exact Hfa | apply lookup_insert_eq ]) ]
      end.
      cbn [fst snd].
      rewrite flock_allocated' by (first [exact Hh2 | reflexivity]).
      cbn. modes. do 2 eexists. split; [reflexivity|]. cbn.
      split; [apply lookup_insert_eq|reflexivity].
Qed.

Lemma opened_bound pf w1 p mode k (bin : bool) readable writable c :
  w_open w1 !! k
  = Some (new_stream p 0 readable writable false
            (if win32 pf || bin then None else Some UTF8) true) ->
  w_files w1 !! p = Some c ->
  bound pf w1 (opened_as pf p mode k bin) k
    (new_stream p 0 readable writable false
       (if win32 pf || bin then None else Some UTF8) true) c
  /\ at_start (new_stream p 0 readable writable false
                 (if win32 pf || bin then None else Some UTF8) true)
       readable writable.
Proof.
  intros Hl Hc. split; [split|]; cbn; try assumption; try reflexivity.
  - unfold MAXOFFSET. lia.
  - apply bound_kind_of.
  - repeat split.
Qed.


(** X11.  [Close] releases the lock: when the handle's resource was the
    only holder of its file, the file is free after [Close], and an
    [Open] of the same path for reading then succeeds. *)
Theorem Close_releases_the_lock pf w h k st c :
  bound pf w h k st c ->
  s_path st ∉ w_foreign w ->
  (forall k' s', w_open w !! k' = Some s' -> s_path s' = s_path st ->
                 s_locked s' = true -> k' = k) ->
  ¬ held (world_after (Close pf (w, h))) (s_path st)
  /\ (_ValidateFileName pf (s_path st) = true -> s_path st ∉ w_faulty w ->
      result (LockFile.Open pf (PyStr (s_path st)) (PyStr (lit "r")) PyNone
                (snd (Close pf (w, h)))) = Return tt).
Proof.
  intros Hb Hfo Honly.
  pose proof (bound_is_open _ _ _ _ _ _ Hb) as Ho.
  pose proof Hb as [Hf Hl Hn Hc Hp Hk].
  destruct (Close_run pf w h) as (w' & Hrun & Hfs & Hfo' & Hfa' & _ & Hop).
  specialize (Hop k Ho ltac:(unfold resource_key; rewrite Hf; destruct pf; reflexivity)).
  unfold world_after. rewrite Hrun. cbn [fst snd].
  assert (¬ held w' (s_path st)) as Hh.
  { rewrite held_iff. intros [Hin | (k' & s' & Hl' & Hp' & Hlk)].
    - apply Hfo. rewrite <- Hfo'. exact Hin.
    - rewrite Hop in Hl'. apply lookup_delete_Some in Hl' as [Hne Hl'].
      apply Hne. symmetry. apply (Honly k' s' Hl' Hp' Hlk). }
  split; [exact Hh|]. intros Hv Hfa.
  destruct (Open_read_run pf w' cleared (s_path st) false c eq_refl eq_refl Hv Hh)
    as (w1 & k1 & Hrun1 & _).
  { rewrite Hfa'. exact Hfa. }
  { rewrite Hfs. exact Hc. }
  cbn zeta in Hrun1. unfold result. rewrite Hrun1. reflexivity.
Qed.


(** ** Writing and reading at the cursor *)

Lemma write_at_within c pos b :
  0 <= pos <= len c -> write_at c pos b = overwritten c pos b.
Proof.
  unfold write_at, overwritten, len. intros H.
  replace (Z.to_nat pos - length c)%nat with 0%nat by lia.
  cbn [replicate]. rewrite app_nil_r.
  replace (Z.to_nat (pos + Z.of_nat (length b))) with (Z.to_nat pos + length b)%nat by lia.
  reflexivity.
Qed.

Lemma overwritten_length c pos b :
  0 <= pos <= len c -> len (overwritten c pos b) = Z.max (len c) (pos + len b).
Proof.
  unfold overwritten, len. intros H.
  rewrite !length_app, length_take, length_drop. lia.
Qed.

Lemma overwritten_read c pos b :
  0 <= pos <= len c ->
  take (Z.to_nat (len b)) (drop (Z.to_nat pos) (overwritten c pos b)) = b.
Proof.
  unfold overwritten, len. intros H.
  rewrite drop_app_length'; [|rewrite length_take; lia].
  rewrite Nat2Z.id. apply take_app_length.
Qed.

Lemma bound_text pf w h k st c d :
  bound pf w h k st c -> __binary h = is_bytes d ->
  writes_type h d = true ->
  s_text st = None \/ s_text st = Some UTF8 ->
  s_text st = (if win32 pf || is_bytes d then None else Some UTF8).
Proof.
  intros Hb Hbin Hty Hcodec. pose proof (bound_kind _ _ _ _ _ _ Hb) as Hk.
  rewrite <- Hbin.
  destruct (win32 pf) eqn:Ew; cbn.
  - apply Hk. left. reflexivity.
  - destruct (__binary h) eqn:Eb.
    + apply Hk. right. reflexivity.
    + destruct Hcodec as [Hn|Hs]; [|exact Hs].
      apply Hk in Hn as [Hn|Hn]; discriminate.
Qed.

Lemma Write_at_cursor_run pf w h k st c d b :
  bound pf w h k st c -> writes_at_cursor pf h st c ->
  writes_type h d = true -> stored_as d = Some b ->
  s_pos st + len b <= MAXOFFSET ->
  exists w',
    Write pf d (w, h) = (Return tt, (w', h))
    /\ w_files w' = <[s_path st := overwritten c (s_pos st) b]> (w_files w)
    /\ bound pf w' h k (with_pos (s_pos st + len b) st)
         (overwritten c (s_pos st) b).
Proof.
  intros Hb [Hm Hw Ha Hcodec Hin] Hty Hst Hmax.
  pose proof Hb as [Hf Hl Hn Hc Hp Hk].
  assert (__binary h = is_bytes d) as Hbin.
  { unfold writes_type in Hty. destruct (__binary h), d; cbn in *; congruence. }
  destruct (Write_run pf w h k st c d b) as (w' & Hrun & Hfs & Hop & Hfo & Hfa);
    try assumption.
  { apply py_eq_false, Hm. }
  { apply (bound_text pf w h k st c d); assumption. }
  { lia. }
  rewrite write_at_within in Hfs by lia.
  exists w'. split; [exact Hrun|]. split; [exact Hfs|].
  split; cbn [s_path s_pos s_text with_pos]; try assumption.
  - rewrite Hop. apply lookup_insert_eq.
  - rewrite Hfs. apply lookup_insert_eq.
  - pose proof (len_nonneg b). lia.
Qed.


Lemma Read_binary_run pf w h k st c n :
  bound pf w h k st c -> opened_for_reading pf h st -> __binary h = true ->
  let eff := effective_length (s_pos st) (len c) n in
  let data := take (Z.to_nat eff) (drop (Z.to_nat (s_pos st)) c) in
  Read pf (PyInt n) (w, h)
  = (Return (PyBytes data), (move w k st (s_pos st + eff), h))
  /\ len data = eff.
Proof.
  intros Hb Hr Hbin eff data. destruct pf.
  - destruct (Read_win32_result w h k st c n Hb Hr) as [E Hd].
    rewrite Hbin in E. split; [exact E|exact Hd].
  - pose proof (Read_posix_result w h k st c n Hb Hr) as H. cbn zeta in H.
    assert (s_text st = None) as Ht.
    { apply (bound_kind _ _ _ _ _ _ Hb). right. exact Hbin. }
    rewrite Ht in H. destruct H as [E Hd]. fold eff in E, Hd. fold data in E, Hd.
    rewrite Hd in E. split; [exact E|exact Hd].
Qed.

Lemma effective_length_exact pos size n :
  0 <= n -> pos + n <= size -> effective_length pos size n = n.
Proof.
  intros Hn Hfit. unfold effective_length.
  destruct (Z.geb_spec pos size); [lia|].
  destruct (Z.ltb_spec (size - pos + n + 1) 0); [lia|].
  destruct (Z.ltb_spec n 0); [lia|].
  destruct (Z.gtb_spec (pos + n) size); lia.
Qed.

(** X14.  Through a binary handle opened for reading and writing,
    [Write(b)], [Seek2] back to where the cursor was and
    [Read(len(b))] returns exactly [b]. *)
Theorem Write_then_read_back pf w h k st c b :
  bound pf w h k st c -> writes_at_cursor pf h st c ->
  opened_for_reading pf h st -> __binary h = true ->
  len c <= MAXOFFSET -> s_pos st + len b <= MAXOFFSET ->
  result (write_then_read_back pf b (s_pos st) (w, h)) = Return (PyBytes b).
Proof.
  intros Hb Hwr Hr Hbin Hsz Hmax.
  pose proof (bound_pos _ _ _ _ _ _ Hb) as Hp.
  pose proof (wr_within _ _ _ _ Hwr) as Hin.
  pose proof (len_nonneg b) as Hb0.
  destruct (Write_at_cursor_run pf w h k st c (PyBytes b) b)
    as (w' & Hrun & Hfs & Hb'); try assumption; try reflexivity.
  { unfold writes_type. rewrite Hbin. reflexivity. }
  set (c' := overwritten c (s_pos st) b) in *.
  set (st' := with_pos (s_pos st + len b) st) in *.
  assert (len c' = Z.max (len c) (s_pos st + len b)) as Hlen
    by (apply overwritten_length; lia).
  assert (spec_seek_target begin_ (s_pos st') (len c') (s_pos st) = s_pos st) as Ht.
  { unfold spec_seek_target, anchor_base. anchors. lia. }
  pose proof (Seek_run pf w' h k st' c' (s_pos st) begin_ Hb'
                ltac:(lia) (or_introl eq_refl) ltac:(rewrite Ht; lia)) as Hseek.
  rewrite Ht in Hseek.
  pose proof (bound_move pf w' h k st' c' (s_pos st) Hb' ltac:(lia)) as Hb''.
  assert (opened_for_reading pf h (with_pos (s_pos st) st')) as Hr''.
  { destruct Hr as [Hmo Hrd]. split; [exact Hmo|exact Hrd]. }
  destruct (Read_binary_run pf _ h k _ c' (len b) Hb'' Hr'' Hbin) as [Hread _].
  unfold write_then_read_back, result, Seek2. cbn.
  rewrite Hrun. cbn. rewrite Hseek. cbn. rewrite Hread. cbn.
  rewrite effective_length_exact by lia.
  unfold c'. rewrite overwritten_read by lia. reflexivity.
Qed.

Lemma effective_length_nonneg pos size n :
  0 <= n -> effective_length pos size n = Z.max 0 (Z.min n (size - pos)).
Proof.
  intros Hn. unfold effective_length.
  destruct (Z.geb_spec pos size); [lia|].
  destruct (Z.ltb_spec (size - pos + n + 1) 0); [lia|].
  destruct (Z.ltb_spec n 0); [lia|].
  destruct (Z.gtb_spec (pos + n) size); lia.
Qed.

(** X16.  Reads are sequential: on a binary handle, [Read(a)] followed
    by [Read(b)], for [a] and [b] not negative, return two pieces whose
    concatenation is what a single [Read(a + b)] returns, and leave the
    same state. *)
Theorem Read_continues_where_it_stopped pf w h k st c a b :
  bound pf w h k st c -> opened_for_reading pf h st -> __binary h = true ->
  len c <= MAXOFFSET -> 0 <= a -> 0 <= b ->
  exists d1 d2 s1 s2,
    Read pf (PyInt a) (w, h) = (Return (PyBytes d1), s1)
    /\ Read pf (PyInt b) s1 = (Return (PyBytes d2), s2)
    /\ Read pf (PyInt (a + b)) (w, h) = (Return (PyBytes (d1 ++ d2)), s2).
Proof.
  intros Hb Hr Hbin Hsz Ha Hb0.
  pose proof (bound_pos _ _ _ _ _ _ Hb) as Hp.
  pose proof (len_nonneg c) as Hc0.
  destruct (Read_binary_run pf w h k st c a Hb Hr Hbin) as [Hr1 Hd1].
  destruct (Read_binary_run pf w h k st c (a + b) Hb Hr Hbin) as [Hr3 _].
  rewrite effective_length_nonneg in Hr1, Hd1, Hr3 by lia.
  set (e1 := Z.max 0 (Z.min a (len c - s_pos st))) in *.
  pose proof (bound_move pf w h k st c (s_pos st + e1) Hb ltac:(lia)) as Hb1.
  assert (opened_for_reading pf h (with_pos (s_pos st + e1) st)) as Hro.
  { destruct Hr as [Hmo Hrd]. split; [exact Hmo|exact Hrd]. }
  destruct (Read_binary_run pf _ h k _ c b Hb1 Hro Hbin) as [Hr2 _].
  rewrite effective_length_nonneg in Hr2 by lia.
  cbn [s_pos with_pos] in Hr2. rewrite move_move in Hr2.
  set (e2 := Z.max 0 (Z.min b (len c - (s_pos st + e1)))) in *.
  do 4 eexists. split; [exact Hr1|]. split; [exact Hr2|].
  rewrite Hr3. f_equal; [|f_equal; f_equal; lia]. f_equal. f_equal.
  replace (Z.to_nat (s_pos st + e1)) with (Z.to_nat (s_pos st) + Z.to_nat e1)%nat by lia.
  rewrite <- drop_drop, take_take_drop. f_equal. lia.
Qed.

Lemma Read_at_end_run pf w h k st c n :
  bound pf w h k st c -> opened_for_reading pf h st ->
  len c <= s_pos st ->
  Read pf (PyInt n) (w, h) = (Return (empty_value (__binary h)), (w, h)).
Proof.
  intros Hb Hr Hend.
  pose proof (bound_live _ _ _ _ _ _ Hb) as Hl.
  assert (effective_length (s_pos st) (len c) n = 0) as He.
  { unfold effective_length. destruct (Z.geb_spec (s_pos st) (len c)); [reflexivity|lia]. }
  unfold empty_value. destruct pf.
  - destruct (Read_win32_result w h k st c n Hb Hr) as [E _].
    rewrite He in E. rewrite E, Z.add_0_r, (move_same _ _ _ Hl).
    destruct (__binary h); reflexivity.
  - pose proof (Read_posix_result w h k st c n Hb Hr) as H. cbn zeta in H.
    rewrite He in H. pose proof (bound_kind _ _ _ _ _ _ Hb) as Hk. cbn in Hk.
    destruct (s_text st) as [codec|].
    + cbn in H. rewrite H.
      destruct (__binary h); [|reflexivity].
      destruct Hk as [_ Hk]. discriminate Hk. right. reflexivity.
    + destruct H as [E _]. rewrite E. cbn.
      rewrite Z.add_0_r, (move_same _ _ _ Hl).
      destruct Hk as [Hk _]. destruct (Hk eq_refl) as [Hx|Hx]; [discriminate|].
      rewrite Hx. reflexivity.
Qed.

(** X17.  With the cursor at or past end-of-file, [Read(n)] returns the
    empty value ([bytes] on a binary handle, [str] otherwise) for every
    [n], does not raise and leaves the state unchanged. *)
Theorem Read_at_end_of_file pf w h k st c n :
  bound pf w h k st c -> opened_for_reading pf h st ->
  len c <= s_pos st ->
  Read pf (PyInt n) (w, h) = (Return (empty_value (__binary h)), (w, h)).
Proof.
  intros Hb Hr Hend. exact (Read_at_end_run pf w h k st c n Hb Hr Hend).
Qed.



(** ** What leaves the files alone *)



(** ** [__str__] and the [with] statement *)

(** X22.  [str(handle)] and [repr(handle)] raise NotOpen on a closed
    handle; on an open one both return
    [File: <name> | Size: <size> Bytes] with the name it was opened
    with and the size [GetFileSize()] reports, and change nothing. *)
Theorem str_of_handle pf w h :
  (is_open pf h = false ->
   __str__ pf (w, h) = (Raise NotOpen, (w, h))
   /\ __repr__ pf (w, h) = (Raise NotOpen, (w, h)))
  /\ (forall k st c, bound pf w h k st c ->
      __str__ pf (w, h) = (Return (described (s_path st) (len c)), (w, h))
      /\ __repr__ pf (w, h) = __str__ pf (w, h)).
Proof.
  split.
  - intros Ho. unfold __repr__, __str__. cbn.
    rewrite (GetFileSize_closed _ _ _ Ho). auto.
  - intros k st c Hb. unfold __repr__, __str__. cbn.
    rewrite (GetFileSize_run _ _ _ _ _ _ Hb). cbn.
    rewrite (bound_name _ _ _ _ _ _ Hb). auto.
Qed.


(** ** Instances *)

Lemma opened_for_update_bound c :
  bound Posix (fst (opened Posix "rwb" c)) (snd (opened Posix "rwb" c)) 3
    update_stream c.
Proof.
  split; try (vm_compute; reflexivity).
  - vm_compute. split; discriminate.
  - vm_compute. split; auto.
Defined.

Lemma opened_for_update_writes c :
  writes_at_cursor Posix (snd (opened Posix "rwb" c)) update_stream c.
Proof.
  split; try (vm_compute; reflexivity).
  - vm_compute. discriminate.
  - left. reflexivity.
  - apply Nat2Z.is_nonneg.
Defined.

Lemma opened_for_update_reading c :
  opened_for_reading Posix (snd (opened Posix "rwb" c)) update_stream.
Proof. split; [right; vm_compute; reflexivity|reflexivity]. Defined.

Lemma ValidateFileName_reserved_names_witness :
  In (lit "NUL") reserved_names
  /\ In (lit "nul.txt") (split sep (lit "docs\nul.txt"))
  /\ startswith (upper (lit "nul.txt")) (lit "NUL") = true
  /\ _ValidateFileName Win32 (lit "docs\nul.txt") = false.
Proof.
  assert (In (lit "NUL") reserved_names) as H1
    by (vm_compute; repeat first [left; reflexivity | right]).
  assert (In (lit "nul.txt") (split sep (lit "docs\nul.txt"))) as H2
    by (vm_compute; repeat first [left; reflexivity | right]).
  assert (startswith (upper (lit "nul.txt")) (lit "NUL") = true) as H3
    by (vm_compute; reflexivity).
  split; [exact H1|]. split; [exact H2|]. split; [exact H3|].
  exact (ValidateFileName_reserved_names (lit "docs\nul.txt") (lit "NUL")
           (lit "nul.txt") H1 H2 H3).
Defined.

Lemma ValidateFileName_forbidden_characters_witness :
  In 63 forbidden_chars
  /\ In 63 (after_drive (lit "C:\what?.txt"))
  /\ _ValidateFileName Win32 (lit "C:\what?.txt") = false.
Proof.
  assert (In 63 forbidden_chars) as H1
    by (vm_compute; repeat first [left; reflexivity | right]).
  assert (In 63 (after_drive (lit "C:\what?.txt"))) as H2
    by (vm_compute; repeat first [left; reflexivity | right]).
  split; [exact H1|]. split; [exact H2|].
  exact (ValidateFileName_forbidden_characters (lit "C:\what?.txt") 63 H1 H2).
Defined.

Lemma Open_on_open_handle_witness :
  let s := opened Posix "r" (lit "hello") in
  is_open Posix (snd s) = true
  /\ _filename (snd s) <> PyStr []
  /\ LockFile.Open Posix (PyInt 5) PyNone PyNone (fst s, snd s)
     = (Raise AlreadyOpen, (fst s, snd s)).
Proof.
  cbv zeta.
  assert (is_open Posix (snd (opened Posix "r" (lit "hello"))) = true) as H1
    by (vm_compute; reflexivity).
  assert (_filename (snd (opened Posix "r" (lit "hello"))) <> PyStr []) as H2
    by (vm_compute; discriminate).
  split; [exact H1|]. split; [exact H2|].
  exact (Open_on_open_handle Posix (PyInt 5) PyNone PyNone _ _ H1 H2).
Defined.

Lemma Open_rejects_arguments_witness :
  is_open Posix fresh = false
  /\ LockFile.Open Posix (PyInt 5) (PyStr (lit "w")) PyNone (empty_world, fresh)
     = (Raise InvalidType, (empty_world, fresh))
  /\ LockFile.Open Posix (PyStr t_txt) (PyStr (lit "r")) PyNone (empty_world, fresh)
     = (Raise FileNotFound, (empty_world, named (PyStr t_txt) fresh)).
Proof.
  split; [reflexivity|]. split.
  - exact (proj1 (Open_rejects_arguments Posix (PyInt 5) (PyStr (lit "w")) PyNone
                    empty_world fresh eq_refl) eq_refl).
  - exact (proj2 (proj2 (proj2
             (Open_rejects_arguments Posix (PyStr t_txt) (PyStr (lit "r")) PyNone
                empty_world fresh eq_refl)))
             t_txt eq_refl eq_refl (or_introl eq_refl) eq_refl).
Defined.


Lemma Open_binds_fields_witness :
  let r := LockFile.Open Posix (PyStr t_txt) (PyStr (lit "wb")) PyNone
             (empty_world, fresh) in
  result r = Return tt
  /\ PyStr (lit "wb") ∈ __modes
  /\ _filename (snd (snd r)) = PyStr t_txt
  /\ result (IsBinary (snd r))
     = Return (__binary fresh || binary_token (PyStr (lit "wb")))
  /\ result (IsWriteable Posix (snd r))
     = Return (negb (read_only_token (PyStr (lit "wb"))))
  /\ (append_token (PyStr (lit "wb")) = false ->
      result (IsReadable Posix (snd r))
      = Return (negb (write_only_token (PyStr (lit "wb"))))).
Proof.
  cbv zeta.
  assert (result (LockFile.Open Posix (PyStr t_txt) (PyStr (lit "wb")) PyNone
                    (empty_world, fresh)) = Return tt) as H1
    by (vm_compute; reflexivity).
  split; [exact H1|].
  exact (Open_binds_fields Posix (PyStr t_txt) (PyStr (lit "wb")) PyNone
           (empty_world, fresh) H1).
Defined.


Lemma Close_releases_the_lock_witness :
  let s := opened Posix "rwb" (lit "hello") in
  bound Posix (fst s) (snd s) 3 update_stream (lit "hello")
  /\ (s_path update_stream ∉ w_foreign (fst s))
  /\ (forall k' s', w_open (fst s) !! k' = Some s' ->
        s_path s' = s_path update_stream -> s_locked s' = true -> k' = 3)
  /\ (¬ held (world_after (Close Posix (fst s, snd s))) (s_path update_stream))
  /\ (_ValidateFileName Posix (s_path update_stream) = true ->
      s_path update_stream ∉ w_faulty (fst s) ->
      result (LockFile.Open Posix (PyStr (s_path update_stream))
                (PyStr (lit "r")) PyNone (snd (Close Posix (fst s, snd s))))
      = Return tt).
Proof.
  cbv zeta.
  assert (s_path update_stream ∉ w_foreign (fst (opened Posix "rwb" (lit "hello"))))
    as H1.
  { assert (w_foreign (fst (opened Posix "rwb" (lit "hello"))) = ∅) as E
      by (vm_compute; reflexivity).
    rewrite E. apply not_elem_of_empty. }
  assert (forall k' s',
            w_open (fst (opened Posix "rwb" (lit "hello"))) !! k' = Some s' ->
            s_path s' = s_path update_stream -> s_locked s' = true -> k' = 3) as H2.
  { intros k' s' Hl _ _.
    assert (w_open (fst (opened Posix "rwb" (lit "hello")))
            = <[3 := update_stream]> ∅) as E by (vm_compute; reflexivity).
    rewrite E in Hl. destruct (decide (k' = 3)) as [->|Hne]; [reflexivity|].
    rewrite lookup_insert_ne, lookup_empty in Hl by congruence. discriminate Hl. }
  split; [apply opened_for_update_bound|]. split; [exact H1|]. split; [exact H2|].
  exact (Close_releases_the_lock Posix _ _ 3 update_stream (lit "hello")
           (opened_for_update_bound (lit "hello")) H1 H2).
Defined.


Lemma Write_then_read_back_witness :
  let s := opened Posix "rwb" (lit "hello") in
  bound Posix (fst s) (snd s) 3 update_stream (lit "hello")
  /\ writes_at_cursor Posix (snd s) update_stream (lit "hello")
  /\ opened_for_reading Posix (snd s) update_stream
  /\ __binary (snd s) = true
  /\ len (lit "hello") <= MAXOFFSET
  /\ s_pos update_stream + len (lit "HE") <= MAXOFFSET
  /\ result (write_then_read_back Posix (lit "HE") (s_pos update_stream)
               (fst s, snd s))
     = Return (PyBytes (lit "HE")).
Proof.
  cbv zeta.
  assert (__binary (snd (opened Posix "rwb" (lit "hello"))) = true) as H1
    by (vm_compute; reflexivity).
  assert (len (lit "hello") <= MAXOFFSET) as H2 by (vm_compute; discriminate).
  assert (s_pos update_stream + len (lit "HE") <= MAXOFFSET) as H3
    by (vm_compute; discriminate).
  split; [apply opened_for_update_bound|].
  split; [apply opened_for_update_writes|].
  split; [apply opened_for_update_reading|].
  split; [exact H1|]. split; [exact H2|]. split; [exact H3|].
  exact (Write_then_read_back Posix _ _ 3 update_stream (lit "hello") (lit "HE")
           (opened_for_update_bound (lit "hello"))
           (opened_for_update_writes (lit "hello"))
           (opened_for_update_reading (lit "hello")) H1 H2 H3).
Defined.

Lemma Read_continues_where_it_stopped_witness :
  let s := opened Posix "rwb" (lit "hello") in
  bound Posix (fst s) (snd s) 3 update_stream (lit "hello")
  /\ opened_for_reading Posix (snd s) update_stream
  /\ __binary (snd s) = true
  /\ len (lit "hello") <= MAXOFFSET /\ 0 <= 2 /\ 0 <= 4
  /\ exists d1 d2 s1 s2,
       Read Posix (PyInt 2) (fst s, snd s) = (Return (PyBytes d1), s1)
       /\ Read Posix (PyInt 4) s1 = (Return (PyBytes d2), s2)
       /\ Read Posix (PyInt (2 + 4)) (fst s, snd s)
          = (Return (PyBytes (d1 ++ d2)), s2).
Proof.
  cbv zeta.
  assert (__binary (snd (opened Posix "rwb" (lit "hello"))) = true) as H1
    by (vm_compute; reflexivity).
  assert (len (lit "hello") <= MAXOFFSET) as H2 by (vm_compute; discriminate).
  assert (0 <= 2) as H3 by lia. assert (0 <= 4) as H4 by lia.
  split; [apply opened_for_update_bound|].
  split; [apply opened_for_update_reading|].
  split; [exact H1|]. split; [exact H2|]. split; [exact H3|]. split; [exact H4|].
  exact (Read_continues_where_it_stopped Posix _ _ 3 update_stream (lit "hello") 2 4
           (opened_for_update_bound (lit "hello"))
           (opened_for_update_reading (lit "hello")) H1 H2 H3 H4).
Defined.

Lemma Read_at_end_of_file_witness :
  let s := opened Posix "rwb" [] in
  bound Posix (fst s) (snd s) 3 update_stream []
  /\ opened_for_reading Posix (snd s) update_stream
  /\ len (@nil Z) <= s_pos update_stream
  /\ Read Posix (PyInt 7) (fst s, snd s)
     = (Return (empty_value (__binary (snd s))), (fst s, snd s)).
Proof.
  cbv zeta.
  assert (len (@nil Z) <= s_pos update_stream) as H1 by (vm_compute; discriminate).
  split; [apply opened_for_update_bound|].
  split; [apply opened_for_update_reading|]. split; [exact H1|].
  exact (Read_at_end_of_file Posix _ _ 3 update_stream [] 7
           (opened_for_update_bound []) (opened_for_update_reading []) H1).
Defined.

Lemma Seek_rejects_arguments_witness :
  let s := opened Posix "rwb" (lit "hello") in
  bound Posix (fst s) (snd s) 3 update_stream (lit "hello")
  /\ Seek Posix (PyStr (lit "2")) begin_ (fst s, snd s)
     = (Raise InvalidArgumentOffset, (fst s, snd s))
  /\ (~ anchor (PyStr (lit "start")) ->
      Seek Posix (PyInt 2) (PyStr (lit "start")) (fst s, snd s)
      = (Raise InvalidAnchor, (fst s, snd s))).
Proof.
  cbv zeta. split; [apply opened_for_update_bound|]. split.
  - exact (proj1 (Seek_rejects_arguments Posix _ _ 3 update_stream (lit "hello")
                    (PyStr (lit "2")) begin_
                    (opened_for_update_bound (lit "hello"))) eq_refl).
  - exact (proj2 (Seek_rejects_arguments Posix _ _ 3 update_stream (lit "hello")
                    (PyInt 2) (PyStr (lit "start"))
                    (opened_for_update_bound (lit "hello"))) eq_refl).
Defined.

Lemma GetCursorPos_is_Seek_zero_witness :
  let s := opened Posix "rwb" (lit "hello") in
  bound Posix (fst s) (snd s) 3 update_stream (lit "hello")
  /\ GetCursorPos Posix (fst s, snd s) = (Return (s_pos update_stream), (fst s, snd s))
  /\ Seek Posix (PyInt 0) current (fst s, snd s) = GetCursorPos Posix (fst s, snd s).
Proof.
  cbv zeta. split; [apply opened_for_update_bound|].
  exact (GetCursorPos_is_Seek_zero Posix _ _ 3 update_stream (lit "hello")
           (opened_for_update_bound (lit "hello"))).
Defined.



Lemma BytesToStr_decodes_or_falls_back_witness :
  encode UTF8 [233] = Some [195; 169]
  /\ _BytesToStr [195; 169] = [233]
  /\ decode UTF8 [195] = None
  /\ _BytesToStr [195] = [195].
Proof.
  assert (encode UTF8 [233] = Some [195; 169]) as H1 by (vm_compute; reflexivity).
  assert (decode UTF8 [195] = None) as H2 by (vm_compute; reflexivity).
  split; [exact H1|]. split.
  - exact (proj1 BytesToStr_decodes_or_falls_back [233] [195; 169] H1).
  - split; [exact H2|].
    exact (proj1 (proj2 BytesToStr_decodes_or_falls_back) [195] H2).
Defined.

Lemma Write_rejects_witness :
  let s := opened Posix "r" (lit "hello") in
  is_open Posix fresh = false
  /\ is_open Posix (snd s) = true /\ __binary (snd s) = false
  /\ writes_type (snd s) (PyStr (lit "x")) = true
  /\ _mode (snd s) = READMODE Posix
  /\ Write Posix (PyStr (lit "x")) (empty_world, fresh)
     = (Raise NotOpen, (empty_world, fresh))
  /\ Write Posix (PyBytes (lit "x")) (fst s, snd s)
     = (Raise TypeMismatchStr, (fst s, snd s))
  /\ Write Posix (PyStr (lit "x")) (fst s, snd s)
     = (Raise ReadOnlyMode, (fst s, snd s)).
Proof.
  cbv zeta.
  assert (is_open Posix (snd (opened Posix "r" (lit "hello"))) = true) as H1
    by (vm_compute; reflexivity).
  assert (__binary (snd (opened Posix "r" (lit "hello"))) = false) as H2
    by (vm_compute; reflexivity).
  assert (writes_type (snd (opened Posix "r" (lit "hello"))) (PyStr (lit "x")) = true)
    as H3 by (vm_compute; reflexivity).
  assert (_mode (snd (opened Posix "r" (lit "hello"))) = READMODE Posix) as H4
    by (vm_compute; reflexivity).
  split; [reflexivity|]. split; [exact H1|]. split; [exact H2|].
  split; [exact H3|]. split; [exact H4|]. split; [|split].
  - exact (proj1 (Write_rejects Posix empty_world fresh (PyStr (lit "x"))) eq_refl).
  - exact (proj1 (proj2 (proj2 (Write_rejects Posix _ _ (PyBytes (lit "x")))))
             H1 H2 eq_refl).
  - exact (proj2 (proj2 (proj2 (Write_rejects Posix _ _ (PyStr (lit "x")))))
             H1 H3 H4).
Defined.

Lemma Read_rejects_witness :
  let s := opened Posix "w" (lit "hello") in
  let s' := opened Posix "r" (lit "hello") in
  is_open Posix fresh = false
  /\ is_open Posix (snd s) = true /\ _mode (snd s) = WRITEMODE Posix
  /\ is_open Posix (snd s') = true /\ _mode (snd s') <> WRITEMODE Posix
  /\ Read Posix (PyInt 1) (empty_world, fresh) = (Raise NotOpen, (empty_world, fresh))
  /\ Read Posix (PyStr (lit "1")) (fst s, snd s)
     = (Raise WriteOnlyMode, (fst s, snd s))
  /\ Read Posix (PyStr (lit "1")) (fst s', snd s')
     = (Raise InvalidArgumentNChars, (fst s', snd s')).
Proof.
  cbv zeta.
  assert (is_open Posix (snd (opened Posix "w" (lit "hello"))) = true) as H1
    by (vm_compute; reflexivity).
  assert (_mode (snd (opened Posix "w" (lit "hello"))) = WRITEMODE Posix) as H2
    by (vm_compute; reflexivity).
  assert (is_open Posix (snd (opened Posix "r" (lit "hello"))) = true) as H3
    by (vm_compute; reflexivity).
  assert (_mode (snd (opened Posix "r" (lit "hello"))) <> WRITEMODE Posix) as H4
    by (vm_compute; discriminate).
  split; [reflexivity|]. split; [exact H1|]. split; [exact H2|].
  split; [exact H3|]. split; [exact H4|]. split; [|split].
  - exact (proj1 (Read_rejects Posix empty_world fresh (PyInt 1)) eq_refl).
  - exact (proj1 (proj2 (Read_rejects Posix _ _ (PyStr (lit "1")))) H1 H2).
  - exact (proj2 (proj2 (Read_rejects Posix _ _ (PyStr (lit "1")))) H3 H4 eq_refl).
Defined.

Lemma str_of_handle_witness :
  let s := opened Posix "rwb" (lit "hello") in
  is_open Posix fresh = false
  /\ bound Posix (fst s) (snd s) 3 update_stream (lit "hello")
  /\ described (s_path update_stream) (len (lit "hello"))
     = lit "File: t.txt | Size: 5 Bytes"
  /\ __str__ Posix (empty_world, fresh) = (Raise NotOpen, (empty_world, fresh))
  /\ __str__ Posix (fst s, snd s)
     = (Return (described (s_path update_stream) (len (lit "hello"))),
        (fst s, snd s)).
Proof.
  cbv zeta. split; [reflexivity|]. split; [apply opened_for_update_bound|].
  split; [vm_compute; reflexivity|]. split.
  - exact (proj1 (proj1 (str_of_handle Posix empty_world fresh) eq_refl)).
  - exact (proj1 (proj2 (str_of_handle Posix _ _) 3 update_stream (lit "hello")
                    (opened_for_update_bound (lit "hello")))).
Defined.
